(** * ParksCanadaWeather: the imputation, aggregation and quality-scoring core

    A shallow embedding of [cleanning.py]: the tiered imputation engine
    ([impute_missing_values]), the circular mean, the hourly and daily
    aggregators and the data-quality report, with the properties the
    specification states about them; then the steps that come before
    them in the pipeline, the station of a file ([load_single_csv]), the
    months asked from ECCC ([download_eccc_stanhope_data]), the cleaning
    of the column names ([clean_columns], [process_single_file]) and of
    the combined table ([clean_weather_data]), with further properties
    of all of them read off the code.

    Modelling conventions.
    - A pandas float64 entry is an [option R]: [None] is NaN.  Sensor values
      are idealised as real numbers (the derivation and the directional
      statistics need [exp], [sin], [cos] and [atan]); rounding error is not
      modelled, and nothing is stated about a value that rounding decides.
      Intermediate numpy results that can be infinite are [npfloat]s, and
      [exp] overflows and underflows where it does in float64.
    - A function that can raise returns an [outcome]: its value or the
      exception.
    - Percentages of integer counts are exact rationals.
    - Timestamps are integers: seconds since the epoch, UTC.
    - A DataFrame keeps its two key columns as fields and its other columns
      as an ordered association list, the order of [df.columns].
    - In-place mutation of a DataFrame is explicit state passing.
    - A frame as read from a file, before typing, is a [RawFrame]: its
      cells are numbers or text and the station is one of its columns.
      Reading files, the cache, the network and the log are not
      modelled. *)

From Stdlib Require Import List String Ascii Bool Arith ZArith QArith Qround Lia.
From Stdlib Require Import Reals Lra Psatz.
From Stdlib Require Lqa OrderedTypeEx.
From Stdlib Require Import Sorted Permutation.
Import ListNotations.

Local Open Scope R_scope.
Local Open Scope string_scope.
Local Open Scope list_scope.

(** ** Floating-point values *)

(** A numpy float: a finite value, an infinity or NaN. *)
Inductive npfloat : Type :=
| Fin (r : R)
| PInf
| NInf
| NaN.

(** An entry of a float64 column. *)
Definition cell : Type := option R.

Definition isnull (c : cell) : bool :=
  match c with None => true | Some _ => false end.

Definition notnull (c : cell) : bool := negb (isnull c).

Definition Rltb (x y : R) : bool := if Rlt_dec x y then true else false.
Definition Rleb (x y : R) : bool := if Rle_dec x y then true else false.
Definition Reqb (x y : R) : bool := if Req_dec_T x y then true else false.

(** numpy arithmetic on a Series never raises: a division by zero yields an
    infinity (or NaN for 0/0) and a warning. *)
Definition np_neg (x : npfloat) : npfloat :=
  match x with
  | Fin r => Fin (- r)
  | PInf => NInf
  | NInf => PInf
  | NaN => NaN
  end.

Definition np_add (x y : npfloat) : npfloat :=
  match x, y with
  | NaN, _ | _, NaN => NaN
  | Fin a, Fin b => Fin (a + b)
  | PInf, NInf | NInf, PInf => NaN
  | PInf, _ | _, PInf => PInf
  | NInf, _ | _, NInf => NInf
  end.

Definition np_mul (x y : npfloat) : npfloat :=
  match x, y with
  | NaN, _ | _, NaN => NaN
  | Fin a, Fin b => Fin (a * b)
  | Fin a, PInf | PInf, Fin a =>
      if Rltb 0 a then PInf else if Rltb a 0 then NInf else NaN
  | Fin a, NInf | NInf, Fin a =>
      if Rltb 0 a then NInf else if Rltb a 0 then PInf else NaN
  | PInf, PInf | NInf, NInf => PInf
  | PInf, NInf | NInf, PInf => NInf
  end.

Definition np_div (x y : npfloat) : npfloat :=
  match x, y with
  | NaN, _ | _, NaN => NaN
  | Fin a, Fin b =>
      if Reqb b 0
      then if Rltb 0 a then PInf else if Rltb a 0 then NInf else NaN
      else Fin (a / b)
  | Fin _, PInf | Fin _, NInf => Fin 0
  | PInf, Fin b => if Rltb b 0 then NInf else PInf
  | NInf, Fin b => if Rltb b 0 then PInf else NInf
  | _, _ => NaN
  end.

(** The range of [exp] in float64: above [EXP_OVERFLOW] the result is
    too large for a float and is plus infinity, below [EXP_UNDERFLOW] it
    is too small and is 0. *)
Definition EXP_OVERFLOW : R := 709.782712893384.
Definition EXP_UNDERFLOW : R := -745.1332191019412.

Definition np_exp (x : npfloat) : npfloat :=
  match x with
  | Fin r =>
      if Rltb EXP_OVERFLOW r then PInf
      else if Rltb r EXP_UNDERFLOW then Fin 0
      else Fin (exp r)
  | PInf => PInf
  | NInf => Fin 0
  | NaN => NaN
  end.

(** [np.clip(x, lo, hi)]: NaN stays NaN, infinities are clipped. *)
Definition np_clip (x : npfloat) (lo hi : R) : npfloat :=
  match x with
  | Fin r => Fin (if Rltb r lo then lo else if Rltb hi r then hi else r)
  | PInf => Fin hi
  | NInf => Fin lo
  | NaN => NaN
  end.

Definition of_cell (c : cell) : npfloat :=
  match c with Some r => Fin r | None => NaN end.

(** Storing a numpy result in a float64 column.  The table model has no
    infinite entries; [calculate_rh_from_temp_dew] never returns one
    (see [calculate_rh_no_infinity]). *)
Definition to_cell (x : npfloat) : cell :=
  match x with Fin r => Some r | _ => None end.

(** ** Strings *)

Definition endswith (s suffix : string) : bool :=
  let n := String.length s in
  let m := String.length suffix in
  (m <=? n)%nat && String.eqb (substring (n - m) m s) suffix.

Definition lower_ascii (c : ascii) : ascii :=
  let n := nat_of_ascii c in
  if ((65 <=? n) && (n <=? 90))%nat then ascii_of_nat (n + 32) else c.

Fixpoint lower (s : string) : string :=
  match s with
  | EmptyString => EmptyString
  | String c s' => String (lower_ascii c) (lower s')
  end.

(** [pat in s] on Python strings. *)
Definition contains (pat s : string) : bool :=
  match index 0 pat s with Some _ => true | None => false end.

Definition str_in (s : string) (l : list string) : bool :=
  existsb (String.eqb s) l.

(** ** Series and masks *)

(** [mask.sum()]. *)
Definition count_true (m : list bool) : nat :=
  List.length (filter (fun b : bool => b) m).

(** [series[mask]]: the entries at the rows the mask selects. *)
Fixpoint select {A : Type} (m : list bool) (l : list A) : list A :=
  match m, l with
  | b :: m', x :: l' => if b then x :: select m' l' else select m' l'
  | _, _ => []
  end.

(** [series.loc[mask] = values]: positional write-back at the selected
    rows; the other rows keep their entry. *)
Fixpoint assign {A : Type} (m : list bool) (l : list A) (v : list A) : list A :=
  match m, l with
  | b :: m', x :: l' =>
      if b then
        match v with
        | y :: v' => y :: assign m' l' v'
        | [] => x :: assign m' l' []
        end
      else x :: assign m' l' v
  | _, _ => l
  end.

(** [series.loc[mask] = scalar]. *)
Fixpoint assign_const {A : Type} (m : list bool) (l : list A) (y : A) : list A :=
  match m, l with
  | b :: m', x :: l' => (if b then y else x) :: assign_const m' l' y
  | _, _ => l
  end.

(** Elementwise [&] of two masks. *)
Fixpoint mask_and (a b : list bool) : list bool :=
  match a, b with
  | x :: a', y :: b' => (x && y) :: mask_and a' b'
  | _, _ => []
  end.

(** [series.unique()]: distinct values in order of first appearance. *)
Fixpoint unique_aux (seen : list string) (l : list string) : list string :=
  match l with
  | [] => []
  | x :: l' =>
      if str_in x seen then unique_aux seen l'
      else x :: unique_aux (x :: seen) l'
  end.

Definition unique (l : list string) : list string := unique_aux [] l.

(** ** DataFrames *)

Inductive Column : Type :=
| Float64 (v : list cell)      (* numeric variable, NaN allowed *)
| Int64 (v : list Z)           (* integer column: the provenance flags *)
| DatetimeTZ (v : list Z)      (* datetime64[ns, UTC], seconds here *)
| ObjectDate (v : list Z).     (* python dates, days since the epoch *)

Record DataFrame : Type := mkDataFrame {
  Datetime_UTC : list Z;
  station : list string;
  columns : list (string * Column)
}.

Fixpoint get_col (cols : list (string * Column)) (name : string) : option Column :=
  match cols with
  | [] => None
  | (n, c) :: rest => if String.eqb n name then Some c else get_col rest name
  end.

(** [df[name] = c]: overwrite in place, or append a new last column. *)
Fixpoint set_col (cols : list (string * Column)) (name : string) (c : Column)
  : list (string * Column) :=
  match cols with
  | [] => [(name, c)]
  | (n, c0) :: rest =>
      if String.eqb n name then (n, c) :: rest else (n, c0) :: set_col rest name c
  end.


Definition with_col (df : DataFrame) (name : string) (c : Column) : DataFrame :=
  mkDataFrame (Datetime_UTC df) (station df) (set_col (columns df) name c).

(** The entries of a numeric column as float cells (an integer column holds
    no NaN); [None] when the column is absent or not numeric. *)
Definition float_values (df : DataFrame) (name : string) : option (list cell) :=
  match get_col (columns df) name with
  | Some (Float64 v) => Some v
  | Some (Int64 v) => Some (map (fun z => Some (IZR z)) v)
  | _ => None
  end.

Definition is_numeric_dtype (c : Column) : bool :=
  match c with Float64 _ | Int64 _ => true | _ => false end.

(** [len(df)]. *)
Definition len (df : DataFrame) : nat := List.length (station df).

Definition station_mask (df : DataFrame) (s : string) : list bool :=
  map (String.eqb s) (station df).

(** ** Sorting: [df.sort_values(['station', 'Datetime_UTC'])] *)

Definition key_le (a b : string * Z) : bool :=
  match String.compare (fst a) (fst b) with
  | Lt => true
  | Gt => false
  | Eq => (snd a <=? snd b)%Z
  end.

Definition row_key (df : DataFrame) (i : nat) : string * Z :=
  (nth i (station df) "", nth i (Datetime_UTC df) 0%Z).

Fixpoint insert_by {K : Type} (le : K -> K -> bool) (key : nat -> K)
  (i : nat) (l : list nat) : list nat :=
  match l with
  | [] => [i]
  | j :: l' => if le (key i) (key j) then i :: j :: l' else j :: insert_by le key i l'
  end.

(** The stable sorting permutation of the rows: rows are inserted from the
    last to the first, each before the rows whose key is not smaller. *)
Definition argsort (df : DataFrame) : list nat :=
  fold_right (insert_by key_le (row_key df)) [] (seq 0 (len df)).

Definition take_col (perm : list nat) (c : Column) : Column :=
  match c with
  | Float64 v => Float64 (map (fun i => nth i v None) perm)
  | Int64 v => Int64 (map (fun i => nth i v 0%Z) perm)
  | DatetimeTZ v => DatetimeTZ (map (fun i => nth i v 0%Z) perm)
  | ObjectDate v => ObjectDate (map (fun i => nth i v 0%Z) perm)
  end.

(** [df.iloc[perm].reset_index(drop=True)]. *)
Definition take (df : DataFrame) (perm : list nat) : DataFrame :=
  mkDataFrame (map (fun i => nth i (Datetime_UTC df) 0%Z) perm)
              (map (fun i => nth i (station df) "") perm)
              (map (fun nc => (fst nc, take_col perm (snd nc))) (columns df)).

Definition sort_values (df : DataFrame) : DataFrame := take df (argsort df).

(** ** Configuration: the [CONFIG] dictionary *)

Definition INTERPOLATE_LIMIT_HOURS : nat := 3.
Definition FORWARD_FILL_LIMIT_HOURS : nat := 6.
Definition BACKWARD_FILL_LIMIT_HOURS : nat := 3.
Definition IMPUTATION_THRESHOLD_PCT : Q := 25%Q.
Definition TEMP_MIN : R := -40.
Definition TEMP_MAX : R := 40.
Definition RH_MIN : R := 0.
Definition RH_MAX : R := 100.
Definition DEW_MIN : R := -60.
Definition DEW_MAX : R := 50.

(** ** pandas fills *)

Definition slice {A : Type} (lo hi : nat) (l : list A) : list A :=
  firstn (hi - lo) (skipn lo l).

(** pandas [_interp_limit]: the rows that stay NaN because no valid entry
    lies within [fw_limit] rows before or [bw_limit] rows after them:
    [invalid[max(0, x - fw_limit) : x + bw_limit + 1].all()]. *)
Definition interp_limit (invalid : list bool) (fw_limit bw_limit : nat) : list bool :=
  map (fun x => nth x invalid false
                && forallb (fun b : bool => b)
                     (slice (x - fw_limit) (x + bw_limit + 1) invalid))
      (seq 0 (List.length invalid)).

(** [np.interp(x, xp, fp)] on points sorted by [xp]: linear between the
    two surrounding points, the edge value outside them. *)
Fixpoint interp_from (x x0 : Z) (y0 : R) (pts : list (Z * R)) : R :=
  match pts with
  | [] => y0
  | (x1, y1) :: rest =>
      if (x <? x1)%Z
      then (y1 - y0) / (IZR x1 - IZR x0) * (IZR x - IZR x0) + y0
      else interp_from x x1 y1 rest
  end.

Definition np_interp (x : Z) (pts : list (Z * R)) : cell :=
  match pts with
  | [] => None
  | (x0, y0) :: rest => Some (if (x <=? x0)%Z then y0 else interp_from x x0 y0 rest)
  end.

Fixpoint valid_points (index : list Z) (v : list cell) : list (Z * R) :=
  match index, v with
  | t :: index', Some y :: v' => (t, y) :: valid_points index' v'
  | _ :: index', None :: v' => valid_points index' v'
  | _, _ => []
  end.

Fixpoint fill_interp (pts : list (Z * R)) (index : list Z) (v : list cell)
  (preserve : list bool) : list cell :=
  match v with
  | [] => []
  | c :: v' =>
      (match c with
       | Some _ => c
       | None => if hd true preserve then None else np_interp (hd 0%Z index) pts
       end) :: fill_interp pts (tl index) v' (tl preserve)
  end.

(** [series.interpolate(method='time', limit=limit, limit_direction='both')]
    on a series indexed by [index].  [limit] is pandas' "maximum number of
    consecutive NaNs to fill": it counts rows.  A series without any valid
    entry has no points and stays as it is. *)
Definition interpolate_time (index : list Z) (v : list cell) (limit : nat) : list cell :=
  fill_interp (valid_points index v) index v (interp_limit (map isnull v) limit limit).

(** [series.ffill(limit=limit)]: an entry is filled with the last valid one
    when fewer than [limit] NaNs precede it in its gap. *)
Fixpoint ffill_aux (limit : nat) (last : cell) (run : nat) (v : list cell) : list cell :=
  match v with
  | [] => []
  | Some y :: v' => Some y :: ffill_aux limit (Some y) 0 v'
  | None :: v' =>
      (if (run <? limit)%nat then last else None) :: ffill_aux limit last (S run) v'
  end.

Definition ffill (limit : nat) (v : list cell) : list cell := ffill_aux limit None 0 v.

Definition bfill (limit : nat) (v : list cell) : list cell := rev (ffill limit (rev v)).

(** ** Imputation engine *)

(** [calculate_rh_from_temp_dew]: the Magnus formula.  The source wraps the
    body in [try ... except (ValueError, TypeError, ZeroDivisionError,
    OverflowError): return np.nan]; the numpy operations on a Series do not
    raise, so the handler is never entered and the body is the function. *)
Definition calculate_rh_from_temp_dew (temp dew : npfloat) : npfloat :=
  let a := Fin 17.625 in
  let b := Fin 243.04 in
  let vapor_pressure_dew := np_exp (np_div (np_mul a dew) (np_add b dew)) in
  let vapor_pressure_temp := np_exp (np_div (np_mul a temp) (np_add b temp)) in
  let rh := np_mul (Fin 100) (np_div vapor_pressure_dew vapor_pressure_temp) in
  np_clip rh 0 100.

(** The column being imputed and its [<col>_imputed] flag column. *)
Record ColState : Type := mkColState {
  vals : list cell;
  flags : list Z
}.

(** [df[flag_col] = 0; df.loc[df[col].isnull(), flag_col] = 1]. *)
Definition init_flags (v : list cell) : list Z :=
  map (fun c => if isnull c then 1%Z else 0%Z) v.

Definition station_missing_pct (df : DataFrame) (v : list cell) (s : string) : Q :=
  let mask := station_mask df s in
  let station_total := count_true mask in
  let station_missing := count_true (map isnull (select mask v)) in
  if (0 <? station_total)%nat
  then ((Z.of_nat station_missing # Pos.of_nat station_total) * 100)%Q
  else 0%Q.

Definition skip_station (df : DataFrame) (v : list cell) (s : string) : bool :=
  Qle_bool IMPUTATION_THRESHOLD_PCT (station_missing_pct df v s).

Definition stations_to_impute (df : DataFrame) (v : list cell) : list string :=
  filter (fun s => negb (skip_station df v s)) (unique (station df)).

Definition stations_to_skip (df : DataFrame) (v : list cell) : list string :=
  filter (skip_station df v) (unique (station df)).

(** Tier 1: time interpolation, station by station. *)
Definition tier1_station (df : DataFrame) (v : list cell) (s : string) : list cell :=
  let mask := station_mask df s in
  assign mask v
    (interpolate_time (select mask (Datetime_UTC df)) (select mask v)
       INTERPOLATE_LIMIT_HOURS).

Definition tier1 (df : DataFrame) (sts : list string) (st : ColState) : ColState :=
  mkColState (fold_left (tier1_station df) sts (vals st)) (flags st).

(** Tier 2: forward then backward fill, for the persistence variables. *)
Definition tier2_station (df : DataFrame) (v : list cell) (s : string) : list cell :=
  let mask := station_mask df s in
  assign mask v
    (bfill BACKWARD_FILL_LIMIT_HOURS
       (ffill FORWARD_FILL_LIMIT_HOURS (select mask v))).

Definition tier2 (df : DataFrame) (col : string) (sts : list string) (st : ColState)
  : ColState :=
  if str_in col ["Temperature"; "Dew"; "Rh"; "Wind Speed"]
  then mkColState (fold_left (tier2_station df) sts (vals st))
                  (assign_const (map isnull (vals st)) (flags st) 2%Z)
  else st.

(** Tier 3: variable-specific rules. *)
Definition tier3_rain_station (df : DataFrame) (st : ColState) (s : string) : ColState :=
  let m := mask_and (station_mask df s) (map isnull (vals st)) in
  mkColState (assign_const m (vals st) (Some 0%R)) (assign_const m (flags st) 3%Z).

Definition tier3_gust_station (df : DataFrame) (wind_speed : list cell)
  (st : ColState) (s : string) : ColState :=
  let missing_gust := map isnull (vals st) in
  let has_wind_speed := map notnull wind_speed in
  let m := mask_and (mask_and (station_mask df s) missing_gust) has_wind_speed in
  mkColState (assign m (vals st) (select m wind_speed))
             (assign_const m (flags st) 3%Z).

Fixpoint calculated_rh (temp dew : list cell) : list cell :=
  match temp, dew with
  | t :: temp', d :: dew' =>
      to_cell (calculate_rh_from_temp_dew (of_cell t) (of_cell d))
      :: calculated_rh temp' dew'
  | _, _ => []
  end.

Definition tier3_rh_station (df : DataFrame) (temp dew : list cell)
  (st : ColState) (s : string) : ColState :=
  let missing_rh := map isnull (vals st) in
  let has_temp_dew := mask_and (map notnull temp) (map notnull dew) in
  let m := mask_and (mask_and (station_mask df s) missing_rh) has_temp_dew in
  if (0 <? count_true m)%nat
  then mkColState (assign m (vals st) (calculated_rh (select m temp) (select m dew)))
                  (assign_const m (flags st) 3%Z)
  else st.

Definition tier3 (df : DataFrame) (col : string) (sts : list string) (st : ColState)
  : ColState :=
  if String.eqb col "Rain" then fold_left (tier3_rain_station df) sts st
  else if String.eqb col "Wind Gust Speed" then
    match float_values df "Wind Speed" with
    | Some wind_speed => fold_left (tier3_gust_station df wind_speed) sts st
    | None => st
    end
  else if String.eqb col "Rh" then
    match float_values df "Temperature", float_values df "Dew" with
    | Some temp, Some dew => fold_left (tier3_rh_station df temp dew) sts st
    | _, _ => st
    end
  else st.

(** Bounds checking. *)
Definition out_of_bounds (lo hi : R) (c : cell) : bool :=
  match c with
  | Some x => Rltb x lo || Rltb hi x
  | None => false
  end.

Definition clip (lo hi : R) (c : cell) : cell :=
  match c with
  | Some x => Some (if Rltb x lo then lo else if Rltb hi x then hi else x)
  | None => None
  end.

Definition bounds_check (col : string) (st : ColState) : ColState :=
  if String.eqb col "Temperature" then
    let oob := map (out_of_bounds TEMP_MIN TEMP_MAX) (vals st) in
    if (0 <? count_true oob)%nat
    then mkColState (assign_const oob (vals st) None) (flags st)
    else st
  else if String.eqb col "Rh" then
    let oob := map (out_of_bounds RH_MIN RH_MAX) (vals st) in
    if (0 <? count_true oob)%nat
    then mkColState (map (clip RH_MIN RH_MAX) (vals st)) (flags st)
    else st
  else if String.eqb col "Dew" then
    let oob := map (out_of_bounds DEW_MIN DEW_MAX) (vals st) in
    if (0 <? count_true oob)%nat
    then mkColState (assign_const oob (vals st) None)
                    (assign_const oob (flags st) 0%Z)
    else st
  else st.

(** The column state after tiers 1 to 3, before bounds checking. *)
Definition after_tier3 (df : DataFrame) (col : string) (v : list cell) : ColState :=
  let sts := stations_to_impute df v in
  tier3 df col sts (tier2 df col sts (tier1 df sts (mkColState v (init_flags v)))).

Definition flag_col (col : string) : string := String.append col "_imputed".

(** The body of the loop over [numeric_cols].  Only a float column can hold
    NaN; for any other column [original_missing == 0] and the loop
    continues. *)
Definition impute_column (df : DataFrame) (col : string) : DataFrame :=
  match get_col (columns df) col with
  | Some (Float64 v) =>
      let original_missing := count_true (map isnull v) in
      if (original_missing =? 0)%nat then df
      else
        let st := bounds_check col (after_tier3 df col v) in
        with_col (with_col df (flag_col col) (Int64 (flags st))) col (Float64 (vals st))
  | _ => df
  end.

(** The columns a loop over "all columns except datetime, station and the
    flags" visits. *)
Definition data_columns (df : DataFrame) : list string :=
  filter (fun c => negb (str_in c ["Datetime_UTC"; "station"])
                   && negb (endswith c "_imputed"))
         (map fst (columns df)).

(** [impute_missing_values].  The table model starts after the dtype
    coercion of object columns; the statistics the source only logs are
    not part of the result. *)
Definition impute_missing_values (df : DataFrame) : DataFrame :=
  let df := sort_values df in
  let numeric_cols := data_columns df in
  fold_left impute_column numeric_cols df.

(** ** Circular statistics *)

Definition np_deg2rad (x : R) : R := x * (PI / 180).
Definition np_rad2deg (x : R) : R := x * (180 / PI).

(** [np.arctan2(y, x)], the angle of the vector [(x, y)] in (-pi, pi];
    0 for the null vector. *)
Definition np_arctan2 (y x : R) : R :=
  if Rltb 0 x then atan (y / x)
  else if Rltb x 0 then
    if Rltb y 0 then atan (y / x) - PI else atan (y / x) + PI
  else if Rltb 0 y then PI / 2
  else if Rltb y 0 then - (PI / 2)
  else 0.

Fixpoint dropna (v : list cell) : list R :=
  match v with
  | [] => []
  | Some x :: v' => x :: dropna v'
  | None :: v' => dropna v'
  end.

Definition Rsum (l : list R) : R := fold_right Rplus 0 l.

Definition Rmean (l : list R) : R := Rsum l / INR (List.length l).

(** [circular_mean_degrees], with [sin], [cos] and [arctan2] taken over
    the real numbers: the value is the one the source computes up to the
    rounding of these functions, which decides the result when the
    directions cancel. *)
Definition circular_mean_degrees (angles : list cell) : cell :=
  let angles := dropna angles in
  if (List.length angles =? 0)%nat then None
  else
    let angles_rad := map np_deg2rad angles in
    let sin_mean := Rmean (map sin angles_rad) in
    let cos_mean := Rmean (map cos angles_rad) in
    let mean_angle_rad := np_arctan2 sin_mean cos_mean in
    let mean_angle_deg := np_rad2deg mean_angle_rad in
    Some (if Rltb mean_angle_deg 0 then mean_angle_deg + 360 else mean_angle_deg).

(** ** Aggregation *)

(** What a function returns to its caller: a value or a raised exception. *)
Inductive outcome (A : Type) : Type :=
| Returned (a : A)
| Raised (exception : string).

Arguments Returned {A} a.
Arguments Raised {A} exception.

Definition select_col (m : list bool) (c : Column) : Column :=
  match c with
  | Float64 v => Float64 (select m v)
  | Int64 v => Int64 (select m v)
  | DatetimeTZ v => DatetimeTZ (select m v)
  | ObjectDate v => ObjectDate (select m v)
  end.

(** [df[mask]]: the rows the mask selects, as a new frame. *)
Definition filter_rows (df : DataFrame) (m : list bool) : DataFrame :=
  mkDataFrame (select m (Datetime_UTC df)) (select m (station df))
              (map (fun nc => (fst nc, select_col m (snd nc))) (columns df)).

(** [df.drop(columns=[c for c in df.columns if c.endswith('_imputed')])]. *)
Definition drop_flag_cols (df : DataFrame) : DataFrame :=
  mkDataFrame (Datetime_UTC df) (station df)
              (filter (fun nc => negb (endswith (fst nc) "_imputed")) (columns df)).

(** The values of a numeric column seen as floats. *)
Definition as_float (c : Column) : list cell :=
  match c with
  | Float64 v => v
  | Int64 v => map (fun z => Some (IZR z)) v
  | _ => []
  end.

Definition key_eqb (a b : string * Z) : bool :=
  String.eqb (fst a) (fst b) && Z.eqb (snd a) (snd b).

Fixpoint insert_key (k : string * Z) (l : list (string * Z)) : list (string * Z) :=
  match l with
  | [] => [k]
  | k' :: l' =>
      if key_eqb k k' then l
      else if key_le k k' then k :: l
      else k' :: insert_key k l'
  end.

(** The groups of [groupby([...], observed=True)]: the distinct keys that
    occur, in sorted order. *)
Definition group_keys (keys : list (string * Z)) : list (string * Z) :=
  fold_right insert_key [] keys.

(** The entries of a series that belong to the group of key [k]. *)
Definition group_values {A : Type} (keys : list (string * Z)) (k : string * Z)
  (v : list A) : list A :=
  select (map (key_eqb k) keys) v.

Inductive AggFn : Type := AggMax | AggSum | AggMin | AggMean | AggCircular.

Definition Rmax_list (l : list R) : cell :=
  match l with
  | [] => None
  | x :: l' => Some (fold_left Rmax l' x)
  end.

Definition Rmin_list (l : list R) : cell :=
  match l with
  | [] => None
  | x :: l' => Some (fold_left Rmin l' x)
  end.

(** The pandas reductions skip NaN; over no valid entry [sum] is 0 and the
    others are NaN. *)
Definition apply_agg (f : AggFn) (v : list cell) : cell :=
  match f with
  | AggMax => Rmax_list (dropna v)
  | AggMin => Rmin_list (dropna v)
  | AggSum => Some (Rsum (dropna v))
  | AggMean =>
      match dropna v with
      | [] => None
      | l => Some (Rmean l)
      end
  | AggCircular => circular_mean_degrees v
  end.

(** Round to the nearest integer, ties to even. *)
Definition rint (x : R) : Z :=
  let f := Zfloor x in
  let d := x - IZR f in
  if Rltb d (1 / 2) then f
  else if Rltb (1 / 2) d then (f + 1)%Z
  else if Z.even f then f else (f + 1)%Z.

(** [series.round(2)]. *)
Definition round2 (c : cell) : cell :=
  match c with
  | Some x => Some (IZR (rint (x * 100)) / 100)
  | None => None
  end.

(** One aggregated column: for every group the reduction of its entries,
    rounded to two decimals.  Sums, means and the rounding are exact here;
    in float64 a mean can leave the range of the values it averages by a
    rounding error, so no order between the rounded statistics is
    stated. *)
Definition aggregate_col (keys groups : list (string * Z)) (f : AggFn) (c : Column)
  : Column :=
  Float64 (map (fun k => round2 (apply_agg f (group_values keys k (as_float c)))) groups).

Definition floor_hour (t : Z) : Z := (t / 3600 * 3600)%Z.

Definition minutes_from_hour (t : Z) : R := IZR (t - floor_hour t) / 60.

(** The [+-30 minutes] filter on a value of [minutes_from_hour]. *)
Definition in_window (m : R) : bool := Rleb (-30) m && Rleb m 30.

(** The aggregation rule chosen from the column name. *)
Definition is_gust (col : string) : bool :=
  let col_lower := lower col in
  contains "wind gust speed" col_lower || contains "gust speed" col_lower.

Definition is_rain (col : string) : bool :=
  let col_lower := lower col in
  contains "rain" col_lower || contains "precipitation" col_lower.

Definition is_direction (col : string) : bool :=
  let col_lower := lower col in
  contains "wind direction" col_lower || String.eqb col "Wind Direction".

Definition hourly_rule (col : string) : AggFn :=
  if is_gust col then AggMax
  else if is_rain col then AggSum
  else if is_direction col then AggCircular
  else AggMean.

(** [pd.to_numeric(series, errors='coerce')] on a column of dtype object.
    The object columns of the table model hold python dates, and a date is
    no number: every entry is coerced to NaN and the column becomes
    float64.  A column without entries gives pandas nothing to make a
    float of, and comes back as int64. *)
Definition to_numeric (dates : list Z) : Column :=
  match dates with
  | [] => Int64 []
  | _ => Float64 (map (fun _ => None) dates)
  end.

(** What the loop over [numeric_cols_to_fix] makes of the column [name]:
    an object column other than [station] and [Datetime_UTC] is replaced
    by its coercion, any other column is not in the list. *)
Definition coerce (name : string) (c : Column) : Column :=
  match c with
  | ObjectDate dates =>
      if str_in name ["station"; "Datetime_UTC"] then c else to_numeric dates
  | _ => c
  end.

(** [for col in numeric_cols_to_fix: df[col] = pd.to_numeric(df[col],
    errors='coerce')], written into the frame the aggregator was given. *)
Definition coerce_objects (df : DataFrame) : DataFrame :=
  mkDataFrame (Datetime_UTC df) (station df)
              (map (fun nc => (fst nc, coerce (fst nc) (snd nc))) (columns df)).

(** The input frame as [create_hourly_aggregates] leaves it: its object
    columns are coerced to numbers and the columns [hour_label] and
    [minutes_from_hour] are written into it. *)
Definition hourly_labelled (df : DataFrame) : DataFrame :=
  let df := coerce_objects df in
  let df := with_col df "hour_label" (DatetimeTZ (map floor_hour (Datetime_UTC df))) in
  with_col df "minutes_from_hour"
    (Float64 (map (fun t => Some (minutes_from_hour t)) (Datetime_UTC df))).

(** [hourly_data]: the rows inside the window, without the flag columns. *)
Definition hourly_data (df : DataFrame) : DataFrame :=
  let df := hourly_labelled df in
  let window := map (fun t => in_window (minutes_from_hour t)) (Datetime_UTC df) in
  drop_flag_cols (filter_rows df window).

Definition hourly_keys (hd : DataFrame) : list (string * Z) :=
  combine (station hd) (map floor_hour (Datetime_UTC hd)).

Definition hourly_agg_dict (hd : DataFrame) : list (string * (AggFn * Column)) :=
  map (fun nc => (fst nc, (hourly_rule (fst nc), snd nc)))
    (filter (fun nc =>
               negb (str_in (fst nc)
                       ["station"; "hour_label"; "Datetime_UTC"; "minutes_from_hour"])
               && is_numeric_dtype (snd nc))
            (columns hd)).

(** [create_hourly_aggregates]: the input frame after the call, and the
    result.  Aggregating with an empty dictionary raises in pandas. *)
Definition create_hourly_aggregates (df : DataFrame)
  : DataFrame * outcome DataFrame :=
  let hd := hourly_data df in
  let keys := hourly_keys hd in
  let groups := group_keys keys in
  let agg_dict := hourly_agg_dict hd in
  (hourly_labelled df,
   match agg_dict with
   | [] => Raised "ValueError: No objects to concatenate"
   | _ =>
       Returned
         (mkDataFrame (map snd groups) (map fst groups)
            (map (fun e => (fst e, aggregate_col keys groups (fst (snd e)) (snd (snd e))))
                 agg_dict))
   end).

Definition date_label (t : Z) : Z := (t / 86400)%Z.

(** The input frame as [create_daily_aggregates] leaves it: its object
    columns are coerced to numbers, then [date_label], a column of python
    dates, is written into it. *)
Definition daily_labelled (df : DataFrame) : DataFrame :=
  let df := coerce_objects df in
  with_col df "date_label" (ObjectDate (map date_label (Datetime_UTC df))).

Definition daily_keys (df : DataFrame) : list (string * Z) :=
  combine (station df) (map date_label (Datetime_UTC df)).

(** The aggregated series one source column contributes to [agg_list]. *)
Definition daily_aggs (col : string) : list (string * AggFn) :=
  if is_gust col then [(col, AggMax)]
  else if is_rain col then [(col, AggSum)]
  else if is_direction col then [(col, AggCircular)]
  else [(String.append col "_min", AggMin);
        (String.append col "_max", AggMax);
        (String.append col "_mean", AggMean)].

Definition daily_agg_list (df_for_agg : DataFrame) : list (string * (AggFn * Column)) :=
  flat_map (fun nc => map (fun e => (fst e, (snd e, snd nc))) (daily_aggs (fst nc)))
    (filter (fun nc =>
               negb (str_in (fst nc) ["station"; "date_label"; "Datetime_UTC"])
               && is_numeric_dtype (snd nc))
            (columns df_for_agg)).

(** [create_daily_aggregates]: the input frame after the call, and the
    result.  [pd.concat] of an empty list raises. *)
Definition create_daily_aggregates (df : DataFrame)
  : DataFrame * outcome DataFrame :=
  let df' := daily_labelled df in
  let df_for_agg := drop_flag_cols df' in
  let keys := daily_keys df_for_agg in
  let groups := group_keys keys in
  let agg_list := daily_agg_list df_for_agg in
  (df',
   match agg_list with
   | [] => Raised "ValueError: No objects to concatenate"
   | _ =>
       Returned
         (mkDataFrame (map (fun k => (snd k * 86400)%Z) groups) (map fst groups)
            (map (fun e => (fst e, aggregate_col keys groups (fst (snd e)) (snd (snd e))))
                 agg_list))
   end).

(** ** Data-quality report *)

Fixpoint insert_string (s : string) (l : list string) : list string :=
  match l with
  | [] => [s]
  | s' :: l' =>
      match String.compare s s' with
      | Gt => s' :: insert_string s l'
      | _ => s :: l
      end
  end.

(** Python [sorted] on strings. *)
Definition sorted (l : list string) : list string := fold_right insert_string [] l.

Fixpoint insert_R (x : R) (l : list R) : list R :=
  match l with
  | [] => [x]
  | y :: l' => if Rleb x y then x :: l else y :: insert_R x l'
  end.

Definition sort_R (l : list R) : list R := fold_right insert_R [] l.

(** [series.quantile(num/den)] with linear interpolation between the two
    closest ranks. *)
Definition quantile (l : list R) (num den : nat) : R :=
  let a := sort_R l in
  let pos := ((List.length a - 1) * num)%nat in
  let lo := (pos / den)%nat in
  let x := nth lo a 0 in
  let y := nth (lo + 1) a x in
  x + (y - x) * (INR (pos mod den) / INR den).

(** Round a percentage to two decimals, ties to even. *)
Definition round2_pct (q : Q) : Q :=
  let s := (q * 100)%Q in
  let f := Qfloor s in
  let d := (s - inject_Z f)%Q in
  let n := match (d ?= 1 # 2)%Q with
           | Lt => f
           | Gt => (f + 1)%Z
           | Eq => if Z.even f then f else (f + 1)%Z
           end in
  (inject_Z n / 100)%Q.

Definition pct (count total : nat) : Q :=
  if (0 <? total)%nat
  then ((Z.of_nat count # Pos.of_nat total) * 100)%Q
  else 0%Q.

(** [column.isnull().sum()]. *)
Definition null_count (c : Column) : nat :=
  match c with
  | Float64 v => count_true (map isnull v)
  | _ => 0%nat
  end.

(** [(column == k).sum()]. *)
Definition count_eq (c : Column) (k : Z) : nat :=
  match c with
  | Float64 v =>
      count_true (map (fun x => match x with Some r => Reqb r (IZR k) | None => false end) v)
  | Int64 v => count_true (map (Z.eqb k) v)
  | _ => 0%nat
  end.

Record QualityRow : Type := mkQualityRow {
  q_station : string;
  q_column : string;
  total_rows : Z;
  missing_count : Z;
  missing_percent : Q;
  original_data_count : Z;
  interpolated_count : Z;
  forward_backward_filled_count : Z;
  calculated_count : Z;
  total_imputed_count : Z;
  imputation_percent : Q;
  q_mean : cell;
  q_median : cell;
  q_min : cell;
  q_max : cell;
  q_q1 : cell;
  q_q3 : cell;
  q_iqr : cell
}.

(** [len(series.dropna())].  The timestamps and the dates of the table
    model are all valid. *)
Definition valid_count (c : Column) : nat :=
  match c with
  | Float64 v => List.length (dropna v)
  | Int64 v | DatetimeTZ v | ObjectDate v => List.length v
  end.

(** Whether the statistics of the loop body fail.  Of a column of
    timestamps with a valid entry [valid_data.mean()] is a Timestamp, and
    [np.isnan] of a Timestamp raises TypeError; of a column of python
    dates with a valid entry [valid_data.mean()] itself raises TypeError.
    Without a valid entry the statistics are set to [np.nan] and nothing
    is raised; the statistics of a numeric column are numbers. *)
Definition statistics_raise (c : Column) : bool :=
  negb (is_numeric_dtype c) && (0 <? valid_count c)%nat.

(** The dictionary the loop body appends once its statistics are there:
    the body shared by the per-station loop and the summary loop, on the
    frame [sub] of the rows it covers.  The body gets this far only when
    [statistics_raise] is false, and then the column is numeric or has no
    entry (see [quality_record]). *)
Definition quality_row (label : string) (sub : DataFrame) (col : string) (c : Column)
  : QualityRow :=
  let total := len sub in
  let missing := null_count c in
  let counts :=
    match get_col (columns sub) (flag_col col) with
    | Some fc =>
        let imputed_1_interpolated := Z.of_nat (count_eq fc 1) in
        let imputed_2_forward_back := Z.of_nat (count_eq fc 2) in
        let imputed_3_calculated := Z.of_nat (count_eq fc 3) in
        (Z.of_nat (count_eq fc 0), imputed_1_interpolated, imputed_2_forward_back,
         imputed_3_calculated,
         (imputed_1_interpolated + imputed_2_forward_back + imputed_3_calculated)%Z)
    | None => ((Z.of_nat total - Z.of_nat missing)%Z, 0%Z, 0%Z, 0%Z, 0%Z)
    end in
  let '(imputed_0_original, imputed_1_interpolated, imputed_2_forward_back,
        imputed_3_calculated, total_imputed) := counts in
  let valid_data := dropna (as_float c) in
  let stat (x : R) : cell :=
    match valid_data with [] => None | _ => round2 (Some x) end in
  let q1_val := quantile valid_data 1 4 in
  let q3_val := quantile valid_data 3 4 in
  mkQualityRow label col (Z.of_nat total) (Z.of_nat missing)
    (round2_pct (pct missing total))
    imputed_0_original imputed_1_interpolated imputed_2_forward_back
    imputed_3_calculated total_imputed
    (round2_pct (if (0 <? total)%nat
                 then ((total_imputed # Pos.of_nat total) * 100)%Q else 0%Q))
    (stat (Rmean valid_data))
    (stat (quantile valid_data 1 2))
    (match Rmin_list valid_data with Some x => stat x | None => None end)
    (match Rmax_list valid_data with Some x => stat x | None => None end)
    (stat q1_val) (stat q3_val) (stat (q3_val - q1_val)).

(** One pass of the loop body for a column that is in the frame: the
    record, or the exception of its statistics. *)
Definition quality_record (label : string) (sub : DataFrame) (col : string) (c : Column)
  : outcome QualityRow :=
  if statistics_raise c then Raised "TypeError"
  else Returned (quality_row label sub col c).

(** A loop that appends rows to a list, pass after pass; the first
    exception ends it and nothing is returned. *)
Fixpoint collect {A B : Type} (body : A -> outcome (list B)) (l : list A)
  : outcome (list B) :=
  match l with
  | [] => Returned []
  | x :: l' =>
      match body x with
      | Raised e => Raised e
      | Returned rows =>
          match collect body l' with
          | Raised e => Raised e
          | Returned rest => Returned (rows ++ rest)
          end
      end
  end.

(** The loop over [data_cols], for the rows of [sub]. *)
Definition quality_rows (label : string) (sub : DataFrame) (data_cols : list string)
  : outcome (list QualityRow) :=
  collect (fun col =>
             match get_col (columns sub) col with
             | Some c =>
                 match quality_record label sub col c with
                 | Returned row => Returned [row]
                 | Raised e => Raised e
                 end
             | None => Returned []
             end) data_cols.

(** [create_data_quality_csv]: the per-station rows, then one
    [ALL_STATIONS] row per data column. *)
Definition create_data_quality_csv (df : DataFrame) : outcome (list QualityRow) :=
  let data_cols := data_columns df in
  match collect (fun s => quality_rows s (filter_rows df (station_mask df s)) data_cols)
                (sorted (unique (station df))) with
  | Raised e => Raised e
  | Returned report_rows =>
      match quality_rows "ALL_STATIONS" df data_cols with
      | Raised e => Raised e
      | Returned summary_rows => Returned (report_rows ++ summary_rows)
      end
  end.

(** ** Loading: stations, file paths and download schedule *)

(** The tables read from the CSV files, before any typing: a cell is a
    number, a text or missing, and the station is a column like the
    others.  A column name is taken to be ASCII text. *)
Inductive value : Type :=
| Num (r : R)
| Str (s : string).

Definition rcell : Type := option value.

Definition value_eqb (a b : value) : bool :=
  match a, b with
  | Num x, Num y => Reqb x y
  | Str s, Str t => String.eqb s t
  | _, _ => false
  end.

Definition rnull (c : rcell) : bool :=
  match c with None => true | Some _ => false end.

(** A raw frame: its number of rows (the index) and its labelled columns,
    in the order of [df.columns]; labels may repeat. *)
Record RawFrame : Type := mkRawFrame {
  nrows : nat;
  rcolumns : list (string * list rcell)
}.

Definition backslash : ascii := ascii_of_nat 92.
Definition slash : ascii := ascii_of_nat 47.

(** [s.replace(a, b)] for single characters. *)
Fixpoint replace_char (a b : ascii) (s : string) : string :=
  match s with
  | EmptyString => EmptyString
  | String c s' => String (if Ascii.eqb c a then b else c) (replace_char a b s')
  end.

(** [s.split(sep)] for a single character: at least one part. *)
Fixpoint split_on (sep : ascii) (s : string) : list string :=
  match s with
  | EmptyString => [EmptyString]
  | String c s' =>
      if Ascii.eqb c sep then EmptyString :: split_on sep s'
      else match split_on sep s' with
           | p :: ps => String c p :: ps
           | [] => [String c EmptyString]
           end
  end.

(** The station of a file, in [load_single_csv]: the first folder of its
    relative path. *)
Definition station_of_path (relative_path : string) : string :=
  let path_parts := split_on slash (replace_char backslash slash relative_path) in
  match path_parts with
  | p :: _ => p
  | [] => "unknown"
  end.

(** The months [download_eccc_stanhope_data] asks for, in the order of
    the requests, when run in month [current_month] of [current_year]. *)
Definition ECCC_START_YEAR : nat := 2022.

Definition eccc_months (current_year current_month : nat) : list (nat * nat) :=
  flat_map
    (fun year =>
       let last_month := if (year =? current_year)%nat then current_month else 12%nat in
       map (fun month => (year, month)) (seq 1 last_month))
    (seq ECCC_START_YEAR (current_year + 1 - ECCC_START_YEAR)).

(** ** Column cleaning: [clean_columns]

    Column names are ASCII text: the case and the blanks of a character
    above 127 are not modelled, such a character is left as it is. *)

(** Python's [str.isspace] on ASCII. *)
Definition is_space (c : ascii) : bool :=
  let n := nat_of_ascii c in
  ((9 <=? n) && (n <=? 13))%nat || ((28 <=? n) && (n <=? 32))%nat.

Definition is_upper (c : ascii) : bool :=
  let n := nat_of_ascii c in ((65 <=? n) && (n <=? 90))%nat.

Definition is_lower (c : ascii) : bool :=
  let n := nat_of_ascii c in ((97 <=? n) && (n <=? 122))%nat.

Definition upper_ascii (c : ascii) : ascii :=
  if is_lower c then ascii_of_nat (nat_of_ascii c - 32) else c.

Fixpoint lstrip (s : string) : string :=
  match s with
  | EmptyString => EmptyString
  | String c s' => if is_space c then lstrip s' else s
  end.

Fixpoint rstrip (s : string) : string :=
  match s with
  | EmptyString => EmptyString
  | String c s' =>
      match rstrip s' with
      | EmptyString => if is_space c then EmptyString else String c EmptyString
      | r => String c r
      end
  end.

(** [s.strip()]. *)
Definition strip (s : string) : string := lstrip (rstrip s).

(** [re.split(r'[\(_]', s)[0]]: the text before the first parenthesis or
    underscore. *)
Fixpoint before_separator (s : string) : string :=
  match s with
  | EmptyString => EmptyString
  | String c s' =>
      if Ascii.eqb c (ascii_of_nat 40) || Ascii.eqb c (ascii_of_nat 95)
      then EmptyString
      else String c (before_separator s')
  end.

Definition split_name (col : string) : string := strip (before_separator col).

Definition junk_patterns : list string := ["serial"; "battery"; "solar"].

Definition is_junk (col : string) : bool :=
  existsb (fun p => contains p (lower col)) junk_patterns.

(** [s.title()]: a letter is upper case when it starts a run of letters
    and lower case inside one. *)
Fixpoint title_from (previous_is_cased : bool) (s : string) : string :=
  match s with
  | EmptyString => EmptyString
  | String c s' =>
      if is_upper c || is_lower c
      then String (if previous_is_cased then lower_ascii c else upper_ascii c)
                  (title_from true s')
      else String c (title_from false s')
  end.

Definition title (s : string) : string := title_from false s.

Definition replacements : list (string * string) :=
  [("wind gust  speed", "Wind Gust Speed");
   ("wind gust speed", "Wind Gust Speed");
   ("gust speed", "Wind Gust Speed");
   ("avg wind speed", "Wind Speed");
   ("average wind speed", "Wind Speed");
   ("wind spd", "Wind Speed");
   ("windspd", "Wind Speed");
   ("accumulated rain", "Percipitation");
   ("precip. amount", "Percipitation");
   ("temp", "Temperature");
   ("wind dir", "Wind Direction");
   ("rel hum", "Rh");
   ("date/time", "Date/Time")].

(** [d.get(k, default)]. *)
Fixpoint dict_get (d : list (string * string)) (k default : string) : string :=
  match d with
  | [] => default
  | (k', v) :: d' => if String.eqb k' k then v else dict_get d' k default
  end.

Definition standardize (col : string) : string :=
  let lowered := strip (lower col) in
  if contains "dew" lowered then "Dew"
  else dict_get replacements lowered (title col).

(** [~df.columns.duplicated()]: the first column of every label. *)
Fixpoint first_labels {A : Type} (seen : list string) (cols : list (string * A))
  : list (string * A) :=
  match cols with
  | [] => []
  | (n, c) :: cols' =>
      if str_in n seen then first_labels seen cols'
      else (n, c) :: first_labels (n :: seen) cols'
  end.

(** The distinct values of a column, missing entries left out. *)
Fixpoint distinct (seen : list value) (v : list rcell) : list value :=
  match v with
  | [] => []
  | None :: v' => distinct seen v'
  | Some x :: v' =>
      if existsb (value_eqb x) seen then distinct seen v'
      else x :: distinct (x :: seen) v'
  end.

(** [series.nunique()]. *)
Definition nunique (v : list rcell) : nat := List.length (distinct [] v).

Definition clean_columns (df : RawFrame) : RawFrame :=
  let cols := map (fun nc => (split_name (fst nc), snd nc)) (rcolumns df) in
  let cols := filter (fun nc => negb (is_junk (fst nc))) cols in
  let cols :=
    map (fun nc => (if String.eqb (fst nc) "station" then "station"
                    else standardize (fst nc), snd nc)) cols in
  let cols := first_labels [] cols in
  let constant_mask (nc : string * list rcell) :=
    (nunique (snd nc) <=? 1)%nat && negb (String.eqb (fst nc) "station") in
  mkRawFrame (nrows df) (filter (fun nc => negb (constant_mask nc)) cols).

(** [df[name] = column] on a raw frame. *)
Fixpoint set_rcol (cols : list (string * list rcell)) (name : string) (c : list rcell)
  : list (string * list rcell) :=
  match cols with
  | [] => [(name, c)]
  | (n, c0) :: rest =>
      if String.eqb n name then (n, c) :: rest else (n, c0) :: set_rcol rest name c
  end.

(** [process_single_file] on the frame read from the file at
    [relative_path]: the columns are cleaned, then every row gets the
    station of the path. *)
Definition process_single_file (relative_path : string) (df : RawFrame) : RawFrame :=
  let station := station_of_path relative_path in
  let df := clean_columns df in
  mkRawFrame (nrows df)
    (set_rcol (rcolumns df) "station" (repeat (Some (Str station)) (nrows df))).

(** ** Row and column cleaning: [clean_weather_data]

    The function starts with [merge_duplicate_columns] and
    [process_datetime_columns], which parse dates and merge columns of the
    same label; the model takes the frame they return, with labels that
    are unique, and follows the rest of the body.  The last block only
    changes the storage type of the columns; it fails when the station
    column is no longer there. *)

Definition drop_cols : list string :=
  ["Hmdx"; "Wind Chill"; "Day"; "Water Pressure"; "Diff Pressure";
   "Barometric Pressure"; "Water Temperature"; "Water Level"; "Solar Radiation"].

Definition rcell_eqb (a b : rcell) : bool :=
  match a, b with
  | None, None => true
  | Some x, Some y => value_eqb x y
  | _, _ => false
  end.

Fixpoint row_eqb (a b : list rcell) : bool :=
  match a, b with
  | [], [] => true
  | x :: a', y :: b' => rcell_eqb x y && row_eqb a' b'
  | _, _ => false
  end.

Definition row_at (cols : list (string * list rcell)) (i : nat) : list rcell :=
  map (fun nc => nth i (snd nc) None) cols.

Definition rows (df : RawFrame) : list (list rcell) :=
  map (row_at (rcolumns df)) (seq 0 (nrows df)).

(** [~df.duplicated(keep='first')]. *)
Fixpoint first_occurrences (seen : list (list rcell)) (rs : list (list rcell))
  : list bool :=
  match rs with
  | [] => []
  | r :: rs' =>
      if existsb (row_eqb r) seen then false :: first_occurrences seen rs'
      else true :: first_occurrences (r :: seen) rs'
  end.

(** [df[mask].reset_index(drop=True)]. *)
Definition select_rows (m : list bool) (df : RawFrame) : RawFrame :=
  mkRawFrame (count_true m) (map (fun nc => (fst nc, select m (snd nc))) (rcolumns df)).

Fixpoint get_rcol (cols : list (string * list rcell)) (name : string)
  : option (list rcell) :=
  match cols with
  | [] => None
  | (n, c) :: rest => if String.eqb n name then Some c else get_rcol rest name
  end.

(** [df[['Datetime_UTC', 'station'] + other_cols]], when the frame has a
    [Datetime_UTC] column. *)
Definition reorder (cols : list (string * list rcell))
  : outcome (list (string * list rcell)) :=
  match get_rcol cols "Datetime_UTC" with
  | Some d =>
      match get_rcol cols "station" with
      | Some s =>
          Returned (("Datetime_UTC", d) :: ("station", s)
                    :: filter (fun nc => negb (str_in (fst nc) ["Datetime_UTC"; "station"]))
                         cols)
      | None => Raised "KeyError: ['station'] not in index"
      end
  | None => Returned cols
  end.

(** [(df.nunique() == 1) | df.isnull().all()], column by column. *)
Definition zero_variance (v : list rcell) : bool :=
  (nunique v =? 1)%nat || forallb rnull v.

Definition replace_error (c : rcell) : rcell :=
  match c with
  | Some (Str s) => if String.eqb s "ERROR" then None else c
  | _ => c
  end.

Definition clean_weather_data (df : RawFrame) : outcome RawFrame :=
  let df := mkRawFrame (nrows df)
              (filter (fun nc => negb (str_in (fst nc) drop_cols)) (rcolumns df)) in
  let variables :=
    filter (fun nc => negb (str_in (fst nc) ["station"; "Datetime_UTC"])) (rcolumns df) in
  let mask_keep :=
    map (fun i => negb (forallb (fun nc => rnull (nth i (snd nc) None)) variables))
        (seq 0 (nrows df)) in
  let df := select_rows mask_keep df in
  let df := select_rows (first_occurrences [] (rows df)) df in
  match reorder (rcolumns df) with
  | Raised e => Raised e
  | Returned cols =>
      let cols := filter (fun nc => negb (zero_variance (snd nc))) cols in
      let cols := map (fun nc => (fst nc, map replace_error (snd nc))) cols in
      if str_in "station" (map fst cols)
      then Returned (mkRawFrame (nrows df) cols)
      else Raised "KeyError: 'station'"
  end.

(** ** Notions used to state the properties *)

(** The timestamps of the source records that the hourly aggregator puts
    in the bucket of key [k]. *)
Definition bucket_times (df : DataFrame) (k : string * Z) : list Z :=
  let hd := hourly_data df in
  group_values (hourly_keys hd) k (Datetime_UTC hd).

(** The fraction of the rows of station [s] at which the series [v] is
    missing. *)
Definition missing_fraction (df : DataFrame) (v : list cell) (s : string) : Q :=
  Z.of_nat (count_true (map isnull (select (station_mask df s) v)))
  # Pos.of_nat (count_true (station_mask df s)).

(** What tier 3 makes of the humidity and the flag of a row of an imputed
    station where Temperature and Dew read [t] and [d]. *)
Definition derived_row (t d : cell) (cf : cell * Z) : cell * Z :=
  match fst cf with
  | None => (to_cell (calculate_rh_from_temp_dew (of_cell t) (of_cell d)), 3%Z)
  | Some _ => cf
  end.

(** Some entry of [v] is valid at most [limit] rows away from row [i]. *)
Definition near_valid (v : list cell) (limit i : nat) : bool :=
  existsb notnull (slice (i - limit) (i + limit + 1) v).

Definition column_length (c : Column) : nat :=
  match c with
  | Float64 v => List.length v
  | Int64 v | DatetimeTZ v | ObjectDate v => List.length v
  end.

(** A table without any row: every column is there, and empty. *)
Definition zero_rows (df : DataFrame) : Prop :=
  Datetime_UTC df = [] /\ station df = [] /\
  Forall (fun nc => column_length (snd nc) = 0%nat) (columns df).

(** A numeric variable column, one the aggregators aggregate. *)
Definition has_variable (df : DataFrame) : Prop :=
  exists name c,
    In (name, c) (columns df) /\ is_numeric_dtype c = true /\
    endswith name "_imputed" = false /\
    str_in name ["station"; "hour_label"; "date_label"; "Datetime_UTC";
                 "minutes_from_hour"] = false.

(** The circular mean as the specification words it: radians, mean sine
    and mean cosine, [atan2], degrees, negative results plus 360. *)
Definition circular_mean_spec (xs : list R) : cell :=
  match xs with
  | [] => None
  | _ =>
      let n := INR (List.length xs) in
      let mean_sin := Rsum (map (fun x => sin (x * (PI / 180))) xs) / n in
      let mean_cos := Rsum (map (fun x => cos (x * (PI / 180))) xs) / n in
      let deg := np_arctan2 mean_sin mean_cos * (180 / PI) in
      Some (if Rltb deg 0 then deg + 360 else deg)
  end.

(** The mean vector of a series of directions: (mean cosine, mean sine). *)
Definition resultant (angles : list cell) : R * R :=
  let rad := map np_deg2rad (dropna angles) in
  (Rmean (map cos rad), Rmean (map sin rad)).

(** The angle [theta] is the direction of the vector [(x, y)]. *)
Definition points_to (theta x y : R) : Prop :=
  x * sin theta = y * cos theta /\ 0 < x * cos theta + y * sin theta.

(** ** Tables and series used as examples *)

(** Three readings of one station, one of them missing: the station is
    over the threshold. *)
Definition third_readings : list cell := [None; Some 99; Some 20].

Definition third_missing : DataFrame :=
  mkDataFrame [0; 600; 1200]%Z ["A"; "A"; "A"]
    [("Temperature", Float64 third_readings)].

(** One station read at 0 h, 4 h, 8 h, 9 h and 10 h; the reading at 4 h is
    missing (20% of the rows). *)
Definition sparse_readings : list cell := [Some 10; None; Some 18; Some 19; Some 20].

Definition sparse_series : DataFrame :=
  mkDataFrame [0; 14400; 28800; 32400; 36000]%Z ["A"; "A"; "A"; "A"; "A"]
    [("Wind Direction", Float64 sparse_readings)].

(** One station read every 5 minutes, 29 times; the readings 11 to 17 are
    missing (24.1% of the rows). *)
Definition dense_readings : list cell :=
  repeat (Some 5) 11 ++ repeat None 7 ++ repeat (Some 7) 11.

Definition dense_series : DataFrame :=
  mkDataFrame (map (fun k => (300 * Z.of_nat k)%Z) (seq 0 29)) (repeat "A" 29)
    [("Wind Direction", Float64 dense_readings)].

(** A skipped station: one of its three wind directions is missing. *)
Definition skipped_readings : list cell := [None; Some 90; Some 100].

Definition wind_skipped : DataFrame :=
  mkDataFrame [0; 600; 1200]%Z ["A"; "A"; "A"]
    [("Wind Direction", Float64 skipped_readings)].

(** An imputed station: 17 readings every 10 minutes, the last four of
    them missing (23.5% of the rows). *)
Definition wind_readings : list cell :=
  Some 80 :: repeat (Some 90) 12 ++ repeat None 4.

Definition wind_tail : DataFrame :=
  mkDataFrame (map (fun k => (600 * Z.of_nat k)%Z) (seq 0 17)) (repeat "A" 17)
    [("Wind Direction", Float64 wind_readings)].

(** One station read every 10 minutes, 29 times.  The first seven
    humidities are missing (24.1% of the rows); the first temperature is a
    sensor glitch of -243.04.  Temperature and Dew have no missing value,
    so the loop skips them and their bounds are not checked. *)
Definition polar_rh : list cell :=
  repeat None 7 ++ Some 50 :: repeat (Some 60) 21.

Definition polar_reading : DataFrame :=
  mkDataFrame (map (fun k => (600 * Z.of_nat k)%Z) (seq 0 29)) (repeat "A" 29)
    [("Temperature", Float64 (Some (-243.04) :: repeat (Some 20) 28));
     ("Dew", Float64 (Some 5 :: repeat (Some 6) 28));
     ("Rh", Float64 polar_rh)].

(** One station read every 10 minutes, five times.  The first and the
    third reading are 70 degrees, out of the range of a temperature and of
    a dew point; the second is missing (20% of the rows) and tier 1
    interpolates it to 70 degrees. *)
Definition spike_readings : list cell := [Some 70; None; Some 70; Some 5; Some 6].

Definition temperature_spike : DataFrame :=
  mkDataFrame [0; 600; 1200; 1800; 2400]%Z ["A"; "A"; "A"; "A"; "A"]
    [("Temperature", Float64 spike_readings)].

Definition dew_spike : DataFrame :=
  mkDataFrame [0; 600; 1200; 1800; 2400]%Z ["A"; "A"; "A"; "A"; "A"]
    [("Dew", Float64 spike_readings)].

(** A dew-point sensor without any missing reading; the second reading is
    70 degrees. *)
Definition dew_complete : DataFrame :=
  mkDataFrame [0; 600; 1200]%Z ["A"; "A"; "A"]
    [("Dew", Float64 [Some 5; Some 70; Some 6])].

(** Station A read at 10:00, 10:30 and 10:31 (seconds of the day). *)
Definition half_hours : DataFrame :=
  mkDataFrame [36000; 37800; 37860]%Z ["A"; "A"; "A"]
    [("Temperature", Float64 [Some 10; Some 12; Some 14])].

(** The same readings in a table the daily aggregator has been through:
    it carries the column of dates [date_label]. *)
Definition dated_half_hours : DataFrame :=
  mkDataFrame [36000; 37800; 37860]%Z ["A"; "A"; "A"]
    [("Temperature", Float64 [Some 10; Some 12; Some 14]);
     ("date_label", ObjectDate [0; 0; 0]%Z)].

(** Two stations without imputation history; one of the two temperatures
    of station A is missing. *)
Definition two_sites : DataFrame :=
  mkDataFrame [0; 600; 0]%Z ["A"; "A"; "B"]
    [("Temperature", Float64 [Some 10; None; Some 14])].

(** A table with a Temperature column and no row. *)
Definition no_rows : DataFrame := mkDataFrame [] [] [("Temperature", Float64 [])].

(** ** Notions used to state further properties *)

(** Every valid entry of [l] is still there, at its row, in [l']. *)
Definition stays (l l' : list cell) : Prop :=
  forall i x, nth_error l i = Some (Some x) -> nth_error l' i = Some (Some x).

(** The state [st] of a column whose input was [v]: same number of rows;
    a row that was valid in the input holds the same value with flag 0; a
    row that was missing carries flag 1, 2 or 3. *)
Definition provenance_ok (v : list cell) (st : ColState) : Prop :=
  List.length (vals st) = List.length v /\
  List.length (flags st) = List.length v /\
  forall i,
    match nth_error v i with
    | Some (Some x) =>
        nth_error (vals st) i = Some (Some x) /\ nth_error (flags st) i = Some 0%Z
    | Some None =>
        exists f, nth_error (flags st) i = Some f /\ (1 <= f <= 3)%Z
    | None => True
    end.

(** Row [i] comes before row [j] in a stable sort by (station, time): its
    key is not larger, and with equal keys it is the earlier row. *)
Definition before (df : DataFrame) (i j : nat) : Prop :=
  key_le (row_key df i) (row_key df j) = true /\
  (key_le (row_key df j) (row_key df i) = true -> (i < j)%nat).

(** The keys of the rows of a table, in row order. *)
Definition row_keys (df : DataFrame) : list (string * Z) :=
  combine (station df) (Datetime_UTC df).

(** The source records of the bucket of station [s] and hour mark [h], as
    a mask over the rows of the table: the records of station [s] whose
    timestamp floors to [h] and lies within 30 minutes (1800 s) of [h],
    bounds included. *)
Definition in_bucket (df : DataFrame) (k : string * Z) : list bool :=
  map (fun r : string * Z =>
         String.eqb (fst r) (fst k) && Z.eqb (floor_hour (snd r)) (snd k)
         && ((-1800 <=? snd r - snd k)%Z && (snd r - snd k <=? 1800)%Z))
      (row_keys df).


(** Every valid entry of a series lies in [[lo, hi]]. *)
Definition within (lo hi : R) (v : list cell) : Prop :=
  forall y, In (Some y) v -> lo <= y <= hi.

(** The rows [a] to [b] of a series are all missing. *)
Definition null_run (v : list cell) (a b : nat) : Prop :=
  forall k, (a <= k <= b)%nat -> nth_error v k = Some None.

(** The strict order of the group keys: by station, then by bucket. *)
Definition key_lt (a b : string * Z) : Prop := key_le a b = true /\ a <> b.

(** The days (since the epoch, UTC) on which station [s] has a record. *)
Definition station_days (df : DataFrame) : list (string * Z) :=
  combine (station df) (map date_label (Datetime_UTC df)).

(** A column of python objects. *)
Definition is_object_dtype (c : Column) : bool :=
  match c with ObjectDate _ => true | _ => false end.

(** A column the hourly aggregator aggregates: a numeric column, or a
    column of python objects, which the aggregator has coerced to numbers
    by then; not a provenance flag and not one of the key or label
    columns. *)
Definition hourly_variable (nc : string * Column) : bool :=
  (is_numeric_dtype (snd nc) || is_object_dtype (snd nc))
  && negb (endswith (fst nc) "_imputed")
  && negb (str_in (fst nc)
             ["station"; "hour_label"; "Datetime_UTC"; "minutes_from_hour"]).

Definition Zsum (l : list Z) : Z := fold_right Z.add 0%Z l.

(** The rows the loop over the data columns appends when no statistic
    fails, and the report made of them. *)
Definition rows_of (label : string) (sub : DataFrame) (data_cols : list string)
  : list QualityRow :=
  flat_map (fun col =>
              match get_col (columns sub) col with
              | Some c => [quality_row label sub col c]
              | None => []
              end) data_cols.

Definition report_of (df : DataFrame) : list QualityRow :=
  flat_map (fun s => rows_of s (filter_rows df (station_mask df s)) (data_columns df))
           (sorted (unique (station df)))
  ++ rows_of "ALL_STATIONS" df (data_columns df).

(** No statistic of the report fails: every data column is numeric or
    without entries. *)
Definition statistics_defined (df : DataFrame) : Prop :=
  forall col c, In col (data_columns df) -> get_col (columns df) col = Some c ->
                is_numeric_dtype c = true \/ column_length c = 0%nat.

(** A row of the report counts the series [v] as a series without
    imputation history: all its entries as rows, the missing ones as
    missing, the present ones as original and none as imputed. *)
Definition counts_of (row : QualityRow) (v : list cell) : Prop :=
  total_rows row = Z.of_nat (List.length v) /\
  missing_count row = Z.of_nat (List.length (filter isnull v)) /\
  original_data_count row = Z.of_nat (List.length (dropna v)) /\
  original_data_count row = (total_rows row - missing_count row)%Z /\
  interpolated_count row = 0%Z /\
  forward_backward_filled_count row = 0%Z /\
  calculated_count row = 0%Z /\
  total_imputed_count row = 0%Z.

(** The rows of the quality report about column [col], one per station. *)
Definition station_rows (df : DataFrame) (col : string) (c : Column) : list QualityRow :=
  map (fun s => quality_row s (filter_rows df (station_mask df s)) col
                  (select_col (station_mask df s) c))
      (sorted (unique (station df))).

(** The characters of a string. *)
Definition chars (s : string) : list ascii := list_ascii_of_string s.

Definition is_separator (c : ascii) : bool :=
  Ascii.eqb c slash || Ascii.eqb c backslash.

(** Month [a] comes before month [b]. *)
Definition month_lt (a b : nat * nat) : Prop :=
  (fst a < fst b)%nat \/ (fst a = fst b /\ (snd a < snd b)%nat).

(** ** Further tables used as examples *)

(** A rain gauge read every 10 minutes; one of the five readings is
    missing (20% of the rows). *)
Definition rain_readings : list cell := [Some 1; Some 0; None; Some 2; Some 0].

Definition rain_gauge : DataFrame :=
  mkDataFrame [0; 600; 1200; 1800; 2400]%Z ["A"; "A"; "A"; "A"; "A"]
    [("Rain", Float64 rain_readings)].

(** An anemometer read every 10 minutes; the second gust is missing. *)
Definition speed_readings : list cell := [Some 8; Some 9; Some 7; Some 6; Some 10].
Definition gust_readings : list cell := [Some 12; None; Some 15; Some 11; Some 14].

Definition anemometer : DataFrame :=
  mkDataFrame [0; 600; 1200; 1800; 2400]%Z ["A"; "A"; "A"; "A"; "A"]
    [("Wind Speed", Float64 speed_readings);
     ("Wind Gust Speed", Float64 gust_readings)].

(** A station with three rows and the flags the engine left on a column. *)
Definition flagged_readings : list cell := [Some 10; Some 11; None].

Definition flagged_station : DataFrame :=
  mkDataFrame [0; 600; 1200]%Z ["A"; "A"; "A"]
    [("Temperature", Float64 flagged_readings);
     ("Temperature_imputed", Int64 [0; 1; 2]%Z)].

(** Two stations, two readings. *)
Definition two_stations : RawFrame :=
  mkRawFrame 2
    [("Datetime_UTC", [Some (Str "2024-01-01 00:00"); Some (Str "2024-01-01 01:00")]);
     ("station", [Some (Str "Cavendish"); Some (Str "Stanhope")]);
     ("Wind Direction", [Some (Str "N"); Some (Str "SW")])].

(** * Properties *)

(** ** Masks and positional assignment *)

Section Masks.

Context {A : Type}.

Lemma assign_const_length (m : list bool) (l : list A) (y : A) :
  List.length (assign_const m l y) = List.length l.
Proof.
  revert l; induction m as [|b m IH]; intros [|x l]; simpl; auto.
Qed.

Lemma assign_length (m : list bool) (l v : list A) :
  List.length (assign m l v) = List.length l.
Proof.
  revert l v; induction m as [|b m IH]; intros [|x l] v; simpl; auto.
  destruct b; simpl; [destruct v|]; simpl; rewrite IH; reflexivity.
Qed.

Lemma assign_const_hit (m : list bool) (l : list A) (y x : A) (i : nat) :
  nth_error m i = Some true -> nth_error l i = Some x ->
  nth_error (assign_const m l y) i = Some y.
Proof.
  revert l i; induction m as [|b m IH]; intros [|x0 l] [|i]; simpl;
    try discriminate; auto.
  intros [= ->] _; reflexivity.
Qed.

Lemma assign_const_miss (m : list bool) (l : list A) (y : A) (i : nat) :
  nth_error m i <> Some true ->
  nth_error (assign_const m l y) i = nth_error l i.
Proof.
  revert l i; induction m as [|b m IH]; intros [|x0 l] [|i]; simpl; auto.
  destruct b; [intros H; now elim H | reflexivity].
Qed.

Lemma assign_miss (m : list bool) (l v : list A) (i : nat) :
  nth_error m i <> Some true ->
  nth_error (assign m l v) i = nth_error l i.
Proof.
  revert l v i; induction m as [|b m IH]; intros [|x0 l] v [|i]; simpl; auto.
  - destruct b; [intros H; now elim H | reflexivity].
  - intros H. destruct b; [destruct v|]; simpl; auto.
Qed.

End Masks.

Lemma mask_and_true (a b : list bool) (i : nat) :
  nth_error (mask_and a b) i = Some true ->
  nth_error a i = Some true /\ nth_error b i = Some true.
Proof.
  revert b i; induction a as [|x a IH]; intros [|y b] [|i]; simpl;
    try discriminate; auto.
  intros [= H]. apply andb_true_iff in H as [-> ->]; auto.
Qed.

Lemma mask_and_intro (a b : list bool) (i : nat) :
  nth_error a i = Some true -> nth_error b i = Some true ->
  nth_error (mask_and a b) i = Some true.
Proof.
  revert b i; induction a as [|x a IH]; intros [|y b] [|i]; simpl;
    try discriminate; auto.
  intros [= ->] [= ->]; reflexivity.
Qed.

Lemma mask_and_nth (a b : list bool) (i : nat) (x y : bool) :
  nth_error a i = Some x -> nth_error b i = Some y ->
  nth_error (mask_and a b) i = Some (x && y).
Proof.
  revert b i; induction a as [|x0 a IH]; intros [|y0 b] [|i]; simpl;
    try discriminate; auto.
  intros [= ->] [= ->]; reflexivity.
Qed.

Lemma count_true_pos (m : list bool) (i : nat) :
  nth_error m i = Some true -> (0 < count_true m)%nat.
Proof.
  unfold count_true.
  revert i; induction m as [|b m IH]; intros [|i]; simpl; try discriminate.
  - intros [= ->]; simpl; lia.
  - intros H. destruct b; simpl; [lia | eauto].
Qed.

Lemma station_mask_nth (df : DataFrame) (s s' : string) (i : nat) :
  nth_error (station df) i = Some s' ->
  nth_error (station_mask df s) i = Some (String.eqb s s').
Proof.
  intros H. unfold station_mask. rewrite nth_error_map, H. reflexivity.
Qed.

Lemma station_mask_other (df : DataFrame) (s s' : string) (i : nat) :
  nth_error (station df) i = Some s' -> s <> s' ->
  nth_error (station_mask df s) i <> Some true.
Proof.
  intros H Hne. rewrite (station_mask_nth _ _ _ _ H).
  intros [= E]. apply String.eqb_eq in E. contradiction.
Qed.

(** ** Real comparisons *)

Lemma Rltb_true (x y : R) : x < y -> Rltb x y = true.
Proof. intros H; unfold Rltb; destruct (Rlt_dec x y); [reflexivity | contradiction]. Qed.

Lemma Rltb_false (x y : R) : y <= x -> Rltb x y = false.
Proof. intros H; unfold Rltb; destruct (Rlt_dec x y); [lra | reflexivity]. Qed.

Lemma Rleb_true (x y : R) : x <= y -> Rleb x y = true.
Proof. intros H; unfold Rleb; destruct (Rle_dec x y); [reflexivity | contradiction]. Qed.

Lemma Rleb_false (x y : R) : y < x -> Rleb x y = false.
Proof. intros H; unfold Rleb; destruct (Rle_dec x y); [lra | reflexivity]. Qed.

Lemma Reqb_true (x y : R) : x = y -> Reqb x y = true.
Proof. intros H; unfold Reqb; destruct (Req_dec_T x y); [reflexivity | contradiction]. Qed.

Lemma Reqb_false (x y : R) : x <> y -> Reqb x y = false.
Proof. intros H; unfold Reqb; destruct (Req_dec_T x y); [contradiction | reflexivity]. Qed.

Lemma Rltb_spec (x y : R) : Rltb x y = true <-> x < y.
Proof. unfold Rltb; destruct (Rlt_dec x y); split; auto; discriminate. Qed.

Lemma Rleb_spec (x y : R) : Rleb x y = true <-> x <= y.
Proof. unfold Rleb; destruct (Rle_dec x y); split; auto; discriminate. Qed.

(** Decide the comparisons of concrete reals that block a computation. *)
Ltac decide_R :=
  repeat first
    [ rewrite Rltb_true by lra
    | rewrite Rltb_false by lra
    | rewrite Rleb_true by lra
    | rewrite Rleb_false by lra
    | rewrite Reqb_true by lra
    | rewrite Reqb_false by lra ].

(** Evaluate the table functions and leave the real arithmetic alone. *)
Ltac run_table :=
  cbv - [Rplus Rminus Rmult Rdiv Ropp Rinv IZR Rltb Rleb Reqb
         exp sin cos atan PI Zfloor up INR Rmax Rmin Rlt Rle Rgt Rge].

(** Compare two columns of cells entry by entry. *)
Ltac cells_eq :=
  repeat match goal with
         | |- Some _ = Some _ => f_equal
         | |- Float64 _ = Float64 _ => f_equal
         | |- _ :: _ = _ :: _ => f_equal
         end;
  try reflexivity; try lra.

(** ** Bounds validation *)

Lemma out_of_bounds_spec (lo hi x : R) :
  out_of_bounds lo hi (Some x) = true <-> x < lo \/ hi < x.
Proof.
  simpl. rewrite orb_true_iff, !Rltb_spec. reflexivity.
Qed.

(** The block itself, on the state of a column: it sets a Temperature
    outside [-40, 40] to missing and leaves every provenance flag as it
    is; it sets a Dew outside [-60, 50] to missing and its flag to 0. *)
Lemma bounds_check_asymmetry (st : ColState) (i : nat) (x : R) (f : Z) :
  nth_error (vals st) i = Some (Some x) ->
  nth_error (flags st) i = Some f ->
  (x < -40 \/ 40 < x ->
     nth_error (vals (bounds_check "Temperature" st)) i = Some None /\
     nth_error (flags (bounds_check "Temperature" st)) i = Some f /\
     flags (bounds_check "Temperature" st) = flags st) /\
  (x < -60 \/ 50 < x ->
     nth_error (vals (bounds_check "Dew" st)) i = Some None /\
     nth_error (flags (bounds_check "Dew" st)) i = Some 0%Z).
Proof.
  intros Hv Hf. split; intros Hx.
  - assert (Hm : nth_error (map (out_of_bounds TEMP_MIN TEMP_MAX) (vals st)) i
                 = Some true).
    { rewrite nth_error_map, Hv. simpl. f_equal.
      apply (out_of_bounds_spec TEMP_MIN TEMP_MAX x). exact Hx. }
    unfold bounds_check. simpl String.eqb. cbv iota.
    pose proof (count_true_pos _ _ Hm) as Hc.
    apply Nat.ltb_lt in Hc. rewrite Hc. simpl.
    repeat split; auto.
    eapply assign_const_hit; eauto.
  - assert (Hm : nth_error (map (out_of_bounds DEW_MIN DEW_MAX) (vals st)) i
                 = Some true).
    { rewrite nth_error_map, Hv. simpl. f_equal.
      apply (out_of_bounds_spec DEW_MIN DEW_MAX x). exact Hx. }
    unfold bounds_check. simpl String.eqb. cbv iota.
    pose proof (count_true_pos _ _ Hm) as Hc.
    apply Nat.ltb_lt in Hc. rewrite Hc. simpl.
    split; eapply assign_const_hit; eauto.
Qed.

Lemma get_set_col_same (cols : list (string * Column)) (name : string) (c : Column) :
  get_col (set_col cols name c) name = Some c.
Proof.
  induction cols as [|[n c0] cols IH]; simpl.
  - now rewrite String.eqb_refl.
  - destruct (String.eqb n name) eqn:E; simpl; rewrite E; auto.
Qed.

Lemma get_set_col_other (cols : list (string * Column)) (name name' : string) (c : Column) :
  name' <> name ->
  get_col (set_col cols name c) name' = get_col cols name'.
Proof.
  intros Hne. induction cols as [|[n c0] cols IH]; simpl.
  - destruct (String.eqb name name') eqn:E; [|reflexivity].
    apply String.eqb_eq in E. congruence.
  - destruct (String.eqb n name) eqn:E; simpl.
    + apply String.eqb_eq in E. subst n.
      destruct (String.eqb name name') eqn:E'; [|reflexivity].
      apply String.eqb_eq in E'. congruence.
    + destruct (String.eqb n name'); auto.
Qed.

Lemma flag_col_differs (col : string) : flag_col col <> col.
Proof.
  intros H. apply (f_equal String.length) in H.
  unfold flag_col in H.
  assert (E : forall s t, String.length (s ++ t)
                          = (String.length s + String.length t)%nat).
  { intros s t. induction s as [|a s IH]; simpl; [reflexivity | now rewrite IH]. }
  rewrite E in H. simpl in H. lia.
Qed.

Lemma null_count_zero (v : list cell) :
  count_true (map isnull v) = 0%nat <-> ~ In None v.
Proof.
  induction v as [|[x|] v IH]; simpl.
  - unfold count_true; simpl. tauto.
  - change (count_true (false :: map isnull v)) with (count_true (map isnull v)).
    rewrite IH. split; [intros H [E | H']; [discriminate | auto] | auto].
  - unfold count_true. simpl. split; [lia | intros H; elim H; now left].
Qed.

(** C5.  In the engine the bounds block is reached for a column that has
    a missing value, and there it treats Temperature and Dew differently:
    a Temperature that tiers 1 to 3 left outside [-40, 40] is stored as
    missing with the provenance flag it had, a Dew left outside [-60, 50]
    is stored as missing with flag 0, whatever its flag was.  For a column
    without any missing value the loop continues before the block: the
    table stays as it is, out-of-range values included.  On
    [temperature_spike] the interpolated 70 degrees are removed and keep
    flag 1; on [dew_spike] the same readings are removed and get flag 0;
    on [dew_complete], where no reading is missing, the engine returns the
    table with its Dew of 70 degrees and without flag column. *)
Theorem bounds_validation_in_engine :
  (forall (df : DataFrame) (col : string) (v : list cell),
     get_col (columns df) col = Some (Float64 v) ->
     In None v ->
     exists v' fl,
       get_col (columns (impute_column df col)) col = Some (Float64 v') /\
       get_col (columns (impute_column df col)) (flag_col col) = Some (Int64 fl) /\
       forall i x f,
         nth_error (vals (after_tier3 df col v)) i = Some (Some x) ->
         nth_error (flags (after_tier3 df col v)) i = Some f ->
         (col = "Temperature" -> x < -40 \/ 40 < x ->
            nth_error v' i = Some None /\ nth_error fl i = Some f) /\
         (col = "Dew" -> x < -60 \/ 50 < x ->
            nth_error v' i = Some None /\ nth_error fl i = Some 0%Z)) /\
  (forall (df : DataFrame) (col : string) (v : list cell),
     get_col (columns df) col = Some (Float64 v) ->
     ~ In None v ->
     impute_column df col = df) /\
  (let out := impute_missing_values temperature_spike in
   get_col (columns out) "Temperature"
   = Some (Float64 [None; None; None; Some 5; Some 6]) /\
   get_col (columns out) "Temperature_imputed" = Some (Int64 [0; 1; 0; 0; 0]%Z)) /\
  (let out := impute_missing_values dew_spike in
   get_col (columns out) "Dew"
   = Some (Float64 [None; None; None; Some 5; Some 6]) /\
   get_col (columns out) "Dew_imputed" = Some (Int64 [0; 0; 0; 0; 0]%Z)) /\
  impute_missing_values dew_complete = dew_complete /\
  get_col (columns (impute_missing_values dew_complete)) "Dew"
  = Some (Float64 [Some 5; Some 70; Some 6]) /\
  get_col (columns (impute_missing_values dew_complete)) "Dew_imputed" = None.
Proof.
  split; [|split; [|split; [|split; [|split; [|split]]]]].
  - intros df col v Hc Hn.
    assert (Hm : (count_true (map isnull v) =? 0)%nat = false).
    { apply Nat.eqb_neq. intros E. now apply null_count_zero in E. }
    set (st := after_tier3 df col v).
    exists (vals (bounds_check col st)), (flags (bounds_check col st)).
    unfold impute_column. rewrite Hc, Hm. cbv zeta. fold st.
    unfold with_col. cbn [columns]. split; [apply get_set_col_same|]. split.
    + rewrite get_set_col_other by apply flag_col_differs. apply get_set_col_same.
    + intros i x f Hv Hf.
      destruct (bounds_check_asymmetry st i x f Hv Hf) as [HT HD].
      split; intros -> Hx; [destruct (HT Hx) as (H1 & H2 & _) | destruct (HD Hx)];
        auto.
  - intros df col v Hc Hn. unfold impute_column. rewrite Hc.
    apply null_count_zero in Hn. now rewrite Hn.
  - cbv zeta. split; run_table; decide_R; reflexivity.
  - cbv zeta. split; run_table; decide_R; reflexivity.
  - reflexivity.
  - reflexivity.
  - reflexivity.
Qed.

Lemma bounds_validation_in_engine_witness :
  get_col (columns dew_complete) "Dew" = Some (Float64 [Some 5; Some 70; Some 6]) /\
  ~ In None [Some 5; Some 70; Some 6] /\
  impute_column dew_complete "Dew" = dew_complete /\
  get_col (columns dew_spike) "Dew" = Some (Float64 spike_readings) /\
  In None spike_readings /\
  exists v' fl,
    get_col (columns (impute_column dew_spike "Dew")) "Dew" = Some (Float64 v') /\
    get_col (columns (impute_column dew_spike "Dew")) (flag_col "Dew")
    = Some (Int64 fl).
Proof.
  assert (H1 : get_col (columns dew_complete) "Dew"
               = Some (Float64 [Some 5; Some 70; Some 6])) by reflexivity.
  assert (H2 : ~ In None [Some 5; Some 70; Some 6]).
  { intros [E | [E | [E | []]]]; discriminate. }
  assert (H3 : get_col (columns dew_spike) "Dew" = Some (Float64 spike_readings))
    by reflexivity.
  assert (H4 : In None spike_readings) by (right; left; reflexivity).
  destruct bounds_validation_in_engine as (Hgap & Hfull & _).
  split; [exact H1|]. split; [exact H2|].
  split; [exact (Hfull dew_complete "Dew" _ H1 H2)|].
  split; [exact H3|]. split; [exact H4|].
  destruct (Hgap dew_spike "Dew" _ H3 H4) as (v' & fl & E1 & E2 & _).
  exists v', fl. split; [exact E1 | exact E2].
Defined.

(** ** Stations and the skip decision *)

Lemma str_in_spec (s : string) (l : list string) : str_in s l = true <-> In s l.
Proof.
  unfold str_in. rewrite existsb_exists. split.
  - intros (x & Hx & E). apply String.eqb_eq in E. now subst.
  - intros H. exists s. split; [assumption | apply String.eqb_refl].
Qed.

Lemma unique_aux_In (s : string) (l seen : list string) :
  In s (unique_aux seen l) <-> In s l /\ ~ In s seen.
Proof.
  revert seen; induction l as [|x l IH]; intros seen; simpl.
  - tauto.
  - destruct (str_in x seen) eqn:E.
    + apply str_in_spec in E. rewrite IH. split.
      * intros [H1 H2]; auto.
      * intros [[-> | H1] H2]; [contradiction | auto].
    + assert (Hx : ~ In x seen).
      { intros H. apply str_in_spec in H. congruence. }
      simpl. rewrite IH. simpl. split.
      * intros [-> | [H1 H2]]; [auto | split; auto].
      * intros [[-> | H1] H2]; [auto|].
        destruct (string_dec x s) as [-> | Hne]; [auto | right].
        split; [assumption | intros [? | ?]; [contradiction | contradiction]].
Qed.

Lemma unique_In (s : string) (l : list string) : In s (unique l) <-> In s l.
Proof. unfold unique. rewrite unique_aux_In. simpl. tauto. Qed.

Lemma skip_station_spec (df : DataFrame) (v : list cell) (s : string) :
  skip_station df v s = true <->
  (IMPUTATION_THRESHOLD_PCT <= station_missing_pct df v s)%Q.
Proof. unfold skip_station. apply Qle_bool_iff. Qed.

Lemma station_mask_pos (df : DataFrame) (s : string) :
  In s (station df) -> (0 < count_true (station_mask df s))%nat.
Proof.
  intros H. apply In_nth_error in H as [i Hi].
  apply (count_true_pos _ i).
  rewrite (station_mask_nth _ _ _ _ Hi). now rewrite String.eqb_refl.
Qed.

(** The percentage the code computes is the missing fraction times 100. *)
Lemma station_missing_pct_fraction (df : DataFrame) (v : list cell) (s : string) :
  In s (station df) ->
  station_missing_pct df v s = (missing_fraction df v s * 100)%Q.
Proof.
  intros H. apply station_mask_pos, Nat.ltb_lt in H.
  unfold station_missing_pct, missing_fraction. now rewrite H.
Qed.

Lemma skip_station_fraction (df : DataFrame) (v : list cell) (s : string) :
  In s (station df) ->
  (skip_station df v s = true <->
   (IMPUTATION_THRESHOLD_PCT / 100 <= missing_fraction df v s)%Q).
Proof.
  intros H. rewrite skip_station_spec, station_missing_pct_fraction by assumption.
  unfold IMPUTATION_THRESHOLD_PCT, Qdiv. change (/ 100)%Q with (1 # 100)%Q.
  split; intros Hle; Lqa.lra.
Qed.

Lemma stations_partition (df : DataFrame) (v : list cell) (s : string) :
  In s (station df) ->
  (In s (stations_to_skip df v) /\ ~ In s (stations_to_impute df v)) \/
  (In s (stations_to_impute df v) /\ ~ In s (stations_to_skip df v)).
Proof.
  intros H. apply unique_In in H.
  unfold stations_to_skip, stations_to_impute.
  destruct (skip_station df v s) eqn:E; [left | right];
    rewrite !filter_In, E; simpl; intuition congruence.
Qed.

(** ** Tiers 1 to 3 touch the rows of the stations they are given only *)

Section Frame.

Variable df : DataFrame.
Variable s : string.
Variable i : nat.
Hypothesis row_station : nth_error (station df) i = Some s.

Lemma tier1_station_frame (v : list cell) (s' : string) :
  s' <> s -> nth_error (tier1_station df v s') i = nth_error v i.
Proof.
  intros Hne. unfold tier1_station. apply assign_miss.
  eapply station_mask_other; eauto.
Qed.

Lemma tier2_station_frame (v : list cell) (s' : string) :
  s' <> s -> nth_error (tier2_station df v s') i = nth_error v i.
Proof.
  intros Hne. unfold tier2_station. apply assign_miss.
  eapply station_mask_other; eauto.
Qed.

Lemma fold_values_frame (f : list cell -> string -> list cell) (sts : list string) :
  (forall v s', s' <> s -> nth_error (f v s') i = nth_error v i) ->
  ~ In s sts ->
  forall v, nth_error (fold_left f sts v) i = nth_error v i.
Proof.
  intros Hf. induction sts as [|s' sts IH]; intros Hnot v; simpl.
  - reflexivity.
  - rewrite IH by (intros H; apply Hnot; now right).
    apply Hf. intros ->. apply Hnot. now left.
Qed.

Lemma fold_state_frame (f : ColState -> string -> ColState) (sts : list string) :
  (forall st s', s' <> s -> nth_error (vals (f st s')) i = nth_error (vals st) i) ->
  ~ In s sts ->
  forall st, nth_error (vals (fold_left f sts st)) i = nth_error (vals st) i.
Proof.
  intros Hf. induction sts as [|s' sts IH]; intros Hnot st; simpl.
  - reflexivity.
  - rewrite IH by (intros H; apply Hnot; now right).
    apply Hf. intros ->. apply Hnot. now left.
Qed.

Lemma station_and_mask_other (s' : string) (b c : list bool) :
  s' <> s ->
  nth_error (mask_and (mask_and (station_mask df s') b) c) i <> Some true.
Proof.
  intros Hne H. apply mask_and_true in H as [H _].
  apply mask_and_true in H as [H _].
  revert H. eapply station_mask_other; eauto.
Qed.

Lemma tier3_rain_station_frame (st : ColState) (s' : string) :
  s' <> s ->
  nth_error (vals (tier3_rain_station df st s')) i = nth_error (vals st) i.
Proof.
  intros Hne. unfold tier3_rain_station. simpl. apply assign_const_miss.
  intros H. apply mask_and_true in H as [H _].
  revert H. eapply station_mask_other; eauto.
Qed.

Lemma tier3_gust_station_frame (ws : list cell) (st : ColState) (s' : string) :
  s' <> s ->
  nth_error (vals (tier3_gust_station df ws st s')) i = nth_error (vals st) i.
Proof.
  intros Hne. unfold tier3_gust_station. simpl. apply assign_miss.
  now apply station_and_mask_other.
Qed.

Lemma tier3_rh_station_frame (temp dew : list cell) (st : ColState) (s' : string) :
  s' <> s ->
  nth_error (vals (tier3_rh_station df temp dew st s')) i = nth_error (vals st) i.
Proof.
  intros Hne. unfold tier3_rh_station.
  destruct (0 <? count_true _)%nat; [|reflexivity].
  simpl. apply assign_miss. now apply station_and_mask_other.
Qed.

Lemma tier1_frame (sts : list string) (st : ColState) :
  ~ In s sts -> nth_error (vals (tier1 df sts st)) i = nth_error (vals st) i.
Proof.
  intros H. unfold tier1. simpl.
  apply fold_values_frame; [apply tier1_station_frame | assumption].
Qed.

Lemma tier2_frame (col : string) (sts : list string) (st : ColState) :
  ~ In s sts -> nth_error (vals (tier2 df col sts st)) i = nth_error (vals st) i.
Proof.
  intros H. unfold tier2. destruct (str_in col _); [|reflexivity]. simpl.
  apply fold_values_frame; [apply tier2_station_frame | assumption].
Qed.

Lemma tier3_frame (col : string) (sts : list string) (st : ColState) :
  ~ In s sts -> nth_error (vals (tier3 df col sts st)) i = nth_error (vals st) i.
Proof.
  intros H. unfold tier3.
  destruct (String.eqb col "Rain").
  { apply fold_state_frame; [apply tier3_rain_station_frame | assumption]. }
  destruct (String.eqb col "Wind Gust Speed").
  { destruct (float_values df "Wind Speed"); [|reflexivity].
    apply fold_state_frame; [apply tier3_gust_station_frame | assumption]. }
  destruct (String.eqb col "Rh"); [|reflexivity].
  destruct (float_values df "Temperature"); [|reflexivity].
  destruct (float_values df "Dew"); [|reflexivity].
  apply fold_state_frame; [apply tier3_rh_station_frame | assumption].
Qed.

End Frame.

(** C3.  A station whose missing fraction for the variable is at or above
    the threshold is put in [stations_to_skip], not in
    [stations_to_impute], and tiers 1 to 3 leave the variable's entry at
    every row of that station as it was. *)
Theorem skip_station_untouched
  (df : DataFrame) (col : string) (v : list cell) (s : string) :
  In s (station df) ->
  (IMPUTATION_THRESHOLD_PCT / 100 <= missing_fraction df v s)%Q ->
  In s (stations_to_skip df v) /\
  ~ In s (stations_to_impute df v) /\
  forall i, nth_error (station df) i = Some s ->
            nth_error (vals (after_tier3 df col v)) i = nth_error v i.
Proof.
  intros Hin Hpct. apply skip_station_fraction in Hpct; [|assumption].
  assert (Hskip : In s (stations_to_skip df v)).
  { unfold stations_to_skip. apply filter_In. split; [now apply unique_In | assumption]. }
  assert (Hnot : ~ In s (stations_to_impute df v)).
  { unfold stations_to_impute. rewrite filter_In, Hpct. simpl. intros [_ ?]. discriminate. }
  repeat split; try assumption.
  intros i Hi. unfold after_tier3.
  rewrite (tier3_frame df s i Hi), (tier2_frame df s i Hi), (tier1_frame df s i Hi)
    by assumption.
  reflexivity.
Qed.

(** The loop body stores the bounds-checked state of tiers 1 to 3. *)
Lemma impute_column_values (df : DataFrame) (col : string) (v : list cell) :
  get_col (columns df) col = Some (Float64 v) ->
  count_true (map isnull v) <> 0%nat ->
  get_col (columns (impute_column df col)) col
  = Some (Float64 (vals (bounds_check col (after_tier3 df col v)))).
Proof.
  intros Hc Hm. unfold impute_column. rewrite Hc.
  apply Nat.eqb_neq in Hm. rewrite Hm. simpl.
  apply get_set_col_same.
Qed.

Lemma skip_station_untouched_witness :
  In "A" (station third_missing) /\
  (IMPUTATION_THRESHOLD_PCT / 100 <= missing_fraction third_missing third_readings "A")%Q /\
  In "A" (stations_to_skip third_missing third_readings) /\
  ~ In "A" (stations_to_impute third_missing third_readings) /\
  forall i, nth_error (station third_missing) i = Some "A" ->
            nth_error (vals (after_tier3 third_missing "Temperature" third_readings)) i
            = nth_error third_readings i.
Proof.
  assert (H1 : In "A" (station third_missing)) by (simpl; auto).
  assert (H2 : (IMPUTATION_THRESHOLD_PCT / 100
                <= missing_fraction third_missing third_readings "A")%Q).
  { apply Qle_bool_iff. reflexivity. }
  split; [exact H1 | split; [exact H2 |]].
  exact (skip_station_untouched third_missing "Temperature" third_readings "A" H1 H2).
Defined.

(** Bounds validation still applies to a skipped station: its reading of
    99 degrees is removed. *)
Example skip_station_bounds_checked :
  In "A" (stations_to_skip third_missing third_readings) /\
  get_col (columns (impute_missing_values third_missing)) "Temperature"
  = Some (Float64 [None; None; Some 20]).
Proof.
  split.
  - apply filter_In. split; [simpl; auto | reflexivity].
  - run_table. decide_R. reflexivity.
Qed.

(** ** What tier 1 fills *)

Lemma slice_map {A B : Type} (f : A -> B) (lo hi : nat) (l : list A) :
  slice lo hi (map f l) = map f (slice lo hi l).
Proof. unfold slice. now rewrite skipn_map, firstn_map. Qed.

Lemma all_invalid_no_valid (l : list cell) :
  forallb (fun b : bool => b) (map isnull l) = negb (existsb notnull l).
Proof.
  induction l as [|c l IH]; simpl; [reflexivity|].
  rewrite IH. unfold notnull. destruct (isnull c); reflexivity.
Qed.

Lemma interp_limit_nth (v : list cell) (limit i : nat) :
  nth_error v i = Some None ->
  nth i (interp_limit (map isnull v) limit limit) true = negb (near_valid v limit i).
Proof.
  intros Hi. unfold interp_limit, near_valid.
  assert (Hlt : (i < List.length v)%nat) by (apply nth_error_Some; congruence).
  assert (Hseq : nth_error (seq 0 (List.length (map isnull v))) i = Some i).
  { rewrite length_map.
    rewrite (nth_error_nth' _ 0%nat) by now rewrite length_seq.
    now rewrite seq_nth. }
  apply nth_error_nth. rewrite nth_error_map, Hseq. simpl option_map.
  rewrite slice_map, all_invalid_no_valid.
  assert (Hn : nth i (map isnull v) false = true).
  { apply nth_error_nth. now rewrite nth_error_map, Hi. }
  now rewrite Hn.
Qed.

Lemma fill_interp_nth (pts : list (Z * R)) (v : list cell) :
  forall (index : list Z) (preserve : list bool) (i : nat) (c : cell),
    nth_error v i = Some c ->
    nth_error (fill_interp pts index v preserve) i
    = Some (match c with
            | Some _ => c
            | None => if nth i preserve true then None
                      else np_interp (nth i index 0%Z) pts
            end).
Proof.
  induction v as [|c0 v IH]; intros index preserve [|i] c; simpl;
    try discriminate.
  - intros [= ->]. destruct index, preserve; reflexivity.
  - intros H. rewrite (IH _ _ _ _ H).
    destruct index, preserve; simpl; destruct i; reflexivity.
Qed.

(** Tier 1 keeps a valid entry, and fills a missing one exactly when a
    valid entry lies at most [limit] rows away, with the value [np.interp]
    gives at its timestamp: the limit counts rows. *)
Lemma interpolate_time_nth (index : list Z) (v : list cell) (limit i : nat) (c : cell) :
  nth_error v i = Some c ->
  nth_error (interpolate_time index v limit) i
  = Some (match c with
          | Some _ => c
          | None => if near_valid v limit i
                    then np_interp (nth i index 0%Z) (valid_points index v)
                    else None
          end).
Proof.
  intros H. unfold interpolate_time. rewrite (fill_interp_nth _ _ _ _ _ _ H).
  destruct c as [x|]; [reflexivity|].
  rewrite (interp_limit_nth _ _ _ H). now destruct (near_valid v limit i).
Qed.

(** ** Tier 1 on concrete series *)

(** C1.  The interpolation limit counts rows, not hours.  The reading at
    4 h of [sparse_series], four hours away from both known neighbours, is
    filled (with 14).  The reading at 70 min of [dense_series], twenty
    minutes away from the known readings at 50 min and 90 min, stays
    missing: it is the fourth of seven missing rows, while the three rows
    on either side of it are interpolated. *)
Theorem interpolation_limit_counts_rows :
  In "A" (stations_to_impute sparse_series sparse_readings) /\
  get_col (columns (impute_missing_values sparse_series)) "Wind Direction"
  = Some (Float64 [Some 10; Some 14; Some 18; Some 19; Some 20]) /\
  In "A" (stations_to_impute dense_series dense_readings) /\
  get_col (columns (impute_missing_values dense_series)) "Wind Direction"
  = Some (Float64 (repeat (Some 5) 11
                   ++ [Some 5.25; Some 5.5; Some 5.75; None;
                       Some 6.25; Some 6.5; Some 6.75]
                   ++ repeat (Some 7) 11)).
Proof.
  split; [apply filter_In; split; [simpl; auto | reflexivity] |].
  split.
  { run_table. cells_eq. }
  split; [apply filter_In; split; [simpl; auto | reflexivity] |].
  run_table. cells_eq.
Qed.

(** ** Provenance flags of values that stay missing *)

(** C2.  After the engine has run, a value can be missing and flagged as
    imputed: the missing direction of the skipped station [wind_skipped]
    keeps flag 1, and so does the last reading of the imputed station
    [wind_tail], which no tier fills. *)
Theorem flagged_value_still_missing :
  (let out := impute_missing_values wind_skipped in
   In "A" (stations_to_skip wind_skipped skipped_readings) /\
   get_col (columns out) "Wind Direction"
   = Some (Float64 [None; Some 90; Some 100]) /\
   get_col (columns out) "Wind Direction_imputed" = Some (Int64 [1; 0; 0]%Z)) /\
  (let out := impute_missing_values wind_tail in
   In "A" (stations_to_impute wind_tail wind_readings) /\
   get_col (columns out) "Wind Direction"
   = Some (Float64 (Some 80 :: repeat (Some 90) 15 ++ [None])) /\
   get_col (columns out) "Wind Direction_imputed"
   = Some (Int64 (repeat 0 13 ++ repeat 1 4)%Z)).
Proof.
  split; cbv zeta.
  - split; [apply filter_In; split; [simpl; auto | reflexivity] |].
    split; run_table; reflexivity.
  - split; [apply filter_In; split; [simpl; auto | reflexivity] |].
    split; run_table; [cells_eq | reflexivity].
Qed.

(** ** The Magnus formula *)

Lemma np_div_regular (a b : R) : b <> 0 -> np_div (Fin a) (Fin b) = Fin (a / b).
Proof. intros H. simpl. now rewrite Reqb_false. Qed.

Lemma np_exp_regular (r : R) :
  EXP_UNDERFLOW <= r <= EXP_OVERFLOW -> np_exp (Fin r) = Fin (exp r).
Proof.
  intros [H1 H2]. simpl. now rewrite !Rltb_false by assumption.
Qed.

(** The exponent of the Magnus formula at a temperature above -200
    degrees is far from the limits of [exp]. *)
Lemma magnus_exponent_range (t : R) :
  -200 <= t -> EXP_UNDERFLOW <= 17.625 * t / (243.04 + t) <= EXP_OVERFLOW.
Proof.
  intros Ht. unfold EXP_UNDERFLOW, EXP_OVERFLOW.
  assert (Hd : 0 < 243.04 + t) by lra.
  assert (Hi : 0 < / (243.04 + t)) by now apply Rinv_0_lt_compat.
  assert (Hq : 17.625 * t / (243.04 + t) = 17.625 - 17.625 * 243.04 * / (243.04 + t))
    by (field; lra).
  assert (Hb : / (243.04 + t) <= / 43.04).
  { apply Rinv_le_contravar; lra. }
  rewrite Hq. lra.
Qed.

(** Away from the pole at -243.04 and from the limits of [exp] the
    function is the clipped Magnus ratio. *)
Lemma calculate_rh_regular (temp dew : R) :
  -200 <= temp -> -200 <= dew ->
  calculate_rh_from_temp_dew (Fin temp) (Fin dew)
  = np_clip (Fin (100 * (exp (17.625 * dew / (243.04 + dew))
                         / exp (17.625 * temp / (243.04 + temp))))) 0 100.
Proof.
  intros Ht Hd. unfold calculate_rh_from_temp_dew.
  cbn [np_mul np_add].
  rewrite !np_div_regular by lra.
  rewrite !np_exp_regular by now apply magnus_exponent_range.
  rewrite np_div_regular.
  - reflexivity.
  - pose proof (exp_pos (17.625 * temp / (243.04 + temp))). lra.
Qed.

(** Saturated air: with the dew point at the temperature the derived
    humidity is 100. *)
Lemma calculate_rh_saturated (temp : R) :
  -200 <= temp ->
  calculate_rh_from_temp_dew (Fin temp) (Fin temp) = Fin 100.
Proof.
  intros Ht. rewrite calculate_rh_regular by assumption.
  pose proof (exp_pos (17.625 * temp / (243.04 + temp))) as Hp.
  replace (100 * (exp (17.625 * temp / (243.04 + temp))
                  / exp (17.625 * temp / (243.04 + temp)))) with 100
    by (field; lra).
  simpl. now rewrite !Rltb_false by lra.
Qed.

(** The function returns a finite value or NaN, never an infinity. *)
Lemma calculate_rh_no_infinity (temp dew : npfloat) :
  calculate_rh_from_temp_dew temp dew <> PInf /\
  calculate_rh_from_temp_dew temp dew <> NInf.
Proof.
  unfold calculate_rh_from_temp_dew.
  destruct (np_mul (Fin 100) _); simpl; split; discriminate.
Qed.

(** An overflow is no failure either.  Just above the pole the exponent
    of the temperature is beyond the range of [exp]: the vapour pressure
    overflows to plus infinity, the ratio is 0 and so is the humidity, a
    value and not a missing one. *)
Lemma calculate_rh_overflow :
  calculate_rh_from_temp_dew (Fin (-249)) (Fin 5) = Fin 0.
Proof.
  unfold calculate_rh_from_temp_dew.
  cbn [np_mul np_add].
  rewrite !np_div_regular by lra.
  rewrite (np_exp_regular (17.625 * 5 / (243.04 + 5)))
    by (apply magnus_exponent_range; lra).
  assert (E : np_exp (Fin (17.625 * -249 / (243.04 + -249))) = PInf).
  { assert (H : EXP_OVERFLOW < 17.625 * -249 / (243.04 + -249)).
    { unfold EXP_OVERFLOW. lra. }
    cbn [np_exp]. now rewrite Rltb_true. }
  rewrite E. cbn [np_div np_mul np_clip]. rewrite !Rltb_false by lra.
  f_equal. lra.
Qed.

(** At a temperature of -243.04 the denominator [b + temp] is 0: the
    quotient is minus infinity, the vapour pressure is 0, the ratio is plus
    infinity and the clip returns 100. *)
Lemma calculate_rh_at_pole :
  calculate_rh_from_temp_dew (Fin (-243.04)) (Fin 5) = Fin 100.
Proof.
  unfold calculate_rh_from_temp_dew.
  cbn [np_mul np_add].
  rewrite (np_div_regular _ (243.04 + 5)) by lra.
  rewrite (np_exp_regular (17.625 * 5 / (243.04 + 5)))
    by (apply magnus_exponent_range; lra).
  cbn [np_div].
  rewrite (Reqb_true (243.04 + -243.04) 0) by lra.
  rewrite (Rltb_false 0 (17.625 * -243.04)) by lra.
  rewrite (Rltb_true (17.625 * -243.04) 0) by lra.
  cbn [np_exp np_div].
  rewrite (Reqb_true 0 0) by reflexivity.
  rewrite Rltb_true by apply exp_pos.
  cbn [np_mul]. rewrite Rltb_true by lra.
  reflexivity.
Qed.

(** C4.  A division by zero inside the derivation does not yield a missing
    value.  On [polar_reading] the first humidity is still missing when
    tier 3 runs, the station is imputed, and the engine stores the derived
    value 100 with flag 3 (Derived). *)
Theorem magnus_division_by_zero_yields_value :
  calculate_rh_from_temp_dew (Fin (-243.04)) (Fin 5) = Fin 100 /\
  In "A" (stations_to_impute polar_reading polar_rh) /\
  (let out := impute_missing_values polar_reading in
   get_col (columns out) "Rh"
   = Some (Float64 (Some 100 :: repeat (Some 50) 7 ++ repeat (Some 60) 21)) /\
   get_col (columns out) "Rh_imputed"
   = Some (Int64 ([3] ++ repeat 2 3 ++ repeat 1 3 ++ repeat 0 22)%Z)).
Proof.
  split; [exact calculate_rh_at_pole |].
  split; [apply filter_In; split; [simpl; auto | reflexivity] |].
  cbv zeta.
  set (rh := Some 100 :: repeat (Some 50) 7 ++ repeat (Some 60) 21).
  set (fl := ([3] ++ repeat 2 3 ++ repeat 1 3 ++ repeat 0 22)%Z).
  assert (E3 : after_tier3 polar_reading "Rh" polar_rh = mkColState rh fl).
  { cbv - [Rplus Rminus Rmult Rdiv Ropp Rinv IZR Rltb Rleb Reqb
           exp sin cos atan PI Zfloor up INR Rmax Rmin Rlt Rle Rgt Rge
           calculate_rh_from_temp_dew].
    match goal with
    | |- context [calculate_rh_from_temp_dew ?t ?d] =>
        change (calculate_rh_from_temp_dew t d)
          with (calculate_rh_from_temp_dew (Fin (-243.04)) (Fin 5))
    end.
    rewrite calculate_rh_at_pole. reflexivity. }
  assert (E4 : bounds_check "Rh" (mkColState rh fl) = mkColState rh fl).
  { unfold bounds_check. cbn [String.eqb Ascii.eqb Bool.eqb].
    cbv [vals rh repeat app map out_of_bounds RH_MIN RH_MAX].
    decide_R. reflexivity. }
  assert (E : impute_missing_values polar_reading
              = with_col (with_col polar_reading "Rh_imputed" (Int64 fl))
                  "Rh" (Float64 rh)).
  { unfold impute_missing_values.
    replace (sort_values polar_reading) with polar_reading
      by (run_table; reflexivity).
    replace (data_columns polar_reading) with ["Temperature"; "Dew"; "Rh"]
      by reflexivity.
    cbn [fold_left].
    replace (impute_column polar_reading "Temperature") with polar_reading
      by reflexivity.
    replace (impute_column polar_reading "Dew") with polar_reading
      by reflexivity.
    unfold impute_column.
    replace (get_col (columns polar_reading) "Rh") with (Some (Float64 polar_rh))
      by reflexivity.
    replace (count_true (map isnull polar_rh) =? 0)%nat with false
      by reflexivity.
    rewrite E3, E4. reflexivity. }
  rewrite E. split; reflexivity.
Qed.

(** ** Row selection *)

Section Select.

Context {A B : Type}.

Lemma select_In (m : list bool) (l : list A) (x : A) :
  In x (select m l) <->
  exists i, nth_error m i = Some true /\ nth_error l i = Some x.
Proof.
  revert l; induction m as [|b m IH]; intros [|y l]; simpl.
  - split; [tauto | intros ([|i] & H & _); discriminate].
  - split; [tauto | intros ([|i] & H & _); discriminate].
  - split; [tauto | intros ([|i] & _ & H); discriminate].
  - destruct b; simpl; rewrite IH; split.
    + intros [-> | (i & H1 & H2)]; [exists 0%nat | exists (S i)]; auto.
    + intros ([|i] & H1 & H2); simpl in *; [left; congruence | right; eauto].
    + intros (i & H1 & H2); exists (S i); auto.
    + intros ([|i] & H1 & H2); simpl in *; [discriminate | eauto].
Qed.

Lemma combine_nil_r (l : list A) : combine l (@nil B) = [].
Proof. destruct l; reflexivity. Qed.

Lemma select_combine (m : list bool) (l : list A) (l' : list B) :
  combine (select m l) (select m l') = select m (combine l l').
Proof.
  revert l l'; induction m as [|b m IH]; intros [|x l] [|y l']; simpl; auto.
  - apply combine_nil_r.
  - destruct b; simpl; rewrite IH; reflexivity.
Qed.

Lemma combine_nth_error (l : list A) (l' : list B) (i : nat) (x : A) (y : B) :
  nth_error (combine l l') i = Some (x, y) <->
  nth_error l i = Some x /\ nth_error l' i = Some y.
Proof.
  revert l' i; induction l as [|a l IH]; intros [|b l'] [|i]; simpl;
    try (split; [discriminate | intros [? ?]; discriminate]).
  - split; [intros [= -> ->]; auto | intros [[= ->] [= ->]]; reflexivity].
  - apply IH.
Qed.

End Select.

Lemma group_values_In (S : list string) (T : list Z) (g : Z -> Z)
  (k : string * Z) (t : Z) :
  In t (group_values (combine S (map g T)) k T) <->
  In (fst k, t) (combine S T) /\ snd k = g t.
Proof.
  unfold group_values.
  revert T; induction S as [|s S IH]; intros [|t0 T]; simpl; try tauto.
  unfold key_eqb at 1. simpl fst. simpl snd.
  destruct (String.eqb (fst k) s) eqn:Es; simpl.
  - apply String.eqb_eq in Es. subst s.
    destruct (Z.eqb (snd k) (g t0)) eqn:Ez; simpl; rewrite IH.
    + apply Z.eqb_eq in Ez. split.
      * intros [-> | [H1 H2]]; auto.
      * intros [[[= ->] | H1] H2]; auto.
    + apply Z.eqb_neq in Ez. split.
      * intros [H1 H2]; auto.
      * intros [[[= ->] | H1] H2]; [contradiction | auto].
  - apply String.eqb_neq in Es. rewrite IH. split.
    + intros [H1 H2]; auto.
    + intros [[[= E _] | H1] H2]; [now elim Es | auto].
Qed.

(** ** The hourly window *)

Lemma floor_hour_bounds (t : Z) : (0 <= t - floor_hour t < 3600)%Z.
Proof.
  unfold floor_hour.
  pose proof (Z.mod_pos_bound t 3600 ltac:(lia)).
  pose proof (Z.div_mod t 3600 ltac:(lia)). lia.
Qed.

Lemma in_window_spec (t : Z) :
  in_window (minutes_from_hour t) = true <->
  (-1800 <= t - floor_hour t <= 1800)%Z.
Proof.
  unfold in_window, minutes_from_hour.
  rewrite andb_true_iff, !Rleb_spec.
  set (d := (t - floor_hour t)%Z). split.
  - intros [H1 H2]. split; apply le_IZR; lra.
  - intros [H1 H2]. apply IZR_le in H1, H2. split; lra.
Qed.

Lemma hourly_data_rows (df : DataFrame) :
  let window := map (fun t => in_window (minutes_from_hour t)) (Datetime_UTC df) in
  station (hourly_data df) = select window (station df) /\
  Datetime_UTC (hourly_data df) = select window (Datetime_UTC df).
Proof. split; reflexivity. Qed.

(** The timestamps the aggregator groups under a key: those of the
    records of the station that floor to the hour of the key and lie
    within 30 minutes (1800 s) of it, bounds included. *)
Lemma bucket_times_window (df : DataFrame) (s : string) (t : Z) :
  (forall h,
     In t (bucket_times df (s, h)) <->
     (exists i, nth_error (station df) i = Some s /\
                nth_error (Datetime_UTC df) i = Some t) /\
     h = floor_hour t /\ (-1800 <= t - h <= 1800)%Z) /\
  ((exists i, nth_error (station df) i = Some s /\
              nth_error (Datetime_UTC df) i = Some t) ->
   (t - floor_hour t = 1800)%Z ->
   In t (bucket_times df (s, floor_hour t))) /\
  ((t - floor_hour t = 1860)%Z ->
   forall k, ~ In t (bucket_times df k)).
Proof.
  assert (Hiff : forall s' h,
     In t (bucket_times df (s', h)) <->
     (exists i, nth_error (station df) i = Some s' /\
                nth_error (Datetime_UTC df) i = Some t) /\
     h = floor_hour t /\ (-1800 <= t - h <= 1800)%Z).
  { intros s' h. unfold bucket_times, hourly_keys.
    destruct (hourly_data_rows df) as [-> ->]. cbv zeta.
    rewrite group_values_In. simpl fst. simpl snd.
    rewrite select_combine, select_In. split.
    - intros [(i & Hw & Hc) ->].
      apply combine_nth_error in Hc as [Hs Ht].
      rewrite nth_error_map, Ht in Hw. simpl in Hw. injection Hw as Hw.
      apply in_window_spec in Hw. eauto 6.
    - intros [(i & Hs & Ht) [-> Hw]]. split; [|reflexivity].
      exists i. split.
      + rewrite nth_error_map, Ht. simpl. f_equal. now apply in_window_spec.
      + apply combine_nth_error. auto. }
  split; [apply Hiff | split].
  - intros Hex Hd. apply Hiff. repeat split; auto; lia.
  - intros Hd [s' h] Hin. apply Hiff in Hin as (_ & -> & Hw). lia.
Qed.

Lemma select_map {A B : Type} (f : A -> B) (m : list bool) (l : list A) :
  select m (map f l) = map f (select m l).
Proof.
  revert l; induction m as [|b m IH]; intros [|x l]; simpl; auto.
  destruct b; simpl; now rewrite IH.
Qed.

Lemma key_eqb_eq (a b : string * Z) : key_eqb a b = true <-> a = b.
Proof.
  unfold key_eqb. rewrite andb_true_iff, String.eqb_eq, Z.eqb_eq.
  destruct a, b; simpl. split; [intros [-> ->]; reflexivity | intros [= -> ->]; auto].
Qed.

Lemma insert_key_In (k x : string * Z) (l : list (string * Z)) :
  In x (insert_key k l) <-> x = k \/ In x l.
Proof.
  induction l as [|k' l IH]; simpl; [intuition|].
  destruct (key_eqb k k') eqn:E.
  - apply key_eqb_eq in E. subst k'. simpl. intuition.
  - destruct (key_le k k'); simpl; [intuition|]. rewrite IH. intuition.
Qed.

Lemma group_keys_In (keys : list (string * Z)) (x : string * Z) :
  In x (group_keys keys) <-> In x keys.
Proof.
  induction keys as [|k keys IH]; simpl; [tauto|].
  unfold group_keys in *. rewrite insert_key_In, IH. intuition.
Qed.

Lemma combine_fst_snd {A B : Type} (l : list (A * B)) :
  combine (map fst l) (map snd l) = l.
Proof. induction l as [|[a b] l IH]; simpl; [reflexivity | now rewrite IH]. Qed.

Lemma hourly_returned_keys (df out : DataFrame) :
  snd (create_hourly_aggregates df) = Returned out ->
  row_keys out = group_keys (hourly_keys (hourly_data df)).
Proof.
  unfold create_hourly_aggregates. cbv zeta. simpl snd.
  destruct (hourly_agg_dict (hourly_data df)); [discriminate|].
  intros [= <-]. unfold row_keys. simpl. apply combine_fst_snd.
Qed.

(** ** What the aggregators do to their input *)

Lemma hourly_input_after (df : DataFrame) :
  fst (create_hourly_aggregates df) = hourly_labelled df.
Proof. reflexivity. Qed.

Lemma daily_input_after (df : DataFrame) :
  fst (create_daily_aggregates df) = daily_labelled df.
Proof. reflexivity. Qed.

Lemma insert_key_length (k : string * Z) (l : list (string * Z)) :
  (List.length (insert_key k l) <= S (List.length l))%nat.
Proof.
  induction l as [|k' l IH]; simpl; [lia|].
  destruct (key_eqb k k'); [simpl; lia|].
  destruct (key_le k k'); simpl; lia.
Qed.

Lemma group_keys_length (keys : list (string * Z)) :
  (List.length (group_keys keys) <= List.length keys)%nat.
Proof.
  induction keys as [|k keys IH]; simpl; [lia|].
  pose proof (insert_key_length k (group_keys keys)). unfold group_keys in *. lia.
Qed.

Lemma select_length {A : Type} (m : list bool) (l : list A) :
  (List.length (select m l) <= List.length l)%nat.
Proof.
  revert l; induction m as [|b m IH]; intros [|x l]; simpl; try lia.
  specialize (IH l). destruct b; simpl; lia.
Qed.

Lemma get_col_coerce (cols : list (string * Column)) (name : string) :
  get_col (map (fun nc => (fst nc, coerce (fst nc) (snd nc))) cols) name
  = option_map (coerce name) (get_col cols name).
Proof.
  induction cols as [|[n c] cols IH]; simpl; [reflexivity|].
  destruct (String.eqb n name) eqn:E; [|exact IH].
  apply String.eqb_eq in E. now subst.
Qed.

Lemma coerce_not_object (name : string) (c : Column) :
  (forall dates, c <> ObjectDate dates) -> coerce name c = c.
Proof. destruct c; intros H; try reflexivity. now elim (H v). Qed.

Lemma coerce_object (name : string) (dates : list Z) :
  str_in name ["station"; "Datetime_UTC"] = false ->
  is_numeric_dtype (coerce name (ObjectDate dates)) = true /\
  as_float (coerce name (ObjectDate dates)) = map (fun _ => None) dates.
Proof.
  intros H. unfold coerce. rewrite H. destruct dates; split; reflexivity.
Qed.

Lemma coerce_numeric (name : string) (c : Column) :
  is_numeric_dtype c = true -> coerce name c = c.
Proof. destruct c; intros H; try reflexivity; discriminate. Qed.

(** What either aggregator leaves of the columns of its input that are not
    its own labels: a column that holds no python objects is as it was, a
    column of python dates has become numeric with every entry missing,
    and no column has appeared. *)
Lemma coerced_columns (df df' : DataFrame) :
  (forall name, get_col (columns df') name
                = option_map (coerce name) (get_col (columns df) name)) ->
  (forall name c, get_col (columns df) name = Some c ->
     (forall dates, c <> ObjectDate dates) ->
     get_col (columns df') name = Some c) /\
  (forall name dates, get_col (columns df) name = Some (ObjectDate dates) ->
     str_in name ["station"; "Datetime_UTC"] = false ->
     exists c', get_col (columns df') name = Some c' /\
                is_numeric_dtype c' = true /\
                as_float c' = map (fun _ => None) dates) /\
  (forall name, get_col (columns df) name = None ->
                get_col (columns df') name = None).
Proof.
  intros H. split; [|split].
  - intros name c Hc Hn. rewrite H, Hc. simpl. now rewrite coerce_not_object.
  - intros name dates Hc Hs. rewrite H, Hc. simpl.
    eexists. split; [reflexivity|]. now apply coerce_object.
  - intros name Hc. now rewrite H, Hc.
Qed.

Lemma hourly_output_rows (df out : DataFrame) :
  snd (create_hourly_aggregates df) = Returned out -> (len out <= len df)%nat.
Proof.
  unfold create_hourly_aggregates. simpl.
  destruct (hourly_agg_dict (hourly_data df)); [discriminate|].
  intros [= <-]. unfold len. simpl. rewrite length_map.
  etransitivity; [apply group_keys_length|].
  unfold hourly_keys. rewrite length_combine.
  etransitivity; [apply Nat.le_min_l|].
  destruct (hourly_data_rows df) as [-> _]. apply select_length.
Qed.

Lemma daily_output_rows (df out : DataFrame) :
  snd (create_daily_aggregates df) = Returned out -> (len out <= len df)%nat.
Proof.
  unfold create_daily_aggregates. simpl.
  destruct (daily_agg_list _); [discriminate|].
  intros [= <-]. unfold len. simpl. rewrite length_map.
  etransitivity; [apply group_keys_length|].
  unfold daily_keys. rewrite length_combine. simpl.
  apply Nat.le_min_l.
Qed.

(** C6 (amended).  Each aggregator leaves the key columns of its input as
    they were, and every column that holds no python objects and is not
    one of its labels; but it writes into the table it is given.  It
    replaces every column of python dates (other than its labels) by a
    numeric column in which every entry is missing, and it writes its own
    label columns: [hour_label] and [minutes_from_hour] for the hourly
    aggregator, [date_label] for the daily one.  It adds no other column.
    The table it returns has no more rows than the input. *)
Theorem aggregators_add_label_columns (df : DataFrame) :
  (let df' := fst (create_hourly_aggregates df) in
   Datetime_UTC df' = Datetime_UTC df /\ station df' = station df /\
   (forall name, name <> "hour_label" -> name <> "minutes_from_hour" ->
      (forall c, get_col (columns df) name = Some c ->
                 (forall dates, c <> ObjectDate dates) ->
                 get_col (columns df') name = Some c) /\
      (forall dates, get_col (columns df) name = Some (ObjectDate dates) ->
                     str_in name ["station"; "Datetime_UTC"] = false ->
                     exists c', get_col (columns df') name = Some c' /\
                                is_numeric_dtype c' = true /\
                                as_float c' = map (fun _ => None) dates) /\
      (get_col (columns df) name = None -> get_col (columns df') name = None)) /\
   get_col (columns df') "hour_label"
   = Some (DatetimeTZ (map floor_hour (Datetime_UTC df))) /\
   get_col (columns df') "minutes_from_hour"
   = Some (Float64 (map (fun t => Some (minutes_from_hour t)) (Datetime_UTC df))) /\
   (forall out, snd (create_hourly_aggregates df) = Returned out ->
                (len out <= len df)%nat)) /\
  (let df' := fst (create_daily_aggregates df) in
   Datetime_UTC df' = Datetime_UTC df /\ station df' = station df /\
   (forall name, name <> "date_label" ->
      (forall c, get_col (columns df) name = Some c ->
                 (forall dates, c <> ObjectDate dates) ->
                 get_col (columns df') name = Some c) /\
      (forall dates, get_col (columns df) name = Some (ObjectDate dates) ->
                     str_in name ["station"; "Datetime_UTC"] = false ->
                     exists c', get_col (columns df') name = Some c' /\
                                is_numeric_dtype c' = true /\
                                as_float c' = map (fun _ => None) dates) /\
      (get_col (columns df) name = None -> get_col (columns df') name = None)) /\
   get_col (columns df') "date_label"
   = Some (ObjectDate (map date_label (Datetime_UTC df))) /\
   (forall out, snd (create_daily_aggregates df) = Returned out ->
                (len out <= len df)%nat)).
Proof.
  split; cbv zeta.
  - rewrite hourly_input_after.
    split; [reflexivity|]. split; [reflexivity|]. split; [|split; [|split]].
    + intros name H1 H2.
      pose (cur := mkDataFrame (Datetime_UTC df) (station df)
                     (map (fun nc => (fst nc, coerce (fst nc) (snd nc))) (columns df))).
      assert (E : get_col (columns (hourly_labelled df)) name
                  = get_col (columns cur) name).
      { unfold hourly_labelled, with_col, coerce_objects. simpl.
        now rewrite !get_set_col_other by congruence. }
      destruct (coerced_columns df cur (get_col_coerce (columns df))) as (A & B & C).
      rewrite E. split; [|split]; intros; eauto.
    + unfold hourly_labelled, with_col. simpl.
      rewrite get_set_col_other by discriminate. apply get_set_col_same.
    + unfold hourly_labelled, with_col. simpl. apply get_set_col_same.
    + apply hourly_output_rows.
  - rewrite daily_input_after.
    split; [reflexivity|]. split; [reflexivity|]. split; [|split].
    + intros name H1.
      pose (cur := mkDataFrame (Datetime_UTC df) (station df)
                     (map (fun nc => (fst nc, coerce (fst nc) (snd nc))) (columns df))).
      assert (E : get_col (columns (daily_labelled df)) name
                  = get_col (columns cur) name).
      { unfold daily_labelled, with_col, coerce_objects. simpl.
        now rewrite !get_set_col_other by congruence. }
      destruct (coerced_columns df cur (get_col_coerce (columns df))) as (A & B & C).
      rewrite E. split; [|split]; intros; eauto.
    + unfold daily_labelled, with_col. simpl. apply get_set_col_same.
    + apply daily_output_rows.
Qed.

Lemma aggregators_add_label_columns_witness :
  "Temperature" <> "hour_label" /\ "Temperature" <> "minutes_from_hour" /\
  "date_label" <> "hour_label" /\ "date_label" <> "minutes_from_hour" /\
  get_col (columns dated_half_hours) "Temperature"
  = Some (Float64 [Some 10; Some 12; Some 14]) /\
  get_col (columns dated_half_hours) "date_label" = Some (ObjectDate [0; 0; 0]%Z) /\
  get_col (columns (fst (create_hourly_aggregates dated_half_hours))) "Temperature"
  = Some (Float64 [Some 10; Some 12; Some 14]) /\
  exists c',
    get_col (columns (fst (create_hourly_aggregates dated_half_hours))) "date_label"
    = Some c' /\
    is_numeric_dtype c' = true /\ as_float c' = [None; None; None].
Proof.
  assert (H1 : "Temperature" <> "hour_label") by discriminate.
  assert (H2 : "Temperature" <> "minutes_from_hour") by discriminate.
  assert (H3 : "date_label" <> "hour_label") by discriminate.
  assert (H4 : "date_label" <> "minutes_from_hour") by discriminate.
  assert (H5 : get_col (columns dated_half_hours) "Temperature"
               = Some (Float64 [Some 10; Some 12; Some 14])) by reflexivity.
  assert (H6 : get_col (columns dated_half_hours) "date_label"
               = Some (ObjectDate [0; 0; 0]%Z)) by reflexivity.
  assert (H7 : forall dates, Float64 [Some 10; Some 12; Some 14] <> ObjectDate dates)
    by discriminate.
  assert (H8 : str_in "date_label" ["station"; "Datetime_UTC"] = false) by reflexivity.
  destruct (aggregators_add_label_columns dated_half_hours) as [Hh _].
  cbv zeta in Hh. destruct Hh as (_ & _ & Hh & _).
  split; [exact H1|]. split; [exact H2|]. split; [exact H3|]. split; [exact H4|].
  split; [exact H5|]. split; [exact H6|]. split.
  - exact (proj1 (Hh "Temperature" H1 H2) _ H5 H7).
  - exact (proj1 (proj2 (Hh "date_label" H3 H4)) _ H6 H8).
Defined.

(** C6 (as stated).  The aggregators do change the table they are given:
    after either call [half_hours] has more columns than before. *)
Lemma aggregators_mutate_input :
  fst (create_hourly_aggregates half_hours) <> half_hours /\
  fst (create_daily_aggregates half_hours) <> half_hours /\
  map fst (columns (fst (create_hourly_aggregates half_hours)))
  = ["Temperature"; "hour_label"; "minutes_from_hour"] /\
  map fst (columns (fst (create_daily_aggregates half_hours)))
  = ["Temperature"; "date_label"].
Proof.
  split; [|split; [|split; reflexivity]].
  - intros H. apply (f_equal (fun d => List.length (columns d))) in H. discriminate.
  - intros H. apply (f_equal (fun d => List.length (columns d))) in H. discriminate.
Qed.

(** The table the daily aggregator leaves carries its dates; given that
    table, the hourly aggregator aggregates [date_label] as a variable
    without any reading. *)
Example daily_leaves_dates :
  fst (create_daily_aggregates half_hours) = dated_half_hours /\
  map fst (columns (fst (create_hourly_aggregates dated_half_hours)))
  = ["Temperature"; "date_label"; "hour_label"; "minutes_from_hour"] /\
  match snd (create_hourly_aggregates dated_half_hours) with
  | Returned out => map fst (columns out)
  | Raised _ => []
  end
  = ["Temperature"; "date_label"].
Proof. repeat split; reflexivity. Qed.

(** In the pipeline the daily aggregator receives the table the hourly
    aggregator has written to, and aggregates [minutes_from_hour] as if it
    were a variable. *)
Example daily_after_hourly_columns :
  match snd (create_daily_aggregates (fst (create_hourly_aggregates half_hours))) with
  | Returned out => map fst (columns out)
  | Raised _ => []
  end
  = ["Temperature_min"; "Temperature_max"; "Temperature_mean";
     "minutes_from_hour_min"; "minutes_from_hour_max"; "minutes_from_hour_mean"].
Proof. reflexivity. Qed.

(** ** The quality report *)

Lemma select_nil {A : Type} (m : list bool) : select m (@nil A) = [].
Proof. destruct m; reflexivity. Qed.

Lemma zero_length_nil {A : Type} (l : list A) : List.length l = 0%nat -> l = [].
Proof. destruct l; [reflexivity | discriminate]. Qed.

Lemma select_col_empty (m : list bool) (c : Column) :
  column_length c = 0%nat -> select_col m c = c.
Proof.
  destruct c; simpl; intros H; apply zero_length_nil in H; subst;
    now rewrite select_nil.
Qed.

Lemma get_col_In (cols : list (string * Column)) (name : string) :
  In name (map fst cols) -> exists c, get_col cols name = Some c /\ In (name, c) cols.
Proof.
  induction cols as [|[n c] cols IH]; simpl; [tauto|].
  intros H. destruct (String.eqb n name) eqn:E.
  - apply String.eqb_eq in E. subst. eauto.
  - destruct H as [H | H]; [simpl in H; subst; now rewrite String.eqb_refl in E|].
    destruct (IH H) as (c' & H1 & H2). eauto.
Qed.

Lemma get_col_Some_In (cols : list (string * Column)) (name : string) (c : Column) :
  get_col cols name = Some c -> In (name, c) cols.
Proof.
  induction cols as [|[n c0] cols IH]; simpl; [discriminate|].
  destruct (String.eqb n name) eqn:E.
  - apply String.eqb_eq in E. intros [= ->]. subst. now left.
  - intros H. right. auto.
Qed.

Lemma get_col_map (f : Column -> Column) (cols : list (string * Column)) (name : string) :
  get_col (map (fun nc => (fst nc, f (snd nc))) cols) name
  = option_map f (get_col cols name).
Proof.
  induction cols as [|[n c] cols IH]; simpl; [reflexivity|].
  destruct (String.eqb n name); [reflexivity | exact IH].
Qed.

Lemma data_columns_filter_rows (df : DataFrame) (m : list bool) :
  data_columns (filter_rows df m) = data_columns df.
Proof.
  unfold data_columns, filter_rows. simpl. rewrite map_map. reflexivity.
Qed.

Lemma quality_row_labels (label : string) (sub : DataFrame) (col : string) (c : Column) :
  q_station (quality_row label sub col c) = label /\
  q_column (quality_row label sub col c) = col /\
  total_rows (quality_row label sub col c) = Z.of_nat (len sub) /\
  missing_count (quality_row label sub col c) = Z.of_nat (null_count c).
Proof.
  unfold quality_row. destruct (get_col (columns sub) (flag_col col)); simpl; auto.
Qed.

Lemma quality_row_without_flags (label : string) (sub : DataFrame) (col : string)
  (c : Column) :
  get_col (columns sub) (flag_col col) = None ->
  let row := quality_row label sub col c in
  original_data_count row = (total_rows row - missing_count row)%Z /\
  interpolated_count row = 0%Z /\
  forward_backward_filled_count row = 0%Z /\
  calculated_count row = 0%Z /\
  total_imputed_count row = 0%Z.
Proof.
  intros H. unfold quality_row. rewrite H. simpl. auto.
Qed.

(** *** The loops and their exceptions *)

Section Collect.

Context {A B : Type}.
Variable body : A -> outcome (list B).

Lemma collect_returned (g : A -> list B) (l : list A) :
  (forall x, In x l -> body x = Returned (g x)) ->
  collect body l = Returned (flat_map g l).
Proof.
  induction l as [|x l IH]; intros H; simpl; [reflexivity|].
  rewrite (H x) by now left.
  rewrite IH by (intros y Hy; apply H; now right). reflexivity.
Qed.

Lemma collect_passes (l : list A) (rows : list B) :
  collect body l = Returned rows ->
  forall x, In x l -> exists r, body x = Returned r.
Proof.
  revert rows. induction l as [|x l IH]; intros rows H y Hy; [destruct Hy|].
  simpl in H. destruct (body x) as [r|e] eqn:Ex; [|discriminate].
  destruct (collect body l) as [rest|e] eqn:El; [|discriminate].
  destruct Hy as [<- | Hy]; [eauto | eapply IH; eauto].
Qed.

Lemma collect_raised (l : list A) (e : string) :
  collect body l = Raised e -> exists x, In x l /\ body x = Raised e.
Proof.
  induction l as [|x l IH]; simpl; [discriminate|].
  destruct (body x) as [r|e'] eqn:Ex.
  - destruct (collect body l) as [rest|e'] eqn:El; [discriminate|].
    intros [= <-]. destruct (IH eq_refl) as (y & Hy & Ey). exists y. auto.
  - intros [= <-]. exists x. auto.
Qed.

Lemma collect_raises (l : list A) (e : string) (x : A) :
  (forall y e', body y = Raised e' -> e' = e) ->
  In x l -> body x = Raised e -> collect body l = Raised e.
Proof.
  intros Hone. induction l as [|y l IH]; intros Hin Hx; [destruct Hin|].
  simpl. destruct (body y) as [r|e'] eqn:Ey.
  - destruct Hin as [-> | Hin]; [congruence|]. now rewrite IH.
  - now rewrite (Hone y e' Ey).
Qed.

End Collect.

Lemma statistics_of_numeric (c : Column) :
  is_numeric_dtype c = true -> statistics_raise c = false.
Proof. intros H. unfold statistics_raise. now rewrite H. Qed.

Lemma statistics_of_empty (c : Column) :
  column_length c = 0%nat -> statistics_raise c = false.
Proof.
  intros H. unfold statistics_raise.
  assert (E : valid_count c = 0%nat).
  { destruct c as [v|v|v|v]; simpl in *; try exact H.
    destruct v; [reflexivity | discriminate]. }
  rewrite E. apply andb_false_r.
Qed.

Lemma statistics_of_dates (c : Column) :
  is_numeric_dtype c = false -> (0 < column_length c)%nat ->
  statistics_raise c = true.
Proof.
  intros Hn Hl. unfold statistics_raise. rewrite Hn.
  destruct c as [v|v|v|v]; try discriminate; simpl in *; now apply Nat.ltb_lt.
Qed.

Lemma quality_record_exception (label : string) (sub : DataFrame) (col : string)
  (c : Column) (e : string) :
  quality_record label sub col c = Raised e -> e = "TypeError".
Proof.
  unfold quality_record. destruct (statistics_raise c); [|discriminate].
  now intros [= <-].
Qed.

Lemma quality_rows_exception (label : string) (sub : DataFrame) (cols : list string)
  (e : string) :
  quality_rows label sub cols = Raised e -> e = "TypeError".
Proof.
  intros H. apply collect_raised in H as (col & _ & H).
  destruct (get_col (columns sub) col) as [c|]; [|discriminate].
  destruct (quality_record label sub col c) as [row|e'] eqn:E; [discriminate|].
  injection H as <-. now apply quality_record_exception in E.
Qed.

Lemma quality_rows_returned (label : string) (sub : DataFrame) (cols : list string) :
  (forall col c, In col cols -> get_col (columns sub) col = Some c ->
                 statistics_raise c = false) ->
  quality_rows label sub cols = Returned (rows_of label sub cols).
Proof.
  intros H. unfold quality_rows, rows_of. apply collect_returned.
  intros col Hcol. destruct (get_col (columns sub) col) as [c|] eqn:E; [|reflexivity].
  unfold quality_record. now rewrite (H col c Hcol E).
Qed.

Lemma quality_rows_are (label : string) (sub : DataFrame) (cols : list string)
  (rows : list QualityRow) :
  quality_rows label sub cols = Returned rows -> rows = rows_of label sub cols.
Proof.
  intros H. rewrite quality_rows_returned in H; [congruence|].
  intros col c Hcol E.
  destruct (collect_passes _ _ _ H col Hcol) as (r & Hr).
  cbv beta in Hr. rewrite E in Hr. unfold quality_record in Hr.
  destruct (statistics_raise c); [discriminate | reflexivity].
Qed.

Lemma quality_rows_raise (label : string) (sub : DataFrame) (cols : list string)
  (col : string) (c : Column) :
  In col cols -> get_col (columns sub) col = Some c -> statistics_raise c = true ->
  quality_rows label sub cols = Raised "TypeError".
Proof.
  intros Hcol E Hr. unfold quality_rows.
  apply (collect_raises _ _ _ col); [|exact Hcol|].
  - intros y e' Hy. destruct (get_col (columns sub) y) as [c'|]; [|discriminate].
    destruct (quality_record label sub y c') as [row|e0] eqn:E0; [discriminate|].
    injection Hy as <-. now apply quality_record_exception in E0.
  - rewrite E. unfold quality_record. now rewrite Hr.
Qed.

Lemma statistics_of_station (df : DataFrame) (m : list bool) :
  statistics_defined df ->
  forall col c, In col (data_columns df) ->
                get_col (columns (filter_rows df m)) col = Some c ->
                statistics_raise c = false.
Proof.
  intros Hd col c Hcol E. unfold filter_rows in E. simpl in E.
  rewrite get_col_map in E.
  destruct (get_col (columns df) col) as [c0|] eqn:E0; [|discriminate].
  injection E as <-. destruct (Hd col c0 Hcol E0) as [Hn | Hl].
  - apply statistics_of_numeric. now destruct c0.
  - apply statistics_of_empty. now rewrite select_col_empty.
Qed.

(** The report is returned when no statistic fails, and then it is
    [report_of]. *)
Lemma report_returned (df : DataFrame) :
  statistics_defined df -> create_data_quality_csv df = Returned (report_of df).
Proof.
  intros Hd. unfold create_data_quality_csv, report_of. cbv zeta.
  rewrite (collect_returned _
             (fun s => rows_of s (filter_rows df (station_mask df s)) (data_columns df))).
  - rewrite quality_rows_returned; [reflexivity|].
    intros col c Hcol E. destruct (Hd col c Hcol E);
      [now apply statistics_of_numeric | now apply statistics_of_empty].
  - intros s _. apply quality_rows_returned. now apply statistics_of_station.
Qed.

Lemma report_is (df : DataFrame) (rows : list QualityRow) :
  create_data_quality_csv df = Returned rows -> rows = report_of df.
Proof.
  unfold create_data_quality_csv, report_of. cbv zeta.
  destruct (collect _ (sorted (unique (station df)))) as [rr|e] eqn:Er; [|discriminate].
  destruct (quality_rows "ALL_STATIONS" df (data_columns df)) as [sr|e] eqn:Es;
    [|discriminate].
  intros [= <-]. apply quality_rows_are in Es. subst sr. f_equal.
  rewrite (collect_returned _
             (fun s => rows_of s (filter_rows df (station_mask df s)) (data_columns df)))
    in Er; [congruence|].
  intros s Hs. destruct (collect_passes _ _ _ Er s Hs) as (r & Hr).
  cbv beta in Hr. now rewrite (quality_rows_are _ _ _ _ Hr) in Hr.
Qed.

Lemma report_raises (df : DataFrame) (col : string) (c : Column) :
  In col (data_columns df) -> get_col (columns df) col = Some c ->
  statistics_raise c = true ->
  create_data_quality_csv df = Raised "TypeError".
Proof.
  intros Hcol E Hr. unfold create_data_quality_csv. cbv zeta.
  destruct (collect _ (sorted (unique (station df)))) as [rr|e] eqn:Er.
  - now rewrite (quality_rows_raise "ALL_STATIONS" df _ col c Hcol E Hr).
  - apply collect_raised in Er as (s & _ & Hs).
    now rewrite (quality_rows_exception _ _ _ _ Hs).
Qed.

(** The rows of the report: a row per station and data column, then a row
    per data column for the whole table. *)
Lemma rows_of_In (label : string) (sub : DataFrame) (cols : list string)
  (row : QualityRow) :
  In row (rows_of label sub cols) <->
  exists col c, In col cols /\ get_col (columns sub) col = Some c /\
                row = quality_row label sub col c.
Proof.
  unfold rows_of. rewrite in_flat_map. split.
  - intros (col & Hc & Hr). destruct (get_col (columns sub) col) as [c|] eqn:E.
    + destruct Hr as [<- | []]. eauto.
    + destruct Hr.
  - intros (col & c & Hc & E & ->). exists col. rewrite E. simpl. auto.
Qed.

Lemma report_In (df : DataFrame) (row : QualityRow) :
  In row (report_of df) <->
  (exists s, In s (sorted (unique (station df))) /\
             In row (rows_of s (filter_rows df (station_mask df s))
                       (data_columns df))) \/
  In row (rows_of "ALL_STATIONS" df (data_columns df)).
Proof.
  unfold report_of. rewrite in_app_iff, in_flat_map. reflexivity.
Qed.

Lemma insert_string_In (s x : string) (l : list string) :
  In x (insert_string s l) <-> x = s \/ In x l.
Proof.
  induction l as [|y l IH]; simpl; [intuition|].
  destruct (String.compare s y); simpl; rewrite ?IH; intuition.
Qed.

Lemma sorted_In (x : string) (l : list string) : In x (sorted l) <-> In x l.
Proof.
  unfold sorted. induction l as [|y l IH]; simpl; [tauto|].
  rewrite insert_string_In, IH. intuition.
Qed.

(** The report has a row for every data column and every station of the
    table, and one for all stations. *)
Lemma quality_report_covers (df : DataFrame) (col s : string) :
  In col (data_columns df) -> In s (station df) ->
  exists c,
    get_col (columns df) col = Some c /\
    In (quality_row "ALL_STATIONS" df col c) (report_of df) /\
    In (quality_row s (filter_rows df (station_mask df s)) col
          (select_col (station_mask df s) c))
       (report_of df).
Proof.
  intros Hcol Hs.
  assert (Hname : In col (map fst (columns df))).
  { unfold data_columns in Hcol. apply filter_In in Hcol. tauto. }
  destruct (get_col_In _ _ Hname) as (c & Hc & _).
  exists c. split; [assumption | split]; apply report_In.
  - right. apply rows_of_In. eauto.
  - left. exists s. split; [now apply sorted_In, unique_In|].
    apply rows_of_In. exists col, (select_col (station_mask df s) c).
    repeat split; [assumption|].
    unfold filter_rows. simpl. now rewrite get_col_map, Hc.
Qed.

(** *** Counting a series *)

Lemma count_true_filter {X : Type} (f : X -> bool) (l : list X) :
  count_true (map f l) = List.length (filter f l).
Proof.
  unfold count_true. induction l as [|x l IH]; simpl; [reflexivity|].
  destruct (f x); simpl; now rewrite IH.
Qed.

Lemma missing_and_present (v : list cell) :
  List.length v = (List.length (filter isnull v) + List.length (dropna v))%nat.
Proof.
  induction v as [|[x|] v IH]; simpl; [reflexivity | |]; rewrite IH; lia.
Qed.

Lemma integers_present (v : list Z) :
  filter isnull (map (fun z => Some (IZR z)) v) = [].
Proof. induction v as [|z v IH]; simpl; [reflexivity | exact IH]. Qed.

Lemma numeric_length (c : Column) :
  is_numeric_dtype c = true -> List.length (as_float c) = column_length c.
Proof.
  destruct c as [v|v|v|v]; intros H; try discriminate; simpl; [reflexivity|].
  apply length_map.
Qed.

Lemma numeric_missing (c : Column) :
  is_numeric_dtype c = true ->
  null_count c = List.length (filter isnull (as_float c)).
Proof.
  destruct c as [v|v|v|v]; intros H; try discriminate; simpl.
  - apply count_true_filter.
  - now rewrite integers_present.
Qed.

Lemma select_same_length {X Y : Type} (m : list bool) (l : list X) (l' : list Y) :
  List.length l = List.length l' ->
  List.length (select m l) = List.length (select m l').
Proof.
  revert l l'; induction m as [|b m IH]; intros [|x l] [|y l'] H; simpl in *;
    try reflexivity; try discriminate.
  destruct b; simpl; rewrite (IH l l') by lia; reflexivity.
Qed.

Lemma select_col_floats (m : list bool) (c : Column) :
  as_float (select_col m c) = select m (as_float c).
Proof.
  destruct c as [v|v|v|v]; simpl; try reflexivity.
  - revert v; induction m as [|b m IH]; intros [|z v]; simpl; auto.
    destruct b; simpl; now rewrite IH.
  - now rewrite select_nil.
  - now rewrite select_nil.
Qed.

(** A record of a numeric column that has one entry per row and no flag
    column counts the column as it is. *)
Lemma quality_row_counts (label : string) (sub : DataFrame) (col : string)
  (c : Column) :
  is_numeric_dtype c = true -> column_length c = len sub ->
  get_col (columns sub) (flag_col col) = None ->
  counts_of (quality_row label sub col c) (as_float c).
Proof.
  intros Hn Hl Hf.
  destruct (quality_row_labels label sub col c) as (_ & _ & Ht & Hm).
  destruct (quality_row_without_flags label sub col c Hf) as (Ho & H1 & H2 & H3 & H4).
  cbv zeta in Ho, H1, H2, H3, H4.
  pose proof (missing_and_present (as_float c)) as Hsum.
  rewrite (numeric_length c Hn), Hl in Hsum.
  unfold counts_of. rewrite Ho, Ht, Hm, (numeric_length c Hn), Hl, (numeric_missing c Hn).
  repeat split; try assumption; try reflexivity. lia.
Qed.

Lemma station_row_counts (df : DataFrame) (s col : string) (c : Column) :
  is_numeric_dtype c = true -> column_length c = len df ->
  get_col (columns df) (flag_col col) = None ->
  counts_of (quality_row s (filter_rows df (station_mask df s)) col
               (select_col (station_mask df s) c))
            (select (station_mask df s) (as_float c)).
Proof.
  intros Hn Hl Hf.
  assert (Hn' : is_numeric_dtype (select_col (station_mask df s) c) = true)
    by now destruct c.
  rewrite <- select_col_floats. apply quality_row_counts.
  - exact Hn'.
  - rewrite <- (numeric_length _ Hn'), select_col_floats.
    unfold len, filter_rows. simpl. apply select_same_length.
    now rewrite (numeric_length c Hn).
  - unfold filter_rows. simpl. now rewrite get_col_map, Hf.
Qed.

(** C9.  In the report of a table, every row of a variable without a
    provenance column, per station or for all stations, counts the
    present values as original and nothing as imputed; and these counts
    are those of the table.  For a numeric variable with one entry per row
    the report has the ALL_STATIONS row and a row for every station, a
    row about the variable is one of these, and each of them gives the
    number of rows of its station (of the table, for ALL_STATIONS) as
    total, the number of its missing values as missing count, the number
    of its present values as original count, and zero for the
    interpolated, the filled, the calculated and the imputed counts. *)
Theorem quality_counts_without_flags (df : DataFrame) (rows : list QualityRow) :
  create_data_quality_csv df = Returned rows ->
  (forall row, In row rows ->
     get_col (columns df) (flag_col (q_column row)) = None ->
     original_data_count row = (total_rows row - missing_count row)%Z /\
     interpolated_count row = 0%Z /\
     forward_backward_filled_count row = 0%Z /\
     calculated_count row = 0%Z /\
     total_imputed_count row = 0%Z) /\
  (forall col c,
     In col (data_columns df) -> get_col (columns df) col = Some c ->
     is_numeric_dtype c = true -> column_length c = len df ->
     get_col (columns df) (flag_col col) = None ->
     (exists row, In row rows /\ q_station row = "ALL_STATIONS" /\
                  q_column row = col /\ counts_of row (as_float c)) /\
     (forall s, In s (station df) ->
        exists row, In row rows /\ q_station row = s /\ q_column row = col /\
                    counts_of row (select (station_mask df s) (as_float c))) /\
     (forall row, In row rows -> q_column row = col ->
        (q_station row = "ALL_STATIONS" /\ counts_of row (as_float c)) \/
        (In (q_station row) (station df) /\
         counts_of row (select (station_mask df (q_station row)) (as_float c))))).
Proof.
  intros Hret. apply report_is in Hret. subst rows. split.
  - intros row Hin Hflag. apply report_In in Hin as [(s & _ & Hin) | Hin];
      apply rows_of_In in Hin as (col & c & _ & _ & ->);
      rewrite (proj1 (proj2 (quality_row_labels _ _ col c))) in Hflag;
      apply quality_row_without_flags; [|assumption].
    unfold filter_rows. simpl. rewrite get_col_map, Hflag. reflexivity.
  - intros col c Hcol Hc Hn Hl Hf.
    assert (Hsub : forall s,
              get_col (columns (filter_rows df (station_mask df s))) col
              = Some (select_col (station_mask df s) c)).
    { intros s. unfold filter_rows. simpl. now rewrite get_col_map, Hc. }
    split; [|split].
    + exists (quality_row "ALL_STATIONS" df col c).
      split; [apply report_In; right; apply rows_of_In; eauto|].
      split; [apply quality_row_labels|].
      split; [apply quality_row_labels|].
      now apply quality_row_counts.
    + intros s Hs.
      exists (quality_row s (filter_rows df (station_mask df s)) col
                (select_col (station_mask df s) c)).
      split.
      { apply report_In. left. exists s.
        split; [now apply sorted_In, unique_In|].
        apply rows_of_In. exists col, (select_col (station_mask df s) c). auto. }
      split; [apply quality_row_labels|].
      split; [apply quality_row_labels|].
      now apply station_row_counts.
    + intros row Hin Hq. apply report_In in Hin as [(s & Hs & Hin) | Hin];
        apply rows_of_In in Hin as (col' & c' & _ & E & ->);
        rewrite (proj1 (proj2 (quality_row_labels _ _ col' c'))) in Hq; subst col';
        rewrite (proj1 (quality_row_labels _ _ col c')).
      * right. rewrite Hsub in E. injection E as <-.
        split; [apply (proj1 (unique_In s _)), (proj1 (sorted_In s _)), Hs|].
        now apply station_row_counts.
      * left. rewrite Hc in E. injection E as <-.
        split; [reflexivity|]. now apply quality_row_counts.
Qed.

Lemma two_sites_report :
  create_data_quality_csv two_sites = Returned (report_of two_sites).
Proof.
  apply report_returned. intros col c Hcol E. left.
  destruct Hcol as [<- | []]. injection E as <-. reflexivity.
Qed.

Lemma quality_counts_without_flags_witness :
  create_data_quality_csv two_sites = Returned (report_of two_sites) /\
  In "Temperature" (data_columns two_sites) /\
  get_col (columns two_sites) "Temperature" = Some (Float64 [Some 10; None; Some 14]) /\
  get_col (columns two_sites) (flag_col "Temperature") = None /\
  In "A" (station two_sites) /\
  (exists row,
     In row (report_of two_sites) /\ q_station row = "ALL_STATIONS" /\
     q_column row = "Temperature" /\
     total_rows row = 3%Z /\ missing_count row = 1%Z /\
     original_data_count row = 2%Z /\ total_imputed_count row = 0%Z) /\
  (exists row,
     In row (report_of two_sites) /\ q_station row = "A" /\
     q_column row = "Temperature" /\
     total_rows row = 2%Z /\ missing_count row = 1%Z /\
     original_data_count row = 1%Z /\ total_imputed_count row = 0%Z).
Proof.
  pose proof two_sites_report as H0.
  assert (H1 : In "Temperature" (data_columns two_sites)) by (left; reflexivity).
  assert (H2 : get_col (columns two_sites) "Temperature"
               = Some (Float64 [Some 10; None; Some 14])) by reflexivity.
  assert (H3 : is_numeric_dtype (Float64 [Some 10; None; Some 14]) = true)
    by reflexivity.
  assert (H4 : column_length (Float64 [Some 10; None; Some 14]) = len two_sites)
    by reflexivity.
  assert (H5 : get_col (columns two_sites) (flag_col "Temperature") = None)
    by reflexivity.
  assert (H6 : In "A" (station two_sites)) by (left; reflexivity).
  destruct (proj2 (quality_counts_without_flags two_sites _ H0)
              "Temperature" _ H1 H2 H3 H4 H5) as (Hall & Hst & _).
  split; [exact H0|]. split; [exact H1|]. split; [exact H2|]. split; [exact H5|].
  split; [exact H6|]. split.
  - destruct Hall as (row & Hin & Hs & Hc & T & M & O & _ & _ & _ & _ & I).
    exists row. repeat split; assumption.
  - destruct (Hst "A" H6) as (row & Hin & Hs & Hc & T & M & O & _ & _ & _ & _ & I).
    exists row. repeat split; assumption.
Defined.

(** ** Tables without rows *)

Lemma take_col_empty (c : Column) : column_length c = 0%nat -> take_col [] c = c.
Proof.
  destruct c; simpl; intros H; apply zero_length_nil in H; subst; reflexivity.
Qed.

Lemma map_columns_id (f : Column -> Column) (cols : list (string * Column)) :
  Forall (fun nc => f (snd nc) = snd nc) cols ->
  map (fun nc => (fst nc, f (snd nc))) cols = cols.
Proof.
  induction 1 as [|[n c] cols H _ IH]; simpl; [reflexivity|].
  simpl in H. now rewrite H, IH.
Qed.

Lemma sort_values_zero_rows (df : DataFrame) : zero_rows df -> sort_values df = df.
Proof.
  intros (Ht & Hs & Hc). unfold sort_values, argsort, len, take.
  rewrite Hs. simpl. destruct df as [T S cols]; simpl in *. subst.
  f_equal. apply map_columns_id.
  eapply Forall_impl; [|exact Hc]. intros nc. apply take_col_empty.
Qed.

Lemma filter_rows_zero_rows (df : DataFrame) (m : list bool) :
  zero_rows df -> filter_rows df m = df.
Proof.
  intros (Ht & Hs & Hc). unfold filter_rows.
  destruct df as [T S cols]; simpl in *. subst. rewrite !select_nil.
  f_equal. apply map_columns_id.
  eapply Forall_impl; [|exact Hc]. intros nc. apply select_col_empty.
Qed.

Lemma impute_column_zero_rows (df : DataFrame) (col : string) :
  zero_rows df -> impute_column df col = df.
Proof.
  intros (_ & _ & Hc). unfold impute_column.
  destruct (get_col (columns df) col) as [c|] eqn:E; [|reflexivity].
  destruct c as [v| | |]; try reflexivity.
  apply get_col_Some_In in E. rewrite Forall_forall in Hc.
  specialize (Hc _ E). simpl in Hc. apply zero_length_nil in Hc. subst v.
  reflexivity.
Qed.

Lemma fold_impute_zero_rows (cols : list string) (df : DataFrame) :
  zero_rows df -> fold_left impute_column cols df = df.
Proof.
  intros H. induction cols as [|c cols IH]; simpl; [reflexivity|].
  now rewrite impute_column_zero_rows.
Qed.

Lemma set_col_In_other (cols : list (string * Column)) (name n : string) (c c' : Column) :
  n <> name -> In (n, c) cols -> In (n, c) (set_col cols name c').
Proof.
  intros Hne. induction cols as [|[n0 c0] cols IH]; simpl; [tauto|].
  intros [[= -> ->] | H].
  - destruct (String.eqb n name) eqn:E; [apply String.eqb_eq in E; contradiction|].
    now left.
  - destruct (String.eqb n0 name); right; auto.
Qed.

Lemma str_in_cons_false (s x : string) (l : list string) :
  str_in s (x :: l) = false -> s <> x /\ str_in s l = false.
Proof.
  unfold str_in. simpl. intros H. apply orb_false_iff in H as [H1 H2].
  split; [now apply String.eqb_neq | assumption].
Qed.

Lemma select_col_numeric (m : list bool) (c : Column) :
  is_numeric_dtype (select_col m c) = is_numeric_dtype c.
Proof. destruct c; reflexivity. Qed.

Lemma In_coerced (cols : list (string * Column)) (name : string) (c : Column) :
  In (name, c) cols -> is_numeric_dtype c = true ->
  In (name, c) (map (fun nc => (fst nc, coerce (fst nc) (snd nc))) cols).
Proof.
  intros Hin Hnum. apply in_map_iff. exists (name, c). split; [|exact Hin].
  cbn [fst snd]. now rewrite coerce_numeric.
Qed.

Lemma has_variable_hourly (df : DataFrame) :
  has_variable df -> hourly_agg_dict (hourly_data df) <> [].
Proof.
  intros (name & c & Hin & Hnum & Hflag & Hres).
  apply str_in_cons_false in Hres as [N1 Hres].
  apply str_in_cons_false in Hres as [N2 Hres].
  apply str_in_cons_false in Hres as [N3 Hres].
  apply str_in_cons_false in Hres as [N4 Hres].
  apply str_in_cons_false in Hres as [N5 _].
  unfold hourly_agg_dict.
  set (window := map (fun t => in_window (minutes_from_hour t)) (Datetime_UTC df)).
  assert (Hin' : In (name, select_col window c) (columns (hourly_data df))).
  { unfold hourly_data, drop_flag_cols, filter_rows, hourly_labelled, with_col.
    simpl. apply filter_In. simpl. split; [|now rewrite Hflag].
    apply in_map_iff. exists (name, c). split; [reflexivity|].
    apply set_col_In_other; [assumption|]. apply set_col_In_other; [assumption|].
    now apply In_coerced. }
  intros E. apply map_eq_nil in E.
  assert (Hf : In (name, select_col window c)
                 (filter (fun nc =>
                    negb (str_in (fst nc)
                            ["station"; "hour_label"; "Datetime_UTC"; "minutes_from_hour"])
                    && is_numeric_dtype (snd nc)) (columns (hourly_data df)))).
  { apply filter_In. split; [assumption|]. simpl fst. simpl snd.
    rewrite select_col_numeric, Hnum, andb_true_r.
    apply negb_true_iff. unfold str_in. simpl.
    apply String.eqb_neq in N1, N2, N4, N5.
    now rewrite N1, N2, N4, N5. }
  rewrite E in Hf. destruct Hf.
Qed.

Lemma has_variable_daily (df : DataFrame) :
  has_variable df -> daily_agg_list (drop_flag_cols (daily_labelled df)) <> [].
Proof.
  intros (name & c & Hin & Hnum & Hflag & Hres).
  apply str_in_cons_false in Hres as [N1 Hres].
  apply str_in_cons_false in Hres as [N2 Hres].
  apply str_in_cons_false in Hres as [N3 Hres].
  apply str_in_cons_false in Hres as [N4 _].
  unfold daily_agg_list.
  assert (Hin' : In (name, c) (columns (drop_flag_cols (daily_labelled df)))).
  { unfold drop_flag_cols, daily_labelled, with_col. simpl.
    apply filter_In. simpl. split; [|now rewrite Hflag].
    apply set_col_In_other; [assumption|]. now apply In_coerced. }
  assert (Hf : In (name, c)
                 (filter (fun nc =>
                    negb (str_in (fst nc) ["station"; "date_label"; "Datetime_UTC"])
                    && is_numeric_dtype (snd nc))
                    (columns (drop_flag_cols (daily_labelled df))))).
  { apply filter_In. split; [assumption|]. simpl fst. simpl snd.
    rewrite Hnum, andb_true_r. apply negb_true_iff. unfold str_in. simpl.
    apply String.eqb_neq in N1, N3, N4.
    now rewrite N1, N3, N4. }
  intros E.
  assert (Hm : In (fst (hd (name, AggMean) (daily_aggs name)),
                   (snd (hd (name, AggMean) (daily_aggs name)), c))
                 (flat_map (fun nc => map (fun e => (fst e, (snd e, snd nc)))
                                        (daily_aggs (fst nc)))
                    (filter (fun nc =>
                       negb (str_in (fst nc) ["station"; "date_label"; "Datetime_UTC"])
                       && is_numeric_dtype (snd nc))
                       (columns (drop_flag_cols (daily_labelled df)))))).
  { apply in_flat_map. exists (name, c). split; [assumption|].
    simpl fst. simpl snd. unfold daily_aggs.
    destruct (is_gust name); [now left|].
    destruct (is_rain name); [now left|].
    destruct (is_direction name); now left. }
  rewrite E in Hm. destruct Hm.
Qed.

Lemma aggregate_col_no_groups (keys : list (string * Z)) (f : AggFn) (c : Column) :
  column_length (aggregate_col keys [] f c) = 0%nat.
Proof. reflexivity. Qed.

Lemma hourly_zero_rows (df : DataFrame) :
  zero_rows df -> has_variable df ->
  exists out, snd (create_hourly_aggregates df) = Returned out /\ zero_rows out.
Proof.
  intros Hz Hv. pose proof (has_variable_hourly df Hv) as Hne.
  unfold create_hourly_aggregates. simpl.
  destruct (hourly_agg_dict (hourly_data df)) as [|e d] eqn:E; [congruence|].
  eexists. split; [reflexivity|].
  assert (Hk : hourly_keys (hourly_data df) = []).
  { unfold hourly_keys. destruct (hourly_data_rows df) as [-> _].
    destruct Hz as (_ & -> & _). now rewrite select_nil. }
  rewrite Hk. simpl. repeat split; try reflexivity.
  constructor; [reflexivity|].
  apply Forall_forall. intros nc Hin. apply in_map_iff in Hin as (x & <- & _).
  reflexivity.
Qed.

Lemma daily_zero_rows (df : DataFrame) :
  zero_rows df -> has_variable df ->
  exists out, snd (create_daily_aggregates df) = Returned out /\ zero_rows out.
Proof.
  intros Hz Hv. pose proof (has_variable_daily df Hv) as Hne.
  unfold create_daily_aggregates. simpl.
  destruct (daily_agg_list (drop_flag_cols (daily_labelled df))) as [|e d] eqn:E;
    [congruence|].
  eexists. split; [reflexivity|].
  assert (Hk : daily_keys (drop_flag_cols (daily_labelled df)) = []).
  { unfold daily_keys. simpl. destruct Hz as (_ & -> & _). reflexivity. }
  rewrite Hk. simpl. repeat split; try reflexivity.
  constructor; [reflexivity|].
  apply Forall_forall. intros nc Hin. apply in_map_iff in Hin as (x & <- & _).
  reflexivity.
Qed.

Lemma count_eq_empty (c : Column) (k : Z) :
  column_length c = 0%nat -> count_eq c k = 0%nat.
Proof.
  destruct c; simpl; intros H; apply zero_length_nil in H; subst; reflexivity.
Qed.

Lemma quality_row_zero_rows (label : string) (df : DataFrame) (col : string) (c : Column) :
  zero_rows df -> In (col, c) (columns df) ->
  let row := quality_row label df col c in
  total_rows row = 0%Z /\ missing_count row = 0%Z /\
  original_data_count row = 0%Z /\ interpolated_count row = 0%Z /\
  forward_backward_filled_count row = 0%Z /\ calculated_count row = 0%Z /\
  total_imputed_count row = 0%Z /\
  (missing_percent row == 0)%Q /\ (imputation_percent row == 0)%Q /\
  q_mean row = None /\ q_median row = None /\ q_min row = None /\ q_max row = None /\
  q_q1 row = None /\ q_q3 row = None /\ q_iqr row = None.
Proof.
  intros (_ & Hs & Hc) Hin. rewrite Forall_forall in Hc.
  pose proof (Hc _ Hin) as Hlen. simpl in Hlen.
  assert (Hv : dropna (as_float c) = []).
  { destruct c; simpl in *; apply zero_length_nil in Hlen; subst; reflexivity. }
  assert (Hn : null_count c = 0%nat).
  { destruct c; simpl in *; try reflexivity.
    apply zero_length_nil in Hlen; subst; reflexivity. }
  unfold quality_row, len. rewrite Hs, Hv, Hn.
  destruct (get_col (columns df) (flag_col col)) as [fc|] eqn:E; simpl.
  - apply get_col_Some_In in E. specialize (Hc _ E). simpl in Hc.
    rewrite !count_eq_empty by assumption. simpl. repeat split.
  - repeat split.
Qed.

Lemma rows_of_length (label : string) (df : DataFrame) (cols : list string) :
  (forall col, In col cols -> In col (map fst (columns df))) ->
  List.length (rows_of label df cols) = List.length cols.
Proof.
  unfold rows_of. induction cols as [|col cols IH]; intros H; simpl;
    [reflexivity|].
  destruct (get_col_In (columns df) col (H col (or_introl eq_refl))) as (c & -> & _).
  simpl. rewrite IH; [reflexivity|]. intros col' Hc. apply H. now right.
Qed.

Lemma data_columns_present (df : DataFrame) (col : string) :
  In col (data_columns df) -> In col (map fst (columns df)).
Proof. unfold data_columns. intros H. apply filter_In in H. tauto. Qed.

Lemma zero_rows_statistics (df : DataFrame) : zero_rows df -> statistics_defined df.
Proof.
  intros (_ & _ & Hc) col c _ E. right.
  apply get_col_Some_In in E. rewrite Forall_forall in Hc. exact (Hc _ E).
Qed.

Lemma report_zero_rows (df : DataFrame) :
  zero_rows df ->
  create_data_quality_csv df
  = Returned (rows_of "ALL_STATIONS" df (data_columns df)).
Proof.
  intros Hz. rewrite (report_returned df (zero_rows_statistics df Hz)).
  destruct Hz as (_ & Hs & _). unfold report_of. rewrite Hs. reflexivity.
Qed.

(** C10 (amended).  On a table without rows no stage fails as long as the
    table has a numeric variable column: the imputation engine returns the
    table as it is, the hourly and the daily aggregator return a table
    without rows, and the quality report is returned with no station row
    but one ALL_STATIONS row for every data column, with zero counts,
    zero percentages and no statistics. *)
Theorem zero_row_table_stages (df : DataFrame) :
  zero_rows df ->
  impute_missing_values df = df /\
  (has_variable df ->
   (exists out, snd (create_hourly_aggregates df) = Returned out /\ zero_rows out) /\
   (exists out, snd (create_daily_aggregates df) = Returned out /\ zero_rows out)) /\
  exists rows,
    create_data_quality_csv df = Returned rows /\
    List.length rows = List.length (data_columns df) /\
    (forall row, In row rows ->
       q_station row = "ALL_STATIONS" /\
       total_rows row = 0%Z /\ missing_count row = 0%Z /\
       original_data_count row = 0%Z /\ interpolated_count row = 0%Z /\
       forward_backward_filled_count row = 0%Z /\ calculated_count row = 0%Z /\
       total_imputed_count row = 0%Z /\
       (missing_percent row == 0)%Q /\ (imputation_percent row == 0)%Q /\
       q_mean row = None /\ q_median row = None /\
       q_min row = None /\ q_max row = None /\
       q_q1 row = None /\ q_q3 row = None /\ q_iqr row = None).
Proof.
  intros Hz. split; [|split].
  - unfold impute_missing_values. rewrite sort_values_zero_rows by assumption.
    now apply fold_impute_zero_rows.
  - intros Hv. split; [now apply hourly_zero_rows | now apply daily_zero_rows].
  - exists (rows_of "ALL_STATIONS" df (data_columns df)).
    split; [now apply report_zero_rows|]. split.
    + apply rows_of_length, data_columns_present.
    + intros row Hin.
      apply rows_of_In in Hin as (col & c & _ & E & ->).
      split; [apply quality_row_labels|].
      apply get_col_Some_In in E. now apply quality_row_zero_rows.
Qed.

Lemma no_rows_zero_rows : zero_rows no_rows.
Proof. repeat split. repeat constructor. Qed.

Lemma no_rows_has_variable : has_variable no_rows.
Proof.
  exists "Temperature", (Float64 []).
  split; [left; reflexivity | repeat split; reflexivity].
Qed.

Lemma zero_row_table_stages_witness :
  zero_rows no_rows /\ has_variable no_rows /\
  impute_missing_values no_rows = no_rows /\
  (exists out, snd (create_hourly_aggregates no_rows) = Returned out /\ zero_rows out) /\
  (exists out, snd (create_daily_aggregates no_rows) = Returned out /\ zero_rows out) /\
  (exists rows, create_data_quality_csv no_rows = Returned rows /\
                List.length rows = 1%nat).
Proof.
  pose proof (zero_row_table_stages no_rows no_rows_zero_rows)
    as (E1 & E2 & rows & E3 & E4 & _).
  destruct (E2 no_rows_has_variable) as [Eh Ed].
  split; [exact no_rows_zero_rows | split; [exact no_rows_has_variable |]].
  split; [exact E1 | split; [exact Eh | split; [exact Ed |]]].
  exists rows. split; [exact E3 | exact E4].
Defined.

(** C10 (as stated).  The quality report of a table without rows is not
    empty: it has an ALL_STATIONS row for the Temperature column. *)
Lemma quality_report_of_no_rows_not_empty :
  zero_rows no_rows /\
  exists rows,
    create_data_quality_csv no_rows = Returned rows /\
    rows <> [] /\
    map (fun row => (q_station row, q_column row, total_rows row)) rows
    = [("ALL_STATIONS", "Temperature", 0%Z)].
Proof.
  split; [exact no_rows_zero_rows|].
  exists (rows_of "ALL_STATIONS" no_rows (data_columns no_rows)).
  split; [exact (report_zero_rows no_rows no_rows_zero_rows)|].
  split; [|reflexivity].
  intros H. apply (f_equal (@List.length _)) in H. discriminate.
Qed.

(** Without any variable column the aggregators raise. *)
Example aggregators_without_variables :
  let df := mkDataFrame [] [] [] in
  snd (create_hourly_aggregates df) = Raised "ValueError: No objects to concatenate" /\
  snd (create_daily_aggregates df) = Raised "ValueError: No objects to concatenate".
Proof. split; reflexivity. Qed.

(** ** The circular mean

    The lemmas of this section are about the direction of the mean vector
    over the real numbers.  What [circular_mean_degrees] returns in
    floating point depends on the rounding of [sin], [cos] and [arctan2],
    most of all when the directions cancel and the mean vector is null but
    for rounding: no statement about rotations or about particular
    angles is made here. *)

Lemma sin2_cos2_one (a : R) : sin a * sin a + cos a * cos a = 1.
Proof. pose proof (sin2_cos2 a) as H. unfold Rsqr in H. exact H. Qed.

Lemma atan_direction (x y : R) :
  x <> 0 ->
  x * sin (atan (y / x)) = y * cos (atan (y / x)) /\
  0 < cos (atan (y / x)).
Proof.
  intros Hx.
  pose proof (atan_bound (y / x)) as [H1 H2].
  pose proof (tan_atan (y / x)) as Ht. unfold tan in Ht.
  set (al := atan (y / x)) in *.
  assert (Hc : 0 < cos al) by (apply cos_gt_0; lra).
  split; [|assumption].
  assert (Hs : sin al = y / x * cos al).
  { rewrite <- Ht. field. lra. }
  rewrite Hs. field. assumption.
Qed.

Lemma arctan2_points_to (x y : R) :
  (x, y) <> (0, 0) -> points_to (np_arctan2 y x) x y.
Proof.
  intros Hne. unfold np_arctan2, points_to.
  destruct (Rlt_dec 0 x) as [Hpos | Hnpos].
  - rewrite (Rltb_true 0 x) by assumption.
    destruct (atan_direction x y ltac:(lra)) as [Hcross Hc].
    split; [assumption|].
    assert (Hs : y * sin (atan (y / x)) = y * y / x * cos (atan (y / x))).
    { transitivity (y / x * (x * sin (atan (y / x)))); [field; lra|].
      rewrite Hcross. field. lra. }
    rewrite Hs.
    replace (x * cos (atan (y / x)) + y * y / x * cos (atan (y / x)))
      with (cos (atan (y / x)) * ((x * x + y * y) / x)) by (field; lra).
    apply Rmult_lt_0_compat; [assumption|].
    apply Rdiv_lt_0_compat; nra.
  - rewrite (Rltb_false 0 x) by lra.
    destruct (Rlt_dec x 0) as [Hneg | Hnneg].
    + rewrite (Rltb_true x 0) by assumption.
      destruct (atan_direction x y ltac:(lra)) as [Hcross Hc].
      set (al := atan (y / x)) in *.
      assert (Hs : y * sin al = y * y / x * cos al).
      { transitivity (y / x * (x * sin al)); [field; lra|].
        rewrite Hcross. field. lra. }
      assert (Hdot : x * cos al + y * sin al < 0).
      { rewrite Hs.
        replace (x * cos al + y * y / x * cos al)
          with (- (cos al * ((x * x + y * y) / - x))) by (field; lra).
        assert (0 < cos al * ((x * x + y * y) / - x)); [|lra].
        apply Rmult_lt_0_compat; [assumption|].
        apply Rdiv_lt_0_compat; nra. }
      destruct (Rltb y 0).
      * rewrite sin_minus, cos_minus, sin_PI, cos_PI. split; [nra | nra].
      * rewrite sin_plus, cos_plus, sin_PI, cos_PI. split; [nra | nra].
    + rewrite (Rltb_false x 0) by lra.
      assert (x = 0) by lra. subst x.
      destruct (Rlt_dec 0 y) as [Hy | Hy].
      * rewrite (Rltb_true 0 y) by assumption.
        rewrite sin_PI2, cos_PI2. split; lra.
      * rewrite (Rltb_false 0 y) by lra.
        destruct (Rlt_dec y 0) as [Hy' | Hy'].
        -- rewrite (Rltb_true y 0) by assumption.
           rewrite sin_neg, cos_neg, sin_PI2, cos_PI2. split; lra.
        -- exfalso. apply Hne. f_equal. lra.
Qed.

Lemma points_to_components (theta x y : R) :
  points_to theta x y ->
  x = (x * cos theta + y * sin theta) * cos theta /\
  y = (x * cos theta + y * sin theta) * sin theta.
Proof.
  intros [Hcross _]. pose proof (sin2_cos2_one theta) as H1. split.
  - transitivity (x * (cos theta * cos theta) + (y * cos theta) * sin theta);
      [rewrite <- Hcross | ring].
    transitivity (x * (sin theta * sin theta + cos theta * cos theta)); [|ring].
    rewrite H1. ring.
  - transitivity ((x * sin theta) * cos theta + y * (sin theta * sin theta));
      [rewrite Hcross | ring].
    transitivity (y * (sin theta * sin theta + cos theta * cos theta)); [|ring].
    rewrite H1. ring.
Qed.

Lemma cos_one_period (z : R) : cos z = 1 -> exists n : Z, z = 2 * IZR n * PI.
Proof.
  intros Hc. replace z with (2 * (z / 2)) in Hc by field.
  rewrite cos_2a_sin in Hc.
  assert (Hs : sin (z / 2) = 0) by nra.
  apply sin_eq_0_0 in Hs as [n Hn]. exists n. lra.
Qed.

Lemma points_to_unique (a b x y : R) :
  points_to a x y -> points_to b x y -> exists n : Z, a = b + 2 * IZR n * PI.
Proof.
  intros Ha Hb.
  destruct (points_to_components _ _ _ Ha) as [Hxa Hya].
  destruct (points_to_components _ _ _ Hb) as [Hxb Hyb].
  destruct Ha as [_ Hda]. destruct Hb as [_ Hdb].
  set (da := x * cos a + y * sin a) in *.
  set (db := x * cos b + y * sin b) in *.
  pose proof (sin2_cos2_one a) as Ha1. pose proof (sin2_cos2_one b) as Hb1.
  assert (Hna : da * da = x * x + y * y).
  { transitivity (da * da * (sin a * sin a + cos a * cos a)); [rewrite Ha1; ring|].
    transitivity ((da * cos a) * (da * cos a) + (da * sin a) * (da * sin a)); [ring|].
    now rewrite <- Hxa, <- Hya. }
  assert (Hnb : db * db = x * x + y * y).
  { transitivity (db * db * (sin b * sin b + cos b * cos b)); [rewrite Hb1; ring|].
    transitivity ((db * cos b) * (db * cos b) + (db * sin b) * (db * sin b)); [ring|].
    now rewrite <- Hxb, <- Hyb. }
  assert (Heq : da = db) by nra.
  assert (Hcos : cos (a - b) = 1).
  { rewrite cos_minus.
    assert (Hm : da * da * (cos a * cos b + sin a * sin b) = da * da).
    { transitivity ((da * cos a) * (db * cos b) + (da * sin a) * (db * sin b));
        [rewrite Heq; ring|].
      rewrite <- Hxa, <- Hya, <- Hxb, <- Hyb. lra. }
    assert (0 < da * da) by nra. nra. }
  apply cos_one_period in Hcos as [n Hn]. exists n. lra.
Qed.

Lemma circular_mean_unfold (angles : list cell) :
  dropna angles <> [] ->
  circular_mean_degrees angles
  = let deg := np_rad2deg (np_arctan2 (snd (resultant angles)) (fst (resultant angles))) in
    Some (if Rltb deg 0 then deg + 360 else deg).
Proof.
  intros Hne. unfold circular_mean_degrees, resultant.
  destruct (dropna angles) as [|x l]; [congruence | reflexivity].
Qed.

Lemma normalised_degrees (deg : R) :
  exists e : Z, (if Rltb deg 0 then deg + 360 else deg) = deg + 360 * IZR e.
Proof.
  destruct (Rltb deg 0); [exists 1%Z | exists 0%Z]; lra.
Qed.

Lemma arctan2_range (y x : R) : - PI < np_arctan2 y x <= PI.
Proof.
  pose proof PI_RGT_0 as Hpi. pose proof (atan_bound (y / x)) as [H1 H2].
  unfold np_arctan2.
  destruct (Rltb 0 x); [lra|].
  destruct (Rltb x 0) eqn:Ex.
  - apply Rltb_spec in Ex.
    destruct (Rltb y 0) eqn:Ey.
    + apply Rltb_spec in Ey.
      assert (0 < y / x).
      { replace (y / x) with ((- y) / (- x)) by (field; lra).
        apply Rdiv_lt_0_compat; lra. }
      assert (0 < atan (y / x)).
      { rewrite <- atan_0. apply atan_increasing. assumption. }
      lra.
    + assert (Hy : 0 <= y).
      { destruct (Rlt_dec y 0) as [Hy|Hy]; [|lra].
        apply Rltb_spec in Hy. congruence. }
      assert (y / x <= 0).
      { replace (y / x) with (- (y / - x)) by (field; lra).
        assert (0 <= y / - x); [|lra].
        apply Rmult_le_pos; [assumption|].
        apply Rlt_le, Rinv_0_lt_compat. lra. }
      assert (atan (y / x) <= 0).
      { destruct (Req_dec (y / x) 0) as [-> | Hne]; [rewrite atan_0; lra|].
        rewrite <- atan_0. apply Rlt_le, atan_increasing. lra. }
      lra.
  - destruct (Rltb 0 y); [lra|]. destruct (Rltb y 0); lra.
Qed.

Lemma circular_mean_empty (angles : list cell) :
  dropna angles = [] -> circular_mean_degrees angles = None.
Proof. intros H. unfold circular_mean_degrees. now rewrite H. Qed.

Lemma dropna_present (xs : list R) : dropna (map Some xs) = xs.
Proof. induction xs as [|x xs IH]; simpl; congruence. Qed.

Lemma circular_mean_refines_spec (xs : list R) :
  circular_mean_degrees (map Some xs) = circular_mean_spec xs.
Proof.
  unfold circular_mean_degrees, circular_mean_spec.
  rewrite dropna_present. destruct xs as [|x xs]; [reflexivity|].
  cbv zeta. unfold Rmean. rewrite !map_map, !length_map. reflexivity.
Qed.

Lemma circular_mean_range (angles : list cell) :
  dropna angles <> [] ->
  exists m, circular_mean_degrees angles = Some m /\ 0 <= m < 360.
Proof.
  intros Hne. rewrite circular_mean_unfold by assumption. cbv zeta.
  eexists. split; [reflexivity|].
  pose proof (arctan2_range (snd (resultant angles)) (fst (resultant angles)))
    as [H1 H2].
  pose proof PI_RGT_0 as Hpi.
  set (th := np_arctan2 _ _) in *.
  assert (Hd : np_rad2deg th = th / PI * 180) by (unfold np_rad2deg; field; lra).
  assert (Hlo : -1 < th / PI).
  { apply Rmult_lt_reg_r with PI; [lra|]. unfold Rdiv.
    rewrite Rmult_assoc, Rinv_l by lra. lra. }
  assert (Hhi : th / PI <= 1).
  { apply Rmult_le_reg_r with PI; [lra|]. unfold Rdiv.
    rewrite Rmult_assoc, Rinv_l by lra. lra. }
  destruct (Rltb (np_rad2deg th) 0) eqn:E.
  - apply Rltb_spec in E. lra.
  - destruct (Rlt_dec (np_rad2deg th) 0) as [Hneg | Hpos].
    + apply Rltb_spec in Hneg. congruence.
    + lra.
Qed.

(** ** The hourly aggregate of a concrete table *)

Lemma rint_IZR (z : Z) : rint (IZR z) = z.
Proof.
  unfold rint. rewrite ZfloorZ.
  now rewrite Rltb_true by lra.
Qed.

Lemma round2_hundredths (x : R) (z : Z) :
  x * 100 = IZR z -> round2 (Some x) = Some (IZR z / 100).
Proof. intros H. simpl. now rewrite H, rint_IZR. Qed.

Lemma in_window_at (t : Z) (b : bool) :
  (if b then (-1800 <= t - floor_hour t <= 1800)%Z
   else ~ (-1800 <= t - floor_hour t <= 1800)%Z) ->
  in_window (minutes_from_hour t) = b.
Proof.
  destruct b; intros H.
  - now apply in_window_spec.
  - destruct (in_window (minutes_from_hour t)) eqn:E; [|reflexivity].
    apply in_window_spec in E. contradiction.
Qed.

(** The readings of 10:00 and 10:30 are averaged in the bucket of 10:00;
    the reading of 10:31 is dropped. *)
Example hourly_half_hours :
  snd (create_hourly_aggregates half_hours)
  = Returned (mkDataFrame [36000%Z] ["A"] [("Temperature", Float64 [Some 11])]).
Proof.
  assert (Hd : hourly_data half_hours
               = mkDataFrame [36000; 37800]%Z ["A"; "A"]
                   [("Temperature", Float64 [Some 10; Some 12]);
                    ("hour_label", DatetimeTZ [36000; 36000]%Z);
                    ("minutes_from_hour",
                     Float64 [Some (minutes_from_hour 36000);
                              Some (minutes_from_hour 37800)])]).
  { unfold hourly_data. cbv zeta.
    change (Datetime_UTC (hourly_labelled half_hours))
      with [36000; 37800; 37860]%Z.
    simpl map.
    rewrite (in_window_at 36000 true) by (vm_compute; split; discriminate).
    rewrite (in_window_at 37800 true) by (vm_compute; split; discriminate).
    rewrite (in_window_at 37860 false)
      by (vm_compute; intros [_ H]; now apply H).
    reflexivity. }
  unfold create_hourly_aggregates. cbv zeta. rewrite Hd. simpl snd.
  change (hourly_agg_dict _)
    with [("Temperature", (AggMean, Float64 [Some 10; Some 12]))].
  cbv iota.
  change (hourly_keys _) with [("A", 36000%Z); ("A", 36000%Z)].
  change (group_keys _) with [("A", 36000%Z)].
  simpl map. unfold aggregate_col. simpl map.
  change (group_values _ _ _) with [Some 10; Some 12].
  change (apply_agg AggMean [Some 10; Some 12]) with (Some (Rmean [10; 12])).
  replace (Rmean [10; 12] * 100) with (IZR 1100)
    by (unfold Rmean, Rsum; simpl; lra).
  rewrite rint_IZR.
  replace (1100 / 100) with 11 by lra.
  reflexivity.
Qed.

(** Given the table the daily aggregator has left, the hourly aggregator
    reports the dates as a variable without any reading. *)
Example hourly_dated_half_hours :
  snd (create_hourly_aggregates dated_half_hours)
  = Returned (mkDataFrame [36000%Z] ["A"]
                [("Temperature", Float64 [Some 11]); ("date_label", Float64 [None])]).
Proof.
  assert (Hd : hourly_data dated_half_hours
               = mkDataFrame [36000; 37800]%Z ["A"; "A"]
                   [("Temperature", Float64 [Some 10; Some 12]);
                    ("date_label", Float64 [None; None]);
                    ("hour_label", DatetimeTZ [36000; 36000]%Z);
                    ("minutes_from_hour",
                     Float64 [Some (minutes_from_hour 36000);
                              Some (minutes_from_hour 37800)])]).
  { unfold hourly_data. cbv zeta.
    change (Datetime_UTC (hourly_labelled dated_half_hours))
      with [36000; 37800; 37860]%Z.
    simpl map.
    rewrite (in_window_at 36000 true) by (vm_compute; split; discriminate).
    rewrite (in_window_at 37800 true) by (vm_compute; split; discriminate).
    rewrite (in_window_at 37860 false)
      by (vm_compute; intros [_ H]; now apply H).
    reflexivity. }
  unfold create_hourly_aggregates. cbv zeta. rewrite Hd. simpl snd.
  change (hourly_agg_dict _)
    with [("Temperature", (AggMean, Float64 [Some 10; Some 12]));
          ("date_label", (AggMean, Float64 [None; None]))].
  cbv iota.
  change (hourly_keys _) with [("A", 36000%Z); ("A", 36000%Z)].
  change (group_keys _) with [("A", 36000%Z)].
  simpl map. unfold aggregate_col. simpl map.
  change (group_values _ _ (as_float (Float64 [Some 10; Some 12])))
    with [Some 10; Some 12].
  change (group_values _ _ (as_float (Float64 [None; None])))
    with (@cons cell None [None]).
  change (apply_agg AggMean [Some 10; Some 12]) with (Some (Rmean [10; 12])).
  change (apply_agg AggMean [None; None]) with (@None R).
  replace (Rmean [10; 12] * 100) with (IZR 1100)
    by (unfold Rmean, Rsum; simpl; lra).
  rewrite rint_IZR.
  replace (1100 / 100) with 11 by lra.
  reflexivity.
Qed.

(** *** The buckets of the hourly table *)

Lemma in_window_bool (t : Z) :
  in_window (minutes_from_hour t)
  = ((-1800 <=? t - floor_hour t)%Z && (t - floor_hour t <=? 1800)%Z).
Proof.
  apply eq_true_iff_eq.
  rewrite in_window_spec, andb_true_iff, !Z.leb_le. tauto.
Qed.

Lemma select_select {X Y : Type} (f : X -> bool) (w : list bool) :
  forall (K : list X) (V : list Y),
    select (map f (select w K)) (select w V) = select (mask_and w (map f K)) V.
Proof.
  induction w as [|b w IH]; intros [|k K] [|v V]; simpl;
    try reflexivity; try (now rewrite select_nil).
  destruct b; simpl; [destruct (f k)|]; now rewrite IH.
Qed.

Lemma hourly_keys_data (df : DataFrame) :
  hourly_keys (hourly_data df)
  = select (map (fun t => in_window (minutes_from_hour t)) (Datetime_UTC df))
           (combine (station df) (map floor_hour (Datetime_UTC df))).
Proof.
  unfold hourly_keys. destruct (hourly_data_rows df) as [-> ->]. cbv zeta.
  now rewrite <- select_map, select_combine.
Qed.

(** The mask the code builds for a bucket, the window and then the group,
    is the mask of the records of the bucket. *)
Lemma in_bucket_code (df : DataFrame) (k : string * Z) :
  in_bucket df k
  = mask_and (map (fun t => in_window (minutes_from_hour t)) (Datetime_UTC df))
             (map (key_eqb k) (combine (station df) (map floor_hour (Datetime_UTC df)))).
Proof.
  unfold in_bucket, row_keys.
  generalize (Datetime_UTC df) as T. generalize (station df) as S.
  induction S as [|s S IH]; intros [|t T]; simpl; try reflexivity.
  rewrite IH. f_equal. unfold key_eqb. cbn [fst snd].
  rewrite (String.eqb_sym (fst k) s), (Z.eqb_sym (snd k) (floor_hour t)).
  destruct (String.eqb s (fst k)); cbn [andb]; [|now rewrite andb_false_r].
  destruct (Z.eqb_spec (floor_hour t) (snd k)) as [E | E]; cbn [andb];
    [|now rewrite andb_false_r].
  rewrite <- E, andb_true_r. symmetry. apply in_window_bool.
Qed.

Lemma hourly_data_In (df : DataFrame) (name : string) (c : Column) :
  In (name, c) (columns df) -> is_numeric_dtype c = true ->
  endswith name "_imputed" = false ->
  str_in name ["station"; "hour_label"; "Datetime_UTC"; "minutes_from_hour"] = false ->
  In (name,
      (hourly_rule name,
       select_col (map (fun t => in_window (minutes_from_hour t)) (Datetime_UTC df)) c))
     (hourly_agg_dict (hourly_data df)).
Proof.
  intros Hin Hnum Hflag Hres.
  pose proof Hres as Hres'.
  apply str_in_cons_false in Hres' as [_ Hres'].
  apply str_in_cons_false in Hres' as [N2 Hres'].
  apply str_in_cons_false in Hres' as [_ Hres'].
  apply str_in_cons_false in Hres' as [N4 _].
  set (window := map (fun t => in_window (minutes_from_hour t)) (Datetime_UTC df)).
  unfold hourly_agg_dict. apply in_map_iff.
  exists (name, select_col window c). split; [reflexivity|].
  apply filter_In. split.
  - unfold hourly_data, drop_flag_cols, filter_rows, hourly_labelled, with_col.
    simpl. apply filter_In. simpl. split; [|now rewrite Hflag].
    apply in_map_iff. exists (name, c). split; [reflexivity|].
    apply set_col_In_other; [assumption|]. apply set_col_In_other; [assumption|].
    now apply In_coerced.
  - cbn [fst snd]. now rewrite Hres, select_col_numeric, Hnum.
Qed.

Lemma hourly_returned_columns (df out : DataFrame) :
  snd (create_hourly_aggregates df) = Returned out ->
  columns out
  = map (fun e : string * (AggFn * Column) =>
           (fst e,
            aggregate_col (hourly_keys (hourly_data df))
              (group_keys (hourly_keys (hourly_data df)))
              (fst (snd e)) (snd (snd e))))
        (hourly_agg_dict (hourly_data df)).
Proof.
  unfold create_hourly_aggregates. cbv zeta. simpl snd.
  destruct (hourly_agg_dict (hourly_data df)) as [|e l]; [discriminate|].
  now intros [= <-].
Qed.

Lemma hourly_row_keys (df out : DataFrame) (s : string) (h : Z) :
  snd (create_hourly_aggregates df) = Returned out ->
  (In (s, h) (row_keys out) <->
   exists t, In (s, t) (row_keys df) /\ h = floor_hour t /\
             (-1800 <= t - h <= 1800)%Z).
Proof.
  intros H. rewrite (hourly_returned_keys df out H), group_keys_In, hourly_keys_data.
  rewrite select_In. unfold row_keys. split.
  - intros (i & Hw & Hk). apply combine_nth_error in Hk as [Hs Hh].
    rewrite nth_error_map in Hh, Hw.
    destruct (nth_error (Datetime_UTC df) i) as [t|] eqn:Et; [|discriminate].
    simpl in Hh, Hw. injection Hh as <-. injection Hw as Hw.
    exists t. split; [|split; [reflexivity | now apply in_window_spec]].
    apply (nth_error_In _ i). now apply combine_nth_error.
  - intros (t & Hin & -> & Hw). apply In_nth_error in Hin as (i & Hi).
    apply combine_nth_error in Hi as [Hs Ht]. exists i. split.
    + rewrite nth_error_map, Ht. simpl. f_equal. now apply in_window_spec.
    + apply combine_nth_error. split; [exact Hs|]. now rewrite nth_error_map, Ht.
Qed.

(** C7.  The hourly table has a row for station [s] and hour [h] exactly
    when some record of [s] has [h] as the floor of its timestamp and lies
    within 30 minutes (1800 s) of [h], bounds included; and the value of a
    variable in the row of a bucket is the rounded aggregate of the
    variable over exactly the records of that bucket.  A record at +30
    minutes is a record of the bucket of its hour, which is a row of the
    table; a record at +31 minutes (1860 s) is a record of no bucket at
    all, so that no value of the table depends on it. *)
Theorem hourly_window_inclusion (df out : DataFrame) :
  snd (create_hourly_aggregates df) = Returned out ->
  (forall s h,
     In (s, h) (row_keys out) <->
     exists t, In (s, t) (row_keys df) /\ h = floor_hour t /\
               (-1800 <= t - h <= 1800)%Z) /\
  (forall name c,
     In (name, c) (columns df) -> is_numeric_dtype c = true ->
     endswith name "_imputed" = false ->
     str_in name ["station"; "hour_label"; "Datetime_UTC"; "minutes_from_hour"]
     = false ->
     In (name,
         Float64 (map (fun k => round2 (apply_agg (hourly_rule name)
                                          (select (in_bucket df k) (as_float c))))
                      (row_keys out)))
        (columns out)) /\
  (forall i s t,
     nth_error (row_keys df) i = Some (s, t) ->
     ((t - floor_hour t = 1800)%Z ->
        In (s, floor_hour t) (row_keys out) /\
        nth_error (in_bucket df (s, floor_hour t)) i = Some true) /\
     ((t - floor_hour t = 1860)%Z ->
        forall k, nth_error (in_bucket df k) i = Some false)).
Proof.
  intros H. split; [|split].
  - intros s h. now apply hourly_row_keys.
  - intros name c Hin Hnum Hflag Hres.
    rewrite (hourly_returned_columns df out H), (hourly_returned_keys df out H).
    apply in_map_iff.
    exists (name,
            (hourly_rule name,
             select_col (map (fun t => in_window (minutes_from_hour t))
                           (Datetime_UTC df)) c)).
    split; [|now apply hourly_data_In].
    cbn [fst snd]. unfold aggregate_col. f_equal. f_equal.
    apply map_ext. intros k. unfold group_values.
    now rewrite select_col_floats, hourly_keys_data, select_select, <- in_bucket_code.
  - intros i s t Hi. split; intros Hd.
    + split.
      * apply (hourly_row_keys df out s (floor_hour t) H). exists t.
        split; [now apply (nth_error_In _ i) | split; [reflexivity | lia]].
      * unfold in_bucket. rewrite nth_error_map, Hi. cbn [option_map fst snd].
        rewrite String.eqb_refl, Z.eqb_refl. cbn [andb]. f_equal.
        apply andb_true_iff. split; apply Z.leb_le; lia.
    + intros k. unfold in_bucket. rewrite nth_error_map, Hi.
      cbn [option_map fst snd]. f_equal.
      destruct (Z.eqb_spec (floor_hour t) (snd k)) as [E | E];
        [|now rewrite andb_false_r].
      rewrite <- E.
      assert (E' : (t - floor_hour t <=? 1800)%Z = false) by (apply Z.leb_gt; lia).
      now rewrite E', !andb_false_r.
Qed.

Lemma hourly_window_inclusion_witness :
  snd (create_hourly_aggregates half_hours)
  = Returned (mkDataFrame [36000%Z] ["A"] [("Temperature", Float64 [Some 11])]) /\
  nth_error (row_keys half_hours) 1 = Some ("A", 37800%Z) /\
  (37800 - floor_hour 37800 = 1800)%Z /\
  In ("A", floor_hour 37800) [("A", 36000%Z)] /\
  nth_error (in_bucket half_hours ("A", floor_hour 37800)) 1 = Some true /\
  nth_error (row_keys half_hours) 2 = Some ("A", 37860%Z) /\
  (37860 - floor_hour 37860 = 1860)%Z /\
  (forall k, nth_error (in_bucket half_hours k) 2 = Some false).
Proof.
  pose proof hourly_half_hours as H.
  assert (H1 : nth_error (row_keys half_hours) 1 = Some ("A", 37800%Z))
    by reflexivity.
  assert (H2 : (37800 - floor_hour 37800 = 1800)%Z) by reflexivity.
  assert (H3 : nth_error (row_keys half_hours) 2 = Some ("A", 37860%Z))
    by reflexivity.
  assert (H4 : (37860 - floor_hour 37860 = 1860)%Z) by reflexivity.
  destruct (hourly_window_inclusion half_hours _ H) as (_ & _ & Hrec).
  destruct (proj1 (Hrec 1%nat "A" 37800%Z H1) H2) as [A1 A2].
  split; [exact H|]. split; [exact H1|]. split; [exact H2|].
  split; [exact A1|]. split; [exact A2|]. split; [exact H3|]. split; [exact H4|].
  exact (proj2 (Hrec 2%nat "A" 37860%Z H3) H4).
Defined.

(** ** Tier 3 for the relative humidity, row by row *)

Lemma assign_calculated_rh (m : list bool) :
  forall (l temp dew : list cell) (i : nat) (c t d : cell),
    nth_error m i = Some true ->
    nth_error l i = Some c ->
    nth_error temp i = Some t ->
    nth_error dew i = Some d ->
    nth_error (assign m l (calculated_rh (select m temp) (select m dew))) i
    = Some (to_cell (calculate_rh_from_temp_dew (of_cell t) (of_cell d))).
Proof.
  induction m as [|b m IH]; intros [|x l] [|t0 temp] [|d0 dew] [|i] c t d;
    simpl; try discriminate.
  - intros [= ->] _ [= ->] [= ->]. reflexivity.
  - intros Hm Hl Ht Hd. destruct b; simpl; eauto.
Qed.

Section RhRow.

Variable df : DataFrame.
Variables temp dew : list cell.
Variable s : string.
Variable i : nat.
Variables t d : R.
Hypothesis row_station : nth_error (station df) i = Some s.
Hypothesis row_temp : nth_error temp i = Some (Some t).
Hypothesis row_dew : nth_error dew i = Some (Some d).

Let rh_row : cell * Z -> cell * Z := derived_row (Some t) (Some d).

Lemma rh_row_idempotent (cf : cell * Z) : rh_row (rh_row cf) = rh_row cf.
Proof.
  unfold rh_row, derived_row. destruct cf as [[x|] f]; simpl; [reflexivity|].
  destruct (to_cell _); reflexivity.
Qed.

Lemma rh_mask_row (st : ColState) (c : cell) :
  nth_error (vals st) i = Some c ->
  nth_error (mask_and (mask_and (station_mask df s) (map isnull (vals st)))
               (mask_and (map notnull temp) (map notnull dew))) i
  = Some (isnull c).
Proof.
  intros Hc.
  assert (H1 : nth_error (station_mask df s) i = Some true).
  { rewrite (station_mask_nth _ _ _ _ row_station). now rewrite String.eqb_refl. }
  assert (H2 : nth_error (map isnull (vals st)) i = Some (isnull c))
    by now rewrite nth_error_map, Hc.
  assert (H3 : nth_error (mask_and (map notnull temp) (map notnull dew)) i = Some true).
  { apply mask_and_intro; rewrite nth_error_map; [rewrite row_temp | rewrite row_dew];
      reflexivity. }
  rewrite (mask_and_nth _ _ _ _ _ (mask_and_nth _ _ _ _ _ H1 H2) H3).
  simpl. now rewrite andb_true_r.
Qed.

Lemma tier3_rh_station_row (st : ColState) (c : cell) (f : Z) :
  nth_error (vals st) i = Some c ->
  nth_error (flags st) i = Some f ->
  let st' := tier3_rh_station df temp dew st s in
  (nth_error (vals st') i, nth_error (flags st') i)
  = (Some (fst (rh_row (c, f))), Some (snd (rh_row (c, f)))).
Proof.
  intros Hc Hf. cbv zeta. unfold tier3_rh_station.
  pose proof (rh_mask_row st c Hc) as Hm.
  set (m := mask_and _ _) in *.
  destruct c as [x|]; simpl in Hm; unfold rh_row, derived_row; simpl fst; simpl snd.
  - assert (Hmiss : nth_error m i <> Some true) by congruence.
    destruct (0 <? count_true m)%nat; simpl.
    + rewrite assign_miss, assign_const_miss by assumption. now rewrite Hc, Hf.
    + now rewrite Hc, Hf.
  - pose proof (count_true_pos _ _ Hm) as Hpos.
    apply Nat.ltb_lt in Hpos. rewrite Hpos. simpl.
    rewrite (assign_calculated_rh m _ _ _ _ None (Some t) (Some d) Hm Hc row_temp row_dew).
    rewrite (assign_const_hit m _ _ f _ Hm Hf). reflexivity.
Qed.

Lemma tier3_rh_other_row (st : ColState) (s' : string) :
  s' <> s ->
  nth_error (vals (tier3_rh_station df temp dew st s')) i = nth_error (vals st) i /\
  nth_error (flags (tier3_rh_station df temp dew st s')) i = nth_error (flags st) i.
Proof.
  intros Hne. unfold tier3_rh_station.
  destruct (0 <? count_true _)%nat; [|split; reflexivity].
  simpl. split; [apply assign_miss | apply assign_const_miss];
    now apply (station_and_mask_other df s i row_station).
Qed.

Lemma tier3_rh_fold_row (sts : list string) :
  forall (st : ColState) (c : cell) (f : Z),
    nth_error (vals st) i = Some c ->
    nth_error (flags st) i = Some f ->
    let st' := fold_left (tier3_rh_station df temp dew) sts st in
    (nth_error (vals st') i, nth_error (flags st') i)
    = if in_dec string_dec s sts
      then (Some (fst (rh_row (c, f))), Some (snd (rh_row (c, f))))
      else (Some c, Some f).
Proof.
  induction sts as [|s' sts IH]; intros st c f Hc Hf; cbv zeta.
  - simpl. now rewrite Hc, Hf.
  - simpl fold_left. destruct (string_dec s' s) as [-> | Hne].
    + pose proof (tier3_rh_station_row st c f Hc Hf) as Hrow. cbv zeta in Hrow.
      injection Hrow as Hv Hfl.
      specialize (IH _ _ _ Hv Hfl). cbv zeta in IH. rewrite IH.
      destruct (in_dec string_dec s (s :: sts)) as [_ | Hn]; [|elim Hn; now left].
      destruct (in_dec string_dec s sts).
      * rewrite <- surjective_pairing, rh_row_idempotent. reflexivity.
      * reflexivity.
    + destruct (tier3_rh_other_row st s' Hne) as [Hv Hfl].
      rewrite <- Hv in Hc. rewrite <- Hfl in Hf.
      specialize (IH _ _ _ Hc Hf). cbv zeta in IH. rewrite IH.
      destruct (in_dec string_dec s sts) as [Hin | Hn];
        destruct (in_dec string_dec s (s' :: sts)) as [Hin' | Hn']; try reflexivity.
      * elim Hn'. now right.
      * destruct Hin' as [E | Hin']; [congruence | contradiction].
Qed.

End RhRow.

(** At a row of an imputed station where the humidity is still missing and
    Temperature and Dew are present, tier 3 stores the value
    [calculate_rh_from_temp_dew] returns and sets the flag to 3; away from
    the pole of the formula that value is the clipped Magnus ratio. *)
Lemma tier3_rh_derives
  (df : DataFrame) (temp dew : list cell) (sts : list string) (st : ColState)
  (s : string) (i : nat) (t d : R) (f : Z) :
  float_values df "Temperature" = Some temp ->
  float_values df "Dew" = Some dew ->
  In s sts ->
  nth_error (station df) i = Some s ->
  nth_error (vals st) i = Some None ->
  nth_error (flags st) i = Some f ->
  nth_error temp i = Some (Some t) ->
  nth_error dew i = Some (Some d) ->
  nth_error (vals (tier3 df "Rh" sts st)) i
  = Some (to_cell (calculate_rh_from_temp_dew (Fin t) (Fin d))) /\
  nth_error (flags (tier3 df "Rh" sts st)) i = Some 3%Z.
Proof.
  intros HT HD Hin Hs Hv Hf Ht Hd.
  unfold tier3. simpl String.eqb. cbv iota. rewrite HT, HD.
  pose proof (tier3_rh_fold_row df temp dew s i t d Hs Ht Hd sts st None f Hv Hf)
    as Hrow.
  cbv zeta in Hrow.
  destruct (in_dec string_dec s sts) as [_ | Hn]; [|contradiction].
  injection Hrow as -> ->. split; reflexivity.
Qed.

(** * Further properties of the imputation engine, the aggregators and the report *)

(** ** Tiers 1 to 3 never touch a value that is there *)

Lemma stays_refl (l : list cell) : stays l l.
Proof. intros i x H. exact H. Qed.

Lemma stays_trans (l1 l2 l3 : list cell) : stays l1 l2 -> stays l2 l3 -> stays l1 l3.
Proof. intros H1 H2 i x H. apply H2, H1, H. Qed.

Lemma stays_tail (a b : cell) (l l' : list cell) :
  stays (a :: l) (b :: l') -> stays l l'.
Proof. intros H i x Hi. exact (H (S i) x Hi). Qed.

Lemma stays_nil_tail (a : cell) (l : list cell) : stays (a :: l) [] -> stays l [].
Proof. intros H i x Hi. specialize (H (S i) x Hi). destruct i; discriminate. Qed.

Lemma assign_stays (m : list bool) :
  forall l g : list cell, stays (select m l) g -> stays l (assign m l g).
Proof.
  induction m as [|b m IH]; intros [|c l] g H; simpl; try apply stays_refl.
  destruct b.
  - destruct g as [|y g]; intros [|i] x Hi; simpl in *.
    + exact Hi.
    + apply (IH l []); [eapply stays_nil_tail; exact H | exact Hi].
    + exact (H 0%nat x Hi).
    + apply (IH l g); [eapply stays_tail; exact H | exact Hi].
  - intros [|i] x Hi; simpl in *; [exact Hi|].
    apply (IH l g); assumption.
Qed.

Lemma interpolate_time_stays (index : list Z) (v : list cell) (limit : nat) :
  stays v (interpolate_time index v limit).
Proof.
  intros i x H. now rewrite (interpolate_time_nth index v limit i (Some x) H).
Qed.

Lemma ffill_aux_stays (limit : nat) (v : list cell) :
  forall (last : cell) (run : nat), stays v (ffill_aux limit last run v).
Proof.
  induction v as [|c v IH]; intros last run [|i] x H; simpl in *; try discriminate.
  - injection H as ->. reflexivity.
  - destruct c; simpl; apply IH; assumption.
Qed.

Lemma ffill_aux_length (limit : nat) (v : list cell) :
  forall (last : cell) (run : nat),
    List.length (ffill_aux limit last run v) = List.length v.
Proof.
  induction v as [|c v IH]; intros last run; simpl; [reflexivity|].
  destruct c; simpl; now rewrite IH.
Qed.

Lemma ffill_length (limit : nat) (v : list cell) :
  List.length (ffill limit v) = List.length v.
Proof. apply ffill_aux_length. Qed.

Lemma bfill_length (limit : nat) (v : list cell) :
  List.length (bfill limit v) = List.length v.
Proof. unfold bfill. now rewrite length_rev, ffill_length, length_rev. Qed.

Lemma stays_rev (l l' : list cell) :
  List.length l = List.length l' -> stays l l' -> stays (rev l) (rev l').
Proof.
  intros Hlen H i x Hi. rewrite nth_error_rev in *. rewrite <- Hlen.
  destruct (i <? List.length l)%nat; [|discriminate].
  apply H. exact Hi.
Qed.

Lemma ffill_stays (limit : nat) (v : list cell) : stays v (ffill limit v).
Proof. apply ffill_aux_stays. Qed.

Lemma bfill_stays (limit : nat) (v : list cell) : stays v (bfill limit v).
Proof.
  unfold bfill. rewrite <- (rev_involutive v) at 1.
  apply stays_rev; [now rewrite ffill_length | apply ffill_stays].
Qed.

Lemma fill_interp_length (pts : list (Z * R)) (v : list cell) :
  forall (index : list Z) (preserve : list bool),
    List.length (fill_interp pts index v preserve) = List.length v.
Proof.
  induction v as [|c v IH]; intros index preserve; simpl; [reflexivity|].
  now rewrite IH.
Qed.

Lemma interpolate_time_length (index : list Z) (v : list cell) (limit : nat) :
  List.length (interpolate_time index v limit) = List.length v.
Proof. apply fill_interp_length. Qed.

Lemma tier1_station_stays (df : DataFrame) (v : list cell) (s : string) :
  stays v (tier1_station df v s).
Proof. apply assign_stays, interpolate_time_stays. Qed.

Lemma tier2_station_stays (df : DataFrame) (v : list cell) (s : string) :
  stays v (tier2_station df v s).
Proof.
  apply assign_stays.
  eapply stays_trans; [apply ffill_stays | apply bfill_stays].
Qed.

Lemma fold_stays (f : list cell -> string -> list cell) (sts : list string) :
  (forall v s, stays v (f v s)) -> forall v, stays v (fold_left f sts v).
Proof.
  intros Hf. induction sts as [|s sts IH]; intros v; simpl; [apply stays_refl|].
  eapply stays_trans; [apply Hf | apply IH].
Qed.

Lemma fold_length (f : list cell -> string -> list cell) (sts : list string) :
  (forall v s, List.length (f v s) = List.length v) ->
  forall v, List.length (fold_left f sts v) = List.length v.
Proof.
  intros Hf. induction sts as [|s sts IH]; intros v; simpl; [reflexivity|].
  now rewrite IH, Hf.
Qed.

(** A mask that selects missing entries only. *)
Lemma null_mask_miss (a b : list bool) (l : list cell) (i : nat) (x : R) :
  nth_error l i = Some (Some x) ->
  nth_error (mask_and (mask_and a (map isnull l)) b) i <> Some true.
Proof.
  intros Hl H. apply mask_and_true in H as [H _]. apply mask_and_true in H as [_ H].
  rewrite nth_error_map, Hl in H. discriminate.
Qed.

Lemma null_mask_miss2 (a : list bool) (l : list cell) (i : nat) (x : R) :
  nth_error l i = Some (Some x) ->
  nth_error (mask_and a (map isnull l)) i <> Some true.
Proof.
  intros Hl H. apply mask_and_true in H as [_ H].
  rewrite nth_error_map, Hl in H. discriminate.
Qed.

Lemma assign_const_nth {A : Type} (m : list bool) (l : list A) (y a : A) (i : nat) :
  nth_error l i = Some a ->
  nth_error (assign_const m l y) i = Some a \/ nth_error (assign_const m l y) i = Some y.
Proof.
  intros Hl. destruct (nth_error m i) as [[|]|] eqn:Hm.
  - right. eapply assign_const_hit; eauto.
  - left. rewrite assign_const_miss by congruence. exact Hl.
  - left. rewrite assign_const_miss by congruence. exact Hl.
Qed.

(** ** Provenance flags through tiers 1 to 3 *)

Lemma provenance_init (v : list cell) : provenance_ok v (mkColState v (init_flags v)).
Proof.
  unfold provenance_ok, init_flags. simpl. rewrite length_map.
  repeat split. intros i. rewrite nth_error_map.
  destruct (nth_error v i) as [[x|]|]; simpl; auto.
  exists 1%Z. split; [reflexivity | lia].
Qed.

Lemma provenance_values (v : list cell) (st : ColState) (vals' : list cell) :
  provenance_ok v st ->
  stays (vals st) vals' -> List.length vals' = List.length (vals st) ->
  provenance_ok v (mkColState vals' (flags st)).
Proof.
  intros (Hl1 & Hl2 & H) Hs Hlen. unfold provenance_ok. simpl.
  repeat split; try congruence.
  intros i. specialize (H i). destruct (nth_error v i) as [[x|]|]; auto.
  destruct H as [H1 H2]. split; [apply Hs; assumption | assumption].
Qed.

Lemma provenance_step (v : list cell) (st : ColState) (m : list bool)
  (vals' : list cell) (k : Z) :
  (1 <= k <= 3)%Z ->
  provenance_ok v st ->
  (forall i x, nth_error (vals st) i = Some (Some x) -> nth_error m i <> Some true) ->
  stays (vals st) vals' -> List.length vals' = List.length (vals st) ->
  provenance_ok v (mkColState vals' (assign_const m (flags st) k)).
Proof.
  intros Hk (Hl1 & Hl2 & H) Hm Hs Hlen. unfold provenance_ok. simpl.
  rewrite assign_const_length. repeat split; try congruence.
  intros i. specialize (H i). destruct (nth_error v i) as [[x|]|]; auto.
  - destruct H as [H1 H2]. split; [apply Hs; assumption|].
    rewrite assign_const_miss by (eapply Hm; eassumption). exact H2.
  - destruct H as (f & Hf & Hr).
    destruct (assign_const_nth m (flags st) k f i Hf) as [E | E];
      [exists f | exists k]; auto.
Qed.

Lemma miss_stays_assign (m : list bool) (l g : list cell) :
  (forall i x, nth_error l i = Some (Some x) -> nth_error m i <> Some true) ->
  stays l (assign m l g).
Proof. intros H i x Hi. rewrite assign_miss by (eapply H; eassumption). exact Hi. Qed.

Lemma miss_stays_assign_const (m : list bool) (l : list cell) (y : cell) :
  (forall i x, nth_error l i = Some (Some x) -> nth_error m i <> Some true) ->
  stays l (assign_const m l y).
Proof. intros H i x Hi. rewrite assign_const_miss by (eapply H; eassumption). exact Hi. Qed.

Lemma provenance_tier1 (df : DataFrame) (sts : list string) (v : list cell) (st : ColState) :
  provenance_ok v st -> provenance_ok v (tier1 df sts st).
Proof.
  intros H. unfold tier1. apply provenance_values; [assumption | |].
  - apply fold_stays. intros; apply tier1_station_stays.
  - apply fold_length. intros. unfold tier1_station. apply assign_length.
Qed.

Lemma provenance_tier2 (df : DataFrame) (col : string) (sts : list string)
  (v : list cell) (st : ColState) :
  provenance_ok v st -> provenance_ok v (tier2 df col sts st).
Proof.
  intros H. unfold tier2. destruct (str_in col _); [|assumption].
  apply provenance_step; [lia | assumption | | |].
  - intros i x Hi Hm. rewrite nth_error_map, Hi in Hm. discriminate.
  - apply fold_stays. intros; apply tier2_station_stays.
  - apply fold_length. intros. unfold tier2_station. apply assign_length.
Qed.

Lemma provenance_fold (f : ColState -> string -> ColState) (v : list cell)
  (sts : list string) :
  (forall st s, provenance_ok v st -> provenance_ok v (f st s)) ->
  forall st, provenance_ok v st -> provenance_ok v (fold_left f sts st).
Proof.
  intros Hf. induction sts as [|s sts IH]; intros st H; simpl; auto.
Qed.

Lemma provenance_tier3 (df : DataFrame) (col : string) (sts : list string)
  (v : list cell) (st : ColState) :
  provenance_ok v st -> provenance_ok v (tier3 df col sts st).
Proof.
  intros H. unfold tier3.
  destruct (String.eqb col "Rain").
  { apply provenance_fold; [|assumption]. intros st0 s H0.
    unfold tier3_rain_station.
    assert (Hm : forall i x, nth_error (vals st0) i = Some (Some x) ->
                   nth_error (mask_and (station_mask df s) (map isnull (vals st0))) i
                   <> Some true)
      by (intros; eapply null_mask_miss2; eassumption).
    apply provenance_step; [lia | assumption | assumption | |].
    - now apply miss_stays_assign_const.
    - apply assign_const_length. }
  destruct (String.eqb col "Wind Gust Speed").
  { destruct (float_values df "Wind Speed") as [ws|]; [|assumption].
    apply provenance_fold; [|assumption]. intros st0 s H0.
    unfold tier3_gust_station.
    assert (Hm : forall i x, nth_error (vals st0) i = Some (Some x) ->
                   nth_error (mask_and (mask_and (station_mask df s)
                                          (map isnull (vals st0)))
                                (map notnull ws)) i <> Some true)
      by (intros; eapply null_mask_miss; eassumption).
    apply provenance_step; [lia | assumption | assumption | |].
    - now apply miss_stays_assign.
    - apply assign_length. }
  destruct (String.eqb col "Rh"); [|assumption].
  destruct (float_values df "Temperature") as [temp|]; [|assumption].
  destruct (float_values df "Dew") as [dew|]; [|assumption].
  apply provenance_fold; [|assumption]. intros st0 s H0.
  unfold tier3_rh_station.
  destruct (0 <? count_true _)%nat; [|destruct st0; assumption].
  assert (Hm : forall i x, nth_error (vals st0) i = Some (Some x) ->
                 nth_error (mask_and (mask_and (station_mask df s)
                                        (map isnull (vals st0)))
                              (mask_and (map notnull temp) (map notnull dew))) i
                 <> Some true)
    by (intros; eapply null_mask_miss; eassumption).
  apply provenance_step; [lia | assumption | assumption | |].
  - now apply miss_stays_assign.
  - apply assign_length.
Qed.

(** X1.  Through tiers 1 to 3 a value present in the input keeps its value and
    flag 0, and a value missing in the input ends with flag 1, 2 or 3; no
    row is added or lost. *)
Theorem tiers_keep_present_values
  (df : DataFrame) (col : string) (v : list cell) (i : nat) (c : cell) :
  nth_error v i = Some c ->
  let st := after_tier3 df col v in
  List.length (vals st) = List.length v /\
  List.length (flags st) = List.length v /\
  match c with
  | Some x => nth_error (vals st) i = Some (Some x) /\ nth_error (flags st) i = Some 0%Z
  | None => exists f, nth_error (flags st) i = Some f /\ (1 <= f <= 3)%Z
  end.
Proof.
  intros Hc. cbv zeta.
  assert (H : provenance_ok v (after_tier3 df col v)).
  { unfold after_tier3. cbv zeta.
    apply provenance_tier3, provenance_tier2, provenance_tier1, provenance_init. }
  destruct H as (H1 & H2 & H). specialize (H i). rewrite Hc in H.
  repeat split; assumption.
Qed.

Lemma tiers_keep_present_values_witness :
  nth_error sparse_readings 2 = Some (Some 18) /\
  nth_error (vals (after_tier3 sparse_series "Wind Direction" sparse_readings)) 2
  = Some (Some 18) /\
  nth_error (flags (after_tier3 sparse_series "Wind Direction" sparse_readings)) 2
  = Some 0%Z.
Proof.
  assert (H : nth_error sparse_readings 2 = Some (Some 18)) by reflexivity.
  split; [exact H|].
  exact (proj2 (proj2 (tiers_keep_present_values sparse_series "Wind Direction"
                         sparse_readings 2 (Some 18) H))).
Defined.

(** ** Tier 3, row by row *)

Section StationRow.

Variable s : string.
Variable i : nat.

Variable f : ColState -> string -> ColState.
Variable g : cell * Z -> cell * Z.

Hypothesis f_here :
  forall st c fl,
    nth_error (vals st) i = Some c -> nth_error (flags st) i = Some fl ->
    nth_error (vals (f st s)) i = Some (fst (g (c, fl))) /\
    nth_error (flags (f st s)) i = Some (snd (g (c, fl))).

Hypothesis f_other :
  forall st s', s' <> s ->
    nth_error (vals (f st s')) i = nth_error (vals st) i /\
    nth_error (flags (f st s')) i = nth_error (flags st) i.

Hypothesis g_idempotent : forall cf, g (g cf) = g cf.

Lemma fold_other_row (sts : list string) :
  forall st, ~ In s sts ->
    nth_error (vals (fold_left f sts st)) i = nth_error (vals st) i /\
    nth_error (flags (fold_left f sts st)) i = nth_error (flags st) i.
Proof.
  induction sts as [|s' sts IH]; intros st Hn; simpl; [auto|].
  assert (Hne : s' <> s) by (intros ->; apply Hn; now left).
  destruct (f_other st s' Hne) as [E1 E2].
  destruct (IH (f st s') (fun H => Hn (or_intror H))) as [E3 E4].
  split; congruence.
Qed.

Lemma fold_station_row (sts : list string) :
  forall st c fl,
    nth_error (vals st) i = Some c -> nth_error (flags st) i = Some fl ->
    In s sts ->
    nth_error (vals (fold_left f sts st)) i = Some (fst (g (c, fl))) /\
    nth_error (flags (fold_left f sts st)) i = Some (snd (g (c, fl))).
Proof.
  induction sts as [|s' sts IH]; intros st c fl Hc Hf Hin; [destruct Hin|].
  simpl fold_left. destruct (string_dec s' s) as [-> | Hne].
  - destruct (f_here st c fl Hc Hf) as [Hv Hfl].
    destruct (in_dec string_dec s sts) as [Hin' | Hn].
    + destruct (IH _ _ _ Hv Hfl Hin') as [H1 H2].
      rewrite <- surjective_pairing, g_idempotent in H1, H2. auto.
    + destruct (fold_other_row sts (f st s) Hn) as [E1 E2].
      split; congruence.
  - destruct Hin as [E | Hin]; [contradiction|].
    destruct (f_other st s' Hne) as [E1 E2].
    apply IH; congruence.
Qed.

End StationRow.

Lemma assign_select_hit {A : Type} (m : list bool) :
  forall (l ws : list A) (i : nat) (c w : A),
    nth_error m i = Some true ->
    nth_error l i = Some c ->
    nth_error ws i = Some w ->
    nth_error (assign m l (select m ws)) i = Some w.
Proof.
  induction m as [|b m IH]; intros [|x l] [|w0 ws] [|i] c w; simpl; try discriminate.
  - intros [= ->] _ [= ->]. reflexivity.
  - intros Hm Hl Hw. destruct b; simpl; eauto.
Qed.

(** What tier 3 makes of a Rain entry and its flag. *)
Lemma tier3_rain_station_row (df : DataFrame) (s : string) (i : nat)
  (st : ColState) (c : cell) (fl : Z) :
  nth_error (station df) i = Some s ->
  nth_error (vals st) i = Some c -> nth_error (flags st) i = Some fl ->
  nth_error (vals (tier3_rain_station df st s)) i
  = Some (match c with Some x => Some x | None => Some 0 end) /\
  nth_error (flags (tier3_rain_station df st s)) i
  = Some (match c with Some _ => fl | None => 3%Z end).
Proof.
  intros Hs Hc Hf. unfold tier3_rain_station. simpl.
  assert (Hm : nth_error (mask_and (station_mask df s) (map isnull (vals st))) i
               = Some (isnull c)).
  { rewrite (mask_and_nth _ _ i true (isnull c)); [reflexivity | |].
    - rewrite (station_mask_nth _ _ _ _ Hs). now rewrite String.eqb_refl.
    - now rewrite nth_error_map, Hc. }
  destruct c as [x|]; simpl in Hm.
  - rewrite !assign_const_miss by congruence. auto.
  - split; eapply assign_const_hit; eauto.
Qed.

Lemma tier3_rain_other_row (df : DataFrame) (s s' : string) (i : nat) (st : ColState) :
  nth_error (station df) i = Some s -> s' <> s ->
  nth_error (vals (tier3_rain_station df st s')) i = nth_error (vals st) i /\
  nth_error (flags (tier3_rain_station df st s')) i = nth_error (flags st) i.
Proof.
  intros Hs Hne. unfold tier3_rain_station. simpl.
  assert (Hm : nth_error (mask_and (station_mask df s') (map isnull (vals st))) i
               <> Some true).
  { intros H. apply mask_and_true in H as [H _].
    revert H. eapply station_mask_other; eauto. }
  now rewrite !assign_const_miss by assumption.
Qed.

(** X2.  In an imputed station tier 3 turns every Rain that is still missing
    into 0 with flag 3 and leaves the other rows as they are; after tiers 1
    to 3 no Rain of an imputed station is missing. *)
Theorem rain_of_imputed_station
  (df : DataFrame) (v : list cell) (s : string) (i : nat) (c0 : cell) :
  nth_error (station df) i = Some s ->
  In s (stations_to_impute df v) ->
  nth_error v i = Some c0 ->
  (forall st c fl,
     nth_error (vals st) i = Some c -> nth_error (flags st) i = Some fl ->
     nth_error (vals (tier3 df "Rain" (stations_to_impute df v) st)) i
     = Some (match c with Some x => Some x | None => Some 0 end) /\
     nth_error (flags (tier3 df "Rain" (stations_to_impute df v) st)) i
     = Some (match c with Some _ => fl | None => 3%Z end)) /\
  exists x, nth_error (vals (after_tier3 df "Rain" v)) i = Some (Some x).
Proof.
  intros Hs Hin Hv.
  assert (Hrow : forall st c fl,
     nth_error (vals st) i = Some c -> nth_error (flags st) i = Some fl ->
     nth_error (vals (tier3 df "Rain" (stations_to_impute df v) st)) i
     = Some (match c with Some x => Some x | None => Some 0 end) /\
     nth_error (flags (tier3 df "Rain" (stations_to_impute df v) st)) i
     = Some (match c with Some _ => fl | None => 3%Z end)).
  { intros st c fl Hc Hf. unfold tier3. simpl String.eqb. cbv iota.
    apply (fold_station_row s i (tier3_rain_station df)
             (fun cf => (match fst cf with Some x => Some x | None => Some 0 end,
                         match fst cf with Some _ => snd cf | None => 3%Z end)));
      try assumption.
    - intros st0 c1 fl1 H1 H2. now apply tier3_rain_station_row.
    - intros st0 s' Hne. now apply (tier3_rain_other_row df s).
    - intros [[x|] fl1]; reflexivity. }
  split; [exact Hrow|].
  unfold after_tier3. cbv zeta.
  set (sts := stations_to_impute df v) in *.
  set (st2 := tier2 df "Rain" sts (tier1 df sts (mkColState v (init_flags v)))).
  assert (Hok : provenance_ok v st2)
    by apply provenance_tier2, provenance_tier1, provenance_init.
  destruct Hok as (L1 & L2 & _).
  assert (Hlt : (i < List.length v)%nat) by (apply nth_error_Some; congruence).
  destruct (nth_error (vals st2) i) as [c|] eqn:Ec;
    [|apply nth_error_None in Ec; lia].
  destruct (nth_error (flags st2) i) as [fl|] eqn:Ef;
    [|apply nth_error_None in Ef; lia].
  destruct (Hrow st2 c fl Ec Ef) as [H _]. rewrite H.
  destruct c as [x|]; eauto.
Qed.

Lemma rain_of_imputed_station_witness :
  nth_error (station rain_gauge) 2 = Some "A" /\
  In "A" (stations_to_impute rain_gauge rain_readings) /\
  nth_error rain_readings 2 = Some None /\
  exists x, nth_error (vals (after_tier3 rain_gauge "Rain" rain_readings)) 2
            = Some (Some x).
Proof.
  assert (H1 : nth_error (station rain_gauge) 2 = Some "A") by reflexivity.
  assert (H2 : In "A" (stations_to_impute rain_gauge rain_readings))
    by (left; reflexivity).
  assert (H3 : nth_error rain_readings 2 = Some None) by reflexivity.
  split; [exact H1|]. split; [exact H2|]. split; [exact H3|].
  exact (proj2 (rain_of_imputed_station rain_gauge rain_readings "A" 2 None
                  H1 H2 H3)).
Defined.

Lemma tier3_gust_station_row (df : DataFrame) (ws : list cell) (s : string) (i : nat)
  (st : ColState) (c w : cell) (fl : Z) :
  nth_error (station df) i = Some s ->
  nth_error ws i = Some w ->
  nth_error (vals st) i = Some c -> nth_error (flags st) i = Some fl ->
  nth_error (vals (tier3_gust_station df ws st s)) i
  = Some (match c with Some x => Some x | None => w end) /\
  nth_error (flags (tier3_gust_station df ws st s)) i
  = Some (match c, w with None, Some _ => 3%Z | _, _ => fl end).
Proof.
  intros Hs Hw Hc Hf. unfold tier3_gust_station. simpl.
  set (m := mask_and _ _).
  assert (Hm : nth_error m i = Some (isnull c && notnull w)).
  { unfold m. rewrite (mask_and_nth _ _ i (isnull c) (notnull w)); [reflexivity | |].
    - rewrite (mask_and_nth _ _ i true (isnull c)); [reflexivity | |].
      + rewrite (station_mask_nth _ _ _ _ Hs). now rewrite String.eqb_refl.
      + now rewrite nth_error_map, Hc.
    - now rewrite nth_error_map, Hw. }
  destruct c as [x|]; [|destruct w as [y|]];
    cbv [isnull notnull andb negb] in Hm.
  - rewrite assign_miss, assign_const_miss by congruence. auto.
  - split; [eapply assign_select_hit | eapply assign_const_hit]; eauto.
  - rewrite assign_miss, assign_const_miss by congruence. auto.
Qed.

Lemma tier3_gust_other_row (df : DataFrame) (ws : list cell) (s s' : string)
  (i : nat) (st : ColState) :
  nth_error (station df) i = Some s -> s' <> s ->
  nth_error (vals (tier3_gust_station df ws st s')) i = nth_error (vals st) i /\
  nth_error (flags (tier3_gust_station df ws st s')) i = nth_error (flags st) i.
Proof.
  intros Hs Hne. unfold tier3_gust_station. simpl.
  rewrite assign_miss, assign_const_miss
    by (now apply (station_and_mask_other df s i Hs)).
  auto.
Qed.

(** X3.  In an imputed station tier 3 gives a missing Wind Gust Speed the Wind
    Speed of the same record, with flag 3, when that Wind Speed is there;
    a gust that is present, or whose record has no Wind Speed, is left as
    it is. *)
Theorem gust_of_imputed_station
  (df : DataFrame) (ws : list cell) (sts : list string) (st : ColState)
  (s : string) (i : nat) (c w : cell) (fl : Z) :
  float_values df "Wind Speed" = Some ws ->
  In s sts ->
  nth_error (station df) i = Some s ->
  nth_error ws i = Some w ->
  nth_error (vals st) i = Some c ->
  nth_error (flags st) i = Some fl ->
  nth_error (vals (tier3 df "Wind Gust Speed" sts st)) i
  = Some (match c with Some x => Some x | None => w end) /\
  nth_error (flags (tier3 df "Wind Gust Speed" sts st)) i
  = Some (match c, w with None, Some _ => 3%Z | _, _ => fl end).
Proof.
  intros Hws Hin Hs Hw Hc Hf. unfold tier3. simpl String.eqb. cbv iota.
  rewrite Hws.
  apply (fold_station_row s i (tier3_gust_station df ws)
           (fun cf => (match fst cf with Some x => Some x | None => w end,
                       match fst cf, w with None, Some _ => 3%Z | _, _ => snd cf end)));
    try assumption.
  - intros st0 c1 fl1 H1 H2. now apply tier3_gust_station_row.
  - intros st0 s' Hne. now apply (tier3_gust_other_row df ws s).
  - intros [[x|] fl1]; simpl; [reflexivity|]. destruct w; reflexivity.
Qed.

Lemma gust_of_imputed_station_witness :
  float_values anemometer "Wind Speed" = Some speed_readings /\
  In "A" ["A"] /\
  nth_error (station anemometer) 1 = Some "A" /\
  nth_error speed_readings 1 = Some (Some 9) /\
  nth_error gust_readings 1 = Some None /\
  nth_error (init_flags gust_readings) 1 = Some 1%Z /\
  nth_error (vals (tier3 anemometer "Wind Gust Speed" ["A"]
                     (mkColState gust_readings (init_flags gust_readings)))) 1
  = Some (Some 9) /\
  nth_error (flags (tier3 anemometer "Wind Gust Speed" ["A"]
                      (mkColState gust_readings (init_flags gust_readings)))) 1
  = Some 3%Z.
Proof.
  assert (H1 : float_values anemometer "Wind Speed" = Some speed_readings)
    by reflexivity.
  assert (H2 : In "A" ["A"]) by (left; reflexivity).
  assert (H3 : nth_error (station anemometer) 1 = Some "A") by reflexivity.
  assert (H4 : nth_error speed_readings 1 = Some (Some 9)) by reflexivity.
  assert (H5 : nth_error gust_readings 1 = Some None) by reflexivity.
  assert (H6 : nth_error (init_flags gust_readings) 1 = Some 1%Z) by reflexivity.
  split; [exact H1|]. split; [exact H2|]. split; [exact H3|].
  split; [exact H4|]. split; [exact H5|]. split; [exact H6|].
  exact (gust_of_imputed_station anemometer speed_readings ["A"]
           (mkColState gust_readings (init_flags gust_readings))
           "A" 1 None (Some 9) 1%Z H1 H2 H3 H4 H5 H6).
Defined.

(** ** Bounds validation: what is left in the column *)

Lemma count_true_zero (m : list bool) (i : nat) (b : bool) :
  count_true m = 0%nat -> nth_error m i = Some b -> b = false.
Proof.
  intros H Hi. destruct b; [|reflexivity].
  pose proof (count_true_pos m i Hi). lia.
Qed.

Lemma in_bounds_spec (lo hi x : R) :
  out_of_bounds lo hi (Some x) = false <-> lo <= x <= hi.
Proof.
  simpl. rewrite orb_false_iff. unfold Rltb.
  destruct (Rlt_dec x lo), (Rlt_dec hi x); split; intros H;
    try (destruct H; discriminate); try lra; auto.
Qed.

Lemma dropped_out_of_bounds (lo hi : R) (l : list cell) (i : nat) (y : R) :
  let oob := map (out_of_bounds lo hi) l in
  nth_error (if (0 <? count_true oob)%nat then assign_const oob l None else l) i
  = Some (Some y) ->
  lo <= y <= hi /\ nth_error l i = Some (Some y).
Proof.
  intros oob H.
  assert (Hl : exists c, nth_error l i = Some c).
  { destruct (nth_error l i) as [c|] eqn:E; [eauto|].
    exfalso. apply nth_error_None in E.
    assert (Hn : nth_error (if (0 <? count_true oob)%nat
                            then assign_const oob l None else l) i = None).
    { apply nth_error_None. destruct (0 <? count_true oob)%nat;
        [rewrite assign_const_length|]; exact E. }
    congruence. }
  destruct Hl as [c Hc].
  assert (Ho : nth_error oob i = Some (out_of_bounds lo hi c))
    by (unfold oob; now rewrite nth_error_map, Hc).
  destruct (0 <? count_true oob)%nat eqn:Ecount.
  - destruct (out_of_bounds lo hi c) eqn:Eo.
    + rewrite (assign_const_hit oob l None c i Ho Hc) in H. discriminate.
    + rewrite assign_const_miss in H by congruence.
      rewrite Hc in H. injection H as ->.
      split; [now apply in_bounds_spec | exact Hc].
  - apply Nat.ltb_ge in Ecount.
    assert (E0 : count_true oob = 0%nat) by lia.
    pose proof (count_true_zero oob i _ E0 Ho) as Eo.
    rewrite Hc in H. injection H as ->.
    split; [now apply in_bounds_spec | exact Hc].
Qed.

Lemma clip_range (lo hi : R) (c : cell) (y : R) :
  lo <= hi -> clip lo hi c = Some y -> lo <= y <= hi.
Proof.
  intros Hle. destruct c as [x|]; simpl; [|discriminate].
  unfold Rltb. intros [= <-].
  destruct (Rlt_dec x lo); [lra|]. destruct (Rlt_dec hi x); lra.
Qed.

Lemma clip_in_bounds (lo hi : R) (c : cell) :
  out_of_bounds lo hi c = false -> clip lo hi c = c.
Proof.
  destruct c as [x|]; simpl; [|reflexivity].
  intros H. apply orb_false_iff in H as [-> ->]. reflexivity.
Qed.

(** X4.  After bounds validation every Temperature that is present lies in
    [-40, 40], every Rh in [0, 100] and every Dew in [-60, 50]. *)
Theorem bounds_check_in_range (col : string) (st : ColState) (i : nat) (y : R) :
  nth_error (vals (bounds_check col st)) i = Some (Some y) ->
  (col = "Temperature" -> -40 <= y <= 40) /\
  (col = "Rh" -> 0 <= y <= 100) /\
  (col = "Dew" -> -60 <= y <= 50).
Proof.
  intros H. split; [|split]; intros ->; revert H;
    unfold bounds_check; simpl String.eqb; cbv iota; intros H.
  - apply (dropped_out_of_bounds TEMP_MIN TEMP_MAX (vals st) i y).
    cbv zeta. destruct (0 <? count_true _)%nat; exact H.
  - destruct (0 <? count_true (map (out_of_bounds RH_MIN RH_MAX) (vals st)))%nat
      eqn:Ecount.
    + simpl in H. rewrite nth_error_map in H.
      destruct (nth_error (vals st) i) as [c|]; [|discriminate].
      injection H as H.
      apply (clip_range RH_MIN RH_MAX c y) in H; unfold RH_MIN, RH_MAX in *; lra.
    + apply Nat.ltb_ge in Ecount.
      assert (Ho : nth_error (map (out_of_bounds RH_MIN RH_MAX) (vals st)) i
                   = Some (out_of_bounds RH_MIN RH_MAX (Some y)))
        by (now rewrite nth_error_map, H).
      apply count_true_zero in Ho; [|lia].
      apply in_bounds_spec in Ho. unfold RH_MIN, RH_MAX in Ho. lra.
  - apply (dropped_out_of_bounds DEW_MIN DEW_MAX (vals st) i y).
    cbv zeta. destruct (0 <? count_true _)%nat; exact H.
Qed.

Lemma bounds_check_in_range_witness :
  nth_error (vals (bounds_check "Rh" (mkColState [Some 105] [0%Z]))) 0
  = Some (Some 100) /\
  0 <= 100 <= 100.
Proof.
  assert (H : nth_error (vals (bounds_check "Rh" (mkColState [Some 105] [0%Z]))) 0
              = Some (Some 100)).
  { run_table. decide_R. run_table. decide_R. reflexivity. }
  split; [exact H|].
  exact (proj1 (proj2 (bounds_check_in_range "Rh" (mkColState [Some 105] [0%Z])
                         0%nat 100 H)) eq_refl).
Defined.

Lemma out_of_bounds_null (lo hi : R) : out_of_bounds lo hi None = false.
Proof. reflexivity. Qed.

Lemma kept_in_bounds {A : Type} (lo hi : R) (l : list cell) (fl : list A) (y : A)
  (i : nat) (c : cell) :
  nth_error l i = Some c ->
  out_of_bounds lo hi c = false ->
  nth_error (assign_const (map (out_of_bounds lo hi) l) l None) i = Some c /\
  nth_error (assign_const (map (out_of_bounds lo hi) l) fl y) i = nth_error fl i.
Proof.
  intros Hc Ho.
  assert (Hm : nth_error (map (out_of_bounds lo hi) l) i <> Some true)
    by (rewrite nth_error_map, Hc; simpl; congruence).
  rewrite !assign_const_miss by exact Hm. auto.
Qed.

(** X5.  Bounds validation leaves alone every row whose value is missing or
    within the range of its column: the value and the flag stay. *)
Theorem bounds_check_keeps_valid
  (col : string) (st : ColState) (i : nat) (c : cell) (f : Z) :
  nth_error (vals st) i = Some c ->
  nth_error (flags st) i = Some f ->
  match c with
  | Some x => (col = "Temperature" -> -40 <= x <= 40) /\
              (col = "Rh" -> 0 <= x <= 100) /\
              (col = "Dew" -> -60 <= x <= 50)
  | None => True
  end ->
  nth_error (vals (bounds_check col st)) i = Some c /\
  nth_error (flags (bounds_check col st)) i = Some f.
Proof.
  intros Hc Hf Hr. unfold bounds_check.
  destruct (String.eqb col "Temperature") eqn:E1;
    [|destruct (String.eqb col "Rh") eqn:E2;
      [|destruct (String.eqb col "Dew") eqn:E3]].
  - apply String.eqb_eq in E1.
    assert (Ho : out_of_bounds TEMP_MIN TEMP_MAX c = false).
    { destruct c as [x|]; [|reflexivity]. apply in_bounds_spec.
      destruct Hr as (H & _ & _). exact (H E1). }
    cbv zeta. destruct (0 <? count_true _)%nat; simpl; [|auto].
    split; [|exact Hf].
    exact (proj1 (kept_in_bounds TEMP_MIN TEMP_MAX (vals st) (flags st) 0%Z i c Hc Ho)).
  - apply String.eqb_eq in E2.
    assert (Ho : out_of_bounds RH_MIN RH_MAX c = false).
    { destruct c as [x|]; [|reflexivity]. apply in_bounds_spec.
      destruct Hr as (_ & H & _). exact (H E2). }
    cbv zeta. destruct (0 <? count_true _)%nat; simpl; [|auto].
    split; [|exact Hf].
    rewrite nth_error_map, Hc. simpl. f_equal. now apply clip_in_bounds.
  - apply String.eqb_eq in E3.
    assert (Ho : out_of_bounds DEW_MIN DEW_MAX c = false).
    { destruct c as [x|]; [|reflexivity]. apply in_bounds_spec.
      destruct Hr as (_ & _ & H). exact (H E3). }
    cbv zeta. destruct (0 <? count_true _)%nat; simpl; [|auto].
    destruct (kept_in_bounds DEW_MIN DEW_MAX (vals st) (flags st) 0%Z i c Hc Ho)
      as [H1 H2].
    split; [exact H1 | now rewrite H2].
  - auto.
Qed.

Lemma bounds_check_keeps_valid_witness :
  nth_error [Some 20; Some 70] 0 = Some (Some 20) /\
  nth_error [2%Z; 0%Z] 0 = Some 2%Z /\
  nth_error (vals (bounds_check "Dew" (mkColState [Some 20; Some 70] [2%Z; 0%Z]))) 0
  = Some (Some 20) /\
  nth_error (flags (bounds_check "Dew" (mkColState [Some 20; Some 70] [2%Z; 0%Z]))) 0
  = Some 2%Z.
Proof.
  assert (H1 : nth_error [Some 20; Some 70] 0 = Some (Some 20)) by reflexivity.
  assert (H2 : nth_error [2%Z; 0%Z] 0 = Some 2%Z) by reflexivity.
  split; [exact H1|]. split; [exact H2|].
  apply (bounds_check_keeps_valid "Dew" (mkColState [Some 20; Some 70] [2%Z; 0%Z])
           0%nat (Some 20) 2%Z H1 H2).
  repeat split; try discriminate; lra.
Defined.

(** X6.  Bounds validation of Rh never removes a value: a humidity below 0
    becomes 0, one above 100 becomes 100, and no provenance flag changes,
    so a clipped observation keeps flag 0. *)
Theorem bounds_check_rh_clips (st : ColState) (i : nat) (x : R) :
  nth_error (vals st) i = Some (Some x) ->
  nth_error (vals (bounds_check "Rh" st)) i
  = Some (Some (if Rltb x 0 then 0 else if Rltb 100 x then 100 else x)) /\
  flags (bounds_check "Rh" st) = flags st /\
  map isnull (vals (bounds_check "Rh" st)) = map isnull (vals st).
Proof.
  intros Hx. unfold bounds_check. simpl String.eqb. cbv iota zeta.
  destruct (0 <? count_true (map (out_of_bounds RH_MIN RH_MAX) (vals st)))%nat
    eqn:Ecount; simpl.
  - split; [now rewrite nth_error_map, Hx|]. split; [reflexivity|].
    rewrite map_map. apply map_ext. now intros [y|].
  - split; [|split; reflexivity].
    apply Nat.ltb_ge in Ecount.
    assert (Ho : nth_error (map (out_of_bounds RH_MIN RH_MAX) (vals st)) i
                 = Some (out_of_bounds RH_MIN RH_MAX (Some x)))
      by (now rewrite nth_error_map, Hx).
    apply count_true_zero in Ho; [|lia].
    rewrite Hx. f_equal. symmetry.
    exact (clip_in_bounds RH_MIN RH_MAX (Some x) Ho).
Qed.

Lemma bounds_check_rh_clips_witness :
  nth_error [Some 105] 0 = Some (Some 105) /\
  nth_error (vals (bounds_check "Rh" (mkColState [Some 105] [0%Z]))) 0
  = Some (Some (if Rltb 105 0 then 0 else if Rltb 100 105 then 100 else 105)) /\
  flags (bounds_check "Rh" (mkColState [Some 105] [0%Z])) = [0%Z].
Proof.
  assert (H : nth_error [Some 105] 0 = Some (Some 105)) by reflexivity.
  split; [exact H|].
  pose proof (bounds_check_rh_clips (mkColState [Some 105] [0%Z]) 0%nat 105 H)
    as (H1 & H2 & _).
  split; [exact H1 | exact H2].
Defined.

(** ** Sorting by station and time *)

Lemma key_le_total (a b : string * Z) : key_le a b = true \/ key_le b a = true.
Proof.
  unfold key_le. rewrite (String.compare_antisym (fst a) (fst b)).
  destruct (String.compare (fst b) (fst a)); simpl; auto.
  destruct (Z.leb_spec (snd a) (snd b)); [auto|].
  right. apply Z.leb_le. lia.
Qed.

Lemma key_le_trans (a b c : string * Z) :
  key_le a b = true -> key_le b c = true -> key_le a c = true.
Proof.
  unfold key_le.
  destruct (String.compare (fst a) (fst b)) eqn:Eab; try discriminate;
    destruct (String.compare (fst b) (fst c)) eqn:Ebc; try discriminate;
    intros H1 H2.
  - apply String.compare_eq_iff in Eab, Ebc.
    rewrite Eab, Ebc.
    assert (E : String.compare (fst c) (fst c) = Eq)
      by (now apply OrderedTypeEx.String_as_OT.cmp_eq).
    rewrite E. apply Z.leb_le. apply Z.leb_le in H1, H2. lia.
  - apply String.compare_eq_iff in Eab. now rewrite Eab, Ebc.
  - apply String.compare_eq_iff in Ebc. now rewrite <- Ebc, Eab.
  - apply OrderedTypeEx.String_as_OT.cmp_lt in Eab, Ebc.
    pose proof (OrderedTypeEx.String_as_OT.lt_trans _ _ _ Eab Ebc) as H.
    apply OrderedTypeEx.String_as_OT.cmp_lt in H.
    unfold OrderedTypeEx.String_as_OT.cmp in H. now rewrite H.
Qed.

Section InsertionSort.

Context {K : Type}.
Variable le : K -> K -> bool.
Variable key : nat -> K.

Lemma insert_by_perm (i : nat) (l : list nat) :
  Permutation (insert_by le key i l) (i :: l).
Proof.
  induction l as [|j l IH]; simpl; [reflexivity|].
  destruct (le (key i) (key j)); [reflexivity|].
  rewrite IH. apply perm_swap.
Qed.

Lemma sort_by_perm (l : list nat) :
  Permutation (fold_right (insert_by le key) [] l) l.
Proof.
  induction l as [|i l IH]; simpl; [reflexivity|].
  rewrite insert_by_perm. now constructor.
Qed.

Hypothesis le_total : forall a b, le a b = true \/ le b a = true.
Hypothesis le_trans : forall a b c, le a b = true -> le b c = true -> le a c = true.

Let earlier (i j : nat) : Prop :=
  le (key i) (key j) = true /\ (le (key j) (key i) = true -> (i < j)%nat).

Lemma insert_by_sorted (i : nat) (l : list nat) :
  Forall (fun j => (i < j)%nat) l ->
  StronglySorted earlier l ->
  StronglySorted earlier (insert_by le key i l).
Proof.
  induction l as [|j l IH]; intros Hlt Hs; simpl.
  - constructor; constructor.
  - inversion Hlt as [|? ? Hij Hlt']; subst.
    inversion Hs as [|? ? Hs' Hj]; subst.
    destruct (le (key i) (key j)) eqn:E.
    + constructor; [exact Hs|].
      constructor; [split; auto|].
      rewrite Forall_forall in *. intros k Hk.
      split; [|intros _; now apply Hlt'].
      destruct (Hj k Hk) as [Hjk _]. eapply le_trans; eauto.
    + constructor; [now apply IH|].
      rewrite Forall_forall in *. intros k Hk.
      apply (Permutation_in _ (insert_by_perm i l)) in Hk.
      destruct Hk as [<- | Hk]; [|now apply Hj].
      split; [|rewrite E; discriminate].
      destruct (le_total (key i) (key j)); congruence.
Qed.

Lemma sort_by_sorted (n m : nat) :
  StronglySorted earlier (fold_right (insert_by le key) [] (seq n m)).
Proof.
  revert n; induction m as [|m IH]; intros n; simpl; [constructor|].
  apply insert_by_sorted; [|apply IH].
  rewrite Forall_forall. intros j Hj.
  apply (Permutation_in _ (sort_by_perm (seq (S n) m))) in Hj.
  apply in_seq in Hj. lia.
Qed.

End InsertionSort.

Lemma argsort_perm (df : DataFrame) : Permutation (argsort df) (seq 0 (len df)).
Proof. apply sort_by_perm. Qed.

Lemma argsort_sorted (df : DataFrame) : StronglySorted (before df) (argsort df).
Proof.
  apply (sort_by_sorted key_le (row_key df) key_le_total key_le_trans).
Qed.

(** X7.  The sorting permutation is a permutation of the row numbers, ordered
    by (station, time); rows with the same station and the same time keep
    the order they had. *)
Theorem argsort_stable (df : DataFrame) :
  Permutation (argsort df) (seq 0 (len df)) /\
  StronglySorted (before df) (argsort df).
Proof.
  split; [apply argsort_perm | apply argsort_sorted].
Qed.

Lemma StronglySorted_weaken {A : Type} (R1 R2 : A -> A -> Prop) (l : list A) :
  (forall x y, R1 x y -> R2 x y) -> StronglySorted R1 l -> StronglySorted R2 l.
Proof.
  intros Himp. induction 1 as [|x l Hs IH Hx]; constructor; auto.
  eapply Forall_impl; [|exact Hx]. auto.
Qed.

Lemma map_nth_seq {A : Type} (d : A) (l : list A) :
  map (fun i => nth i l d) (seq 0 (List.length l)) = l.
Proof.
  induction l as [|x l IH]; simpl; [reflexivity|].
  f_equal. rewrite <- seq_shift, map_map. exact IH.
Qed.

Lemma combine_map_same {A B C : Type} (f : A -> B) (g : A -> C) (l : list A) :
  combine (map f l) (map g l) = map (fun x => (f x, g x)) l.
Proof.
  induction l as [|x l IH]; simpl; [reflexivity | now rewrite IH].
Qed.

Lemma row_keys_take (df : DataFrame) (perm : list nat) :
  row_keys (take df perm) = map (row_key df) perm.
Proof.
  unfold row_keys, take. simpl. apply combine_map_same.
Qed.

Lemma row_keys_seq (df : DataFrame) :
  List.length (Datetime_UTC df) = len df ->
  map (row_key df) (seq 0 (len df)) = row_keys df.
Proof.
  intros H. unfold row_keys, row_key.
  rewrite <- (combine_map_same (fun i => nth i (station df) "")
                               (fun i => nth i (Datetime_UTC df) 0%Z)).
  unfold len in *. rewrite map_nth_seq. rewrite <- H at 1.
  now rewrite map_nth_seq.
Qed.

Lemma StronglySorted_map {A B : Type} (R : B -> B -> Prop) (f : A -> B) (l : list A) :
  StronglySorted (fun x y => R (f x) (f y)) l -> StronglySorted R (map f l).
Proof.
  induction 1 as [|x l Hs IH Hx]; simpl; constructor; auto.
  rewrite Forall_map. exact Hx.
Qed.

Lemma sort_values_sorted (df : DataFrame) :
  List.length (Datetime_UTC df) = len df ->
  Permutation (row_keys (sort_values df)) (row_keys df) /\
  StronglySorted (fun a b => key_le a b = true) (row_keys (sort_values df)).
Proof.
  intros H. unfold sort_values. rewrite row_keys_take.
  split.
  - rewrite <- (row_keys_seq df H). apply Permutation_map, argsort_perm.
  - apply StronglySorted_map.
    apply (StronglySorted_weaken (before df)); [|apply argsort_sorted].
    intros i j [Hij _]. exact Hij.
Qed.

(** ** The table the imputation engine returns *)

Lemma impute_column_keys (df : DataFrame) (col : string) :
  station (impute_column df col) = station df /\
  Datetime_UTC (impute_column df col) = Datetime_UTC df.
Proof.
  unfold impute_column.
  destruct (get_col (columns df) col) as [[v| | |]|]; auto.
  destruct (count_true (map isnull v) =? 0)%nat; auto.
Qed.

Lemma fold_impute_keys (cols : list string) (df : DataFrame) :
  station (fold_left impute_column cols df) = station df /\
  Datetime_UTC (fold_left impute_column cols df) = Datetime_UTC df.
Proof.
  revert df; induction cols as [|c cols IH]; intros df; simpl; [auto|].
  destruct (IH (impute_column df c)) as [-> ->]. apply impute_column_keys.
Qed.

(** X8.  The engine returns the rows of its input ordered by station and then
    by time: it changes no station and no timestamp. *)
Theorem imputation_output_sorted (df : DataFrame) :
  List.length (Datetime_UTC df) = len df ->
  Permutation (row_keys (impute_missing_values df)) (row_keys df) /\
  StronglySorted (fun a b => key_le a b = true)
                 (row_keys (impute_missing_values df)).
Proof.
  intros H.
  assert (E : row_keys (impute_missing_values df) = row_keys (sort_values df)).
  { unfold impute_missing_values, row_keys. cbv zeta.
    now destruct (fold_impute_keys (data_columns (sort_values df)) (sort_values df))
      as [-> ->]. }
  rewrite E. now apply sort_values_sorted.
Qed.

Lemma imputation_output_sorted_witness :
  List.length (Datetime_UTC sparse_series) = len sparse_series /\
  Permutation (row_keys (impute_missing_values sparse_series))
              (row_keys sparse_series) /\
  StronglySorted (fun a b => key_le a b = true)
                 (row_keys (impute_missing_values sparse_series)).
Proof.
  assert (H : List.length (Datetime_UTC sparse_series) = len sparse_series)
    by reflexivity.
  split; [exact H|].
  exact (imputation_output_sorted sparse_series H).
Defined.







(** *** The columns of the result *)







Lemma has_null_count (v : list cell) :
  count_true (map isnull v) <> 0%nat <-> In None v.
Proof.
  induction v as [|[x|] v IH]; simpl.
  - unfold count_true; simpl. split; [lia | tauto].
  - change (count_true (false :: map isnull v)) with (count_true (map isnull v)).
    rewrite IH. split; [auto | intros [E | H]; [discriminate | exact H]].
  - split; [auto | intros _]. unfold count_true. simpl. lia.
Qed.






(** ** Tiers 1 and 2 stay within the observed range *)

Lemma interp_from_range (lo hi : R) (x : Z) (pts : list (Z * R)) :
  forall (x0 : Z) (y0 : R),
    (x0 <= x)%Z -> lo <= y0 <= hi ->
    Forall (fun p => lo <= snd p <= hi) pts ->
    lo <= interp_from x x0 y0 pts <= hi.
Proof.
  induction pts as [|[x1 y1] pts IH]; intros x0 y0 Hx Hy Hp; simpl; [exact Hy|].
  inversion Hp as [|? ? Hy1 Hp']; subst. simpl in Hy1.
  destruct (Z.ltb_spec x x1) as [Hlt | Hge].
  - apply IZR_le in Hx. apply IZR_lt in Hlt.
    set (d := IZR x1 - IZR x0). set (e := IZR x - IZR x0).
    assert (Hd : 0 < d) by (unfold d; lra).
    assert (He : 0 <= e < d) by (unfold e, d; lra).
    replace ((y1 - y0) / d * e + y0) with (y0 + (y1 - y0) * (e / d))
      by (field; lra).
    assert (Ht : 0 <= e / d <= 1).
    { split.
      - apply Rmult_le_pos; [lra|]. left. now apply Rinv_0_lt_compat.
      - apply (Rmult_le_reg_r d); [exact Hd|].
        unfold Rdiv. rewrite Rmult_assoc, Rinv_l by lra. lra. }
    generalize dependent (e / d). intros t Ht. nra.
  - now apply IH.
Qed.

Lemma np_interp_range (lo hi : R) (x : Z) (pts : list (Z * R)) (r : R) :
  Forall (fun p => lo <= snd p <= hi) pts ->
  np_interp x pts = Some r -> lo <= r <= hi.
Proof.
  destruct pts as [|[x0 y0] pts]; simpl; [discriminate|].
  intros Hp [= <-]. inversion Hp as [|? ? Hy0 Hp']; subst. simpl in Hy0.
  destruct (Z.leb_spec x x0); [exact Hy0|].
  apply interp_from_range; auto. lia.
Qed.

Lemma valid_points_within (lo hi : R) (index : list Z) (v : list cell) :
  within lo hi v -> Forall (fun p => lo <= snd p <= hi) (valid_points index v).
Proof.
  revert v; induction index as [|t index IH]; intros [|[y|] v] H; simpl;
    try constructor.
  - apply H. now left.
  - apply IH. intros z Hz. apply H. now right.
  - apply IH. intros z Hz. apply H. now right.
Qed.

Lemma fill_interp_within (lo hi : R) (pts : list (Z * R)) (v : list cell) :
  forall (index : list Z) (preserve : list bool),
    Forall (fun p => lo <= snd p <= hi) pts ->
    within lo hi v ->
    within lo hi (fill_interp pts index v preserve).
Proof.
  induction v as [|c v IH]; intros index preserve Hp Hv y; simpl; [tauto|].
  intros [E | Hin].
  - destruct c as [x|].
    + apply Hv. left. exact E.
    + destruct (hd true preserve); [discriminate|].
      now apply (np_interp_range lo hi (hd 0%Z index) pts).
  - apply (IH (tl index) (tl preserve) Hp); [|exact Hin].
    intros z Hz. apply Hv. now right.
Qed.

Lemma interpolate_time_within (lo hi : R) (index : list Z) (v : list cell) (limit : nat) :
  within lo hi v -> within lo hi (interpolate_time index v limit).
Proof.
  intros H. unfold interpolate_time.
  apply fill_interp_within; [now apply valid_points_within | exact H].
Qed.

Lemma ffill_aux_within (lo hi : R) (limit : nat) (v : list cell) :
  forall (last : cell) (run : nat),
    within lo hi [last] -> within lo hi v ->
    within lo hi (ffill_aux limit last run v).
Proof.
  induction v as [|[y|] v IH]; intros last run Hl Hv z; simpl; [tauto| |].
  - intros [E | Hin]; [apply Hv; now left|].
    apply (IH (Some y) 0%nat); [| |exact Hin].
    + intros w [E | []]. apply Hv. now left.
    + intros w Hw. apply Hv. now right.
  - intros [E | Hin].
    + destruct (run <? limit)%nat; [|discriminate]. apply Hl. now left.
    + apply (IH last (S run)); [exact Hl | |exact Hin].
      intros w Hw. apply Hv. now right.
Qed.

Lemma ffill_within (lo hi : R) (limit : nat) (v : list cell) :
  within lo hi v -> within lo hi (ffill limit v).
Proof.
  intros H. apply ffill_aux_within; [|exact H]. intros y [E | []]. discriminate.
Qed.

Lemma bfill_within (lo hi : R) (limit : nat) (v : list cell) :
  within lo hi v -> within lo hi (bfill limit v).
Proof.
  intros H y Hy. unfold bfill in Hy. apply in_rev in Hy.
  apply (ffill_within lo hi limit (rev v)); [|exact Hy].
  intros z Hz. apply H. now apply in_rev.
Qed.

Lemma assign_In {A : Type} (m : list bool) :
  forall (l v : list A) (x : A), In x (assign m l v) -> In x l \/ In x v.
Proof.
  induction m as [|b m IH]; intros [|x0 l] v x; simpl; auto.
  destruct b.
  - destruct v as [|y v]; simpl.
    + intros [E | H]; [auto|]. destruct (IH _ _ _ H); auto.
    + intros [E | H]; [auto|]. destruct (IH _ _ _ H); auto.
  - simpl. intros [E | H]; [auto|]. destruct (IH _ _ _ H); auto.
Qed.

Lemma select_sub {A : Type} (m : list bool) (l : list A) (x : A) :
  In x (select m l) -> In x l.
Proof.
  intros H. apply select_In in H as (i & _ & H). eapply nth_error_In; eauto.
Qed.

Lemma assign_within (lo hi : R) (m : list bool) (l v : list cell) :
  within lo hi l -> within lo hi v -> within lo hi (assign m l v).
Proof.
  intros Hl Hv y Hy. apply assign_In in Hy as [Hy | Hy]; auto.
Qed.

Lemma tier1_station_within (lo hi : R) (df : DataFrame) (v : list cell) (s : string) :
  within lo hi v -> within lo hi (tier1_station df v s).
Proof.
  intros H. apply assign_within; [exact H|].
  apply interpolate_time_within. intros y Hy. apply H. eapply select_sub; eauto.
Qed.

Lemma tier2_station_within (lo hi : R) (df : DataFrame) (v : list cell) (s : string) :
  within lo hi v -> within lo hi (tier2_station df v s).
Proof.
  intros H. apply assign_within; [exact H|].
  apply bfill_within, ffill_within. intros y Hy. apply H. eapply select_sub; eauto.
Qed.

Lemma fold_within (lo hi : R) (f : list cell -> string -> list cell) (sts : list string) :
  (forall v s, within lo hi v -> within lo hi (f v s)) ->
  forall v, within lo hi v -> within lo hi (fold_left f sts v).
Proof.
  intros Hf. induction sts as [|s sts IH]; intros v Hv; simpl; auto.
Qed.

(** X11.  Interpolation and forward/backward filling never leave the range of
    the values observed in the column: when every valid entry lies between
    [lo] and [hi], so does every entry after tiers 1 and 2. *)
Theorem fills_within_observed_range
  (df : DataFrame) (col : string) (sts : list string) (st : ColState) (lo hi : R) :
  within lo hi (vals st) ->
  within lo hi (vals (tier2 df col sts (tier1 df sts st))).
Proof.
  intros H.
  assert (H1 : within lo hi (vals (tier1 df sts st))).
  { unfold tier1. simpl. apply fold_within; [|exact H].
    intros v s. apply tier1_station_within. }
  unfold tier2. destruct (str_in col _); [|exact H1].
  simpl. apply fold_within; [|exact H1].
  intros v s. apply tier2_station_within.
Qed.

Lemma fills_within_observed_range_witness :
  within 10 20 sparse_readings /\
  within 10 20
    (vals (tier2 sparse_series "Wind Direction" ["A"]
             (tier1 sparse_series ["A"]
                (mkColState sparse_readings (init_flags sparse_readings))))).
Proof.
  assert (H : within 10 20 sparse_readings).
  { intros y [E | [E | [E | [E | [E | []]]]]]; try discriminate;
      injection E as <-; lra. }
  split; [exact H|].
  exact (fills_within_observed_range sparse_series "Wind Direction" ["A"]
           (mkColState sparse_readings (init_flags sparse_readings)) 10 20 H).
Defined.

(** ** What a forward fill reaches *)

Lemma null_run_shift (c : cell) (v : list cell) (a b : nat) :
  null_run (c :: v) (S a) (S b) <-> null_run v a b.
Proof.
  unfold null_run. split; intros H k Hk.
  - apply (H (S k)). lia.
  - destruct k as [|k]; [lia|]. simpl. apply H. lia.
Qed.

Lemma null_run_head (c : cell) (v : list cell) (b : nat) :
  null_run (c :: v) 0 (S b) <-> c = None /\ null_run v 0 b.
Proof.
  unfold null_run. split.
  - intros H. split.
    + specialize (H 0%nat). simpl in H. assert (E : Some c = Some None) by (apply H; lia).
      congruence.
    + intros k Hk. apply (H (S k)). lia.
  - intros [-> H] [|k] Hk; simpl; [reflexivity|]. apply H. lia.
Qed.

Lemma ffill_aux_nth (limit : nat) (v : list cell) :
  forall (last : cell) (run i : nat) (y : R),
    nth_error v i = Some None ->
    (nth_error (ffill_aux limit last run v) i = Some (Some y) <->
     (exists j, (j < i <= j + limit)%nat /\ nth_error v j = Some (Some y) /\
                null_run v (S j) i) \/
     (null_run v 0 i /\ last = Some y /\ (run + i < limit)%nat)).
Proof.
  induction v as [|c v IH]; intros last run [|i] y Hi; simpl in Hi;
    try discriminate.
  - injection Hi as ->. simpl. split.
    + destruct (Nat.ltb_spec run limit); [|discriminate].
      intros [= ->]. right. split; [|split; [reflexivity | lia]].
      intros k Hk. assert (k = 0%nat) as -> by lia. reflexivity.
    + intros [(j & Hj & _) | (_ & -> & Hr)]; [lia|].
      destruct (Nat.ltb_spec run limit); [reflexivity | lia].
  - destruct c as [x|]; simpl.
    + rewrite (IH (Some x) 0%nat i y Hi). split.
      * intros [(j & Hj & Ej & Hn) | (Hn & E & Hr)].
        -- left. exists (S j). split; [lia|]. split; [exact Ej|].
           now apply null_run_shift.
        -- left. exists 0%nat. split; [lia|]. split; [simpl; now rewrite E|].
           intros k Hk. destruct k as [|k]; [lia|]. simpl. apply Hn. lia.
      * intros [(j & Hj & Ej & Hn) | (Hn & _)].
        -- destruct j as [|j].
           ++ right. simpl in Ej. injection Ej as ->.
              split; [|split; [reflexivity | lia]].
              intros k Hk. apply (Hn (S k)). lia.
           ++ left. exists j. split; [lia|]. split; [exact Ej|].
              now apply null_run_shift in Hn.
        -- apply null_run_head in Hn as [E _]. discriminate.
    + rewrite (IH last (S run) i y Hi). split.
      * intros [(j & Hj & Ej & Hn) | (Hn & E & Hr)].
        -- left. exists (S j). split; [lia|]. split; [exact Ej|].
           now apply null_run_shift.
        -- right. split; [|split; [exact E | lia]].
           apply null_run_head. auto.
      * intros [(j & Hj & Ej & Hn) | (Hn & E & Hr)].
        -- destruct j as [|j]; [discriminate|].
           left. exists j. split; [lia|]. split; [exact Ej|].
           now apply null_run_shift in Hn.
        -- right. apply null_run_head in Hn as [_ Hn].
           split; [exact Hn|]. split; [exact E | lia].
Qed.

(** X12.  The limit of a forward fill counts rows: a missing entry is filled
    with [y] exactly when the nearest valid entry before it holds [y] and
    is at most [limit] rows away, whatever the time between them. *)
Theorem ffill_counts_rows (limit : nat) (v : list cell) (i : nat) (y : R) :
  nth_error v i = Some None ->
  (nth_error (ffill limit v) i = Some (Some y) <->
   exists j, (j < i <= j + limit)%nat /\ nth_error v j = Some (Some y) /\
             null_run v (S j) i).
Proof.
  intros Hi. unfold ffill. rewrite (ffill_aux_nth limit v None 0 i y Hi).
  split; [|auto]. intros [H | (_ & E & _)]; [exact H | discriminate].
Qed.

Lemma ffill_counts_rows_witness :
  nth_error [Some 4; None; None] 2 = Some None /\
  nth_error (ffill 6 [Some 4; None; None]) 2 = Some (Some 4).
Proof.
  assert (H : nth_error [Some 4; None; None] 2 = Some None) by reflexivity.
  split; [exact H|].
  apply (proj2 (ffill_counts_rows 6 [Some 4; None; None] 2 4 H)).
  exists 0%nat. split; [lia|]. split; [reflexivity|].
  intros k Hk. assert (k = 1 \/ k = 2)%nat as [-> | ->] by lia; reflexivity.
Defined.

(** ** The flag column the engine writes *)

Lemma provenance_flags (v : list cell) (st : ColState) :
  provenance_ok v st ->
  List.length (flags st) = List.length v /\
  Forall (fun z => (0 <= z <= 3)%Z) (flags st) /\
  forall i x, nth_error v i = Some (Some x) -> nth_error (flags st) i = Some 0%Z.
Proof.
  intros (Hl1 & Hl2 & H). split; [exact Hl2|]. split.
  - rewrite Forall_forall. intros z Hz.
    apply In_nth_error in Hz as (i & Hi). specialize (H i).
    assert (Hlt : (i < List.length v)%nat)
      by (rewrite <- Hl2; apply nth_error_Some; congruence).
    destruct (nth_error v i) as [[x|]|] eqn:E.
    + destruct H as [_ H]. rewrite H in Hi. injection Hi as <-. lia.
    + destruct H as (f & Hf & Hr). rewrite Hf in Hi. injection Hi as <-. lia.
    + apply nth_error_None in E. lia.
  - intros i x Hi. specialize (H i). rewrite Hi in H. tauto.
Qed.

Lemma bounds_check_flags (col : string) (st : ColState) :
  flags (bounds_check col st) = flags st \/
  exists m, flags (bounds_check col st) = assign_const m (flags st) 0%Z.
Proof.
  unfold bounds_check.
  destruct (String.eqb col "Temperature").
  { cbv zeta. destruct (0 <? count_true _)%nat; now left. }
  destruct (String.eqb col "Rh").
  { cbv zeta. destruct (0 <? count_true _)%nat; now left. }
  destruct (String.eqb col "Dew"); [|now left].
  cbv zeta. destruct (0 <? count_true _)%nat; [right; eexists; reflexivity | now left].
Qed.

Lemma assign_const_Forall {A : Type} (P : A -> Prop) (m : list bool) :
  forall (l : list A) (y : A), P y -> Forall P l -> Forall P (assign_const m l y).
Proof.
  induction m as [|b m IH]; intros [|x l] y Hy Hl; simpl; auto.
  inversion Hl; subst. constructor; [destruct b; assumption | auto].
Qed.

(** X13.  For a variable with a missing value the engine writes a flag column
    with one flag per row, every flag 0, 1, 2 or 3, and flag 0 on every
    row whose value was present in the input. *)
Theorem imputation_flag_column (df : DataFrame) (col : string) (v : list cell) :
  get_col (columns df) col = Some (Float64 v) ->
  In None v ->
  exists fl,
    get_col (columns (impute_column df col)) (flag_col col) = Some (Int64 fl) /\
    List.length fl = List.length v /\
    Forall (fun z => (0 <= z <= 3)%Z) fl /\
    forall i x, nth_error v i = Some (Some x) -> nth_error fl i = Some 0%Z.
Proof.
  intros Hc Hn. unfold impute_column. rewrite Hc.
  apply has_null_count, Nat.eqb_neq in Hn. rewrite Hn. cbv zeta.
  set (st := after_tier3 df col v).
  exists (flags (bounds_check col st)). split.
  - unfold with_col. simpl.
    rewrite get_set_col_other by apply flag_col_differs.
    apply get_set_col_same.
  - assert (H : provenance_ok v st).
    { unfold st, after_tier3. cbv zeta.
      apply provenance_tier3, provenance_tier2, provenance_tier1, provenance_init. }
    apply provenance_flags in H as (Hl & Hr & Hz).
    destruct (bounds_check_flags col st) as [-> | (m & ->)]; [auto|].
    rewrite assign_const_length. split; [exact Hl|]. split.
    + apply assign_const_Forall; [lia | exact Hr].
    + intros i x Hi. specialize (Hz i x Hi).
      destruct (assign_const_nth m (flags st) 0%Z 0%Z i Hz) as [E | E]; exact E.
Qed.

Lemma imputation_flag_column_witness :
  get_col (columns sparse_series) "Wind Direction" = Some (Float64 sparse_readings) /\
  In None sparse_readings /\
  exists fl,
    get_col (columns (impute_column sparse_series "Wind Direction"))
      (flag_col "Wind Direction") = Some (Int64 fl) /\
    List.length fl = List.length sparse_readings.
Proof.
  assert (H1 : get_col (columns sparse_series) "Wind Direction"
               = Some (Float64 sparse_readings)) by reflexivity.
  assert (H2 : In None sparse_readings) by (right; left; reflexivity).
  split; [exact H1|]. split; [exact H2|].
  destruct (imputation_flag_column sparse_series "Wind Direction" sparse_readings H1 H2)
    as (fl & E & Hl & _).
  exists fl. split; [exact E | exact Hl].
Defined.

(** ** Interpolation at the ends of a series *)

Lemma last_any_default {A : Type} (l : list A) (a d d' : A) :
  last (a :: l) d = last (a :: l) d'.
Proof.
  revert a; induction l as [|b l IH]; intros a; [reflexivity|].
  change (last (b :: l) d = last (b :: l) d'). apply IH.
Qed.

Lemma interp_from_beyond (x : Z) (pts : list (Z * R)) :
  forall (x0 : Z) (y0 : R),
    (forall p, In p pts -> (fst p < x)%Z) ->
    interp_from x x0 y0 pts = snd (last pts (x0, y0)).
Proof.
  induction pts as [|[x1 y1] pts IH]; intros x0 y0 H; [reflexivity|].
  assert (H1 : (x1 < x)%Z) by (apply (H (x1, y1)); now left).
  cbn [interp_from]. destruct (Z.ltb_spec x x1); [lia|].
  rewrite IH by (intros p Hp; apply H; now right).
  destruct pts as [|p pts]; [reflexivity|].
  change (last ((x1, y1) :: p :: pts) (x0, y0)) with (last (p :: pts) (x0, y0)).
  f_equal. apply last_any_default.
Qed.

(** X14.  With [limit_direction='both'] a gap at the start or at the end of a
    station's series is not interpolated but filled with the nearest
    reading: a missing row within the limit whose time is not after the
    first valid reading gets that reading, and one whose time is after
    every valid reading gets the last one. *)
Theorem interpolation_at_edges
  (index : list Z) (v : list cell) (limit i : nat) (x0 : Z) (y0 : R)
  (rest : list (Z * R)) :
  valid_points index v = (x0, y0) :: rest ->
  nth_error v i = Some None ->
  near_valid v limit i = true ->
  ((nth i index 0 <= x0)%Z ->
   nth_error (interpolate_time index v limit) i = Some (Some y0)) /\
  ((forall p, In p ((x0, y0) :: rest) -> (fst p < nth i index 0)%Z) ->
   nth_error (interpolate_time index v limit) i
   = Some (Some (snd (last rest (x0, y0))))).
Proof.
  intros Hp Hi Hn.
  rewrite (interpolate_time_nth index v limit i None Hi), Hn, Hp.
  split; intros H; simpl.
  - apply Z.leb_le in H. now rewrite H.
  - assert (H0 : (x0 < nth i index 0)%Z) by (apply (H (x0, y0)); now left).
    destruct (Z.leb_spec (nth i index 0%Z) x0); [lia|].
    rewrite interp_from_beyond by (intros p Hp'; apply H; now right).
    reflexivity.
Qed.

Lemma interpolation_at_edges_witness :
  valid_points [0; 600; 1200]%Z [None; Some 5; None] = [(600%Z, 5)] /\
  nth_error [None; Some 5; None] 0 = Some None /\
  near_valid [None; Some 5; None] 3 0 = true /\
  (nth 0 [0; 600; 1200] 0 <= 600)%Z /\
  nth_error (interpolate_time [0; 600; 1200]%Z [None; Some 5; None] 3) 0
  = Some (Some 5).
Proof.
  assert (H1 : valid_points [0; 600; 1200]%Z [None; Some 5; None] = [(600%Z, 5)])
    by reflexivity.
  assert (H2 : nth_error [None; Some 5; None] 0 = Some None) by reflexivity.
  assert (H3 : near_valid [None; Some 5; None] 3 0 = true) by reflexivity.
  assert (H4 : (nth 0 [0; 600; 1200] 0 <= 600)%Z) by (simpl; lia).
  split; [exact H1|]. split; [exact H2|]. split; [exact H3|]. split; [exact H4|].
  exact (proj1 (interpolation_at_edges [0; 600; 1200]%Z [None; Some 5; None] 3 0
                  600%Z 5 [] H1 H2 H3) H4).
Defined.

(** ** The rows of the aggregated tables *)

Lemma key_le_antisym (a b : string * Z) :
  key_le a b = true -> key_le b a = true -> a = b.
Proof.
  unfold key_le. rewrite (String.compare_antisym (fst a) (fst b)).
  destruct (String.compare (fst b) (fst a)) eqn:E; simpl; try discriminate.
  apply String.compare_eq_iff in E. intros H1 H2.
  apply Z.leb_le in H1, H2. destruct a, b; simpl in *. f_equal; [auto | lia].
Qed.

Lemma insert_key_sorted (k : string * Z) (l : list (string * Z)) :
  StronglySorted key_lt l -> StronglySorted key_lt (insert_key k l).
Proof.
  induction l as [|k' l IH]; intros Hs; simpl.
  - constructor; constructor.
  - inversion Hs as [|? ? Hs' Hk']; subst.
    destruct (key_eqb k k') eqn:E; [exact Hs|].
    assert (Hne : k <> k') by (intros ->; now rewrite (proj2 (key_eqb_eq k' k') eq_refl) in E).
    destruct (key_le k k') eqn:Ele.
    + constructor; [exact Hs|]. constructor; [split; assumption|].
      rewrite Forall_forall in *. intros x Hx. destruct (Hk' x Hx) as [H1 H2].
      split; [eapply key_le_trans; eauto|].
      intros ->. apply Hne. now apply key_le_antisym.
    + constructor; [now apply IH|].
      rewrite Forall_forall in *. intros x Hx.
      apply insert_key_In in Hx as [-> | Hx]; [|now apply Hk'].
      split; [|congruence].
      destruct (key_le_total k k'); congruence.
Qed.

Lemma group_keys_sorted (keys : list (string * Z)) :
  StronglySorted key_lt (group_keys keys).
Proof.
  induction keys as [|k keys IH]; simpl; [constructor|].
  now apply insert_key_sorted.
Qed.

Lemma sorted_NoDup (l : list (string * Z)) : StronglySorted key_lt l -> NoDup l.
Proof.
  induction 1 as [|k l Hs IH Hk]; constructor; [|exact IH].
  intros Hin. rewrite Forall_forall in Hk. destruct (Hk k Hin) as [_ Hne].
  now apply Hne.
Qed.

Lemma group_values_nonempty {A : Type} (keys : list (string * Z)) (k : string * Z)
  (v : list A) :
  (List.length keys <= List.length v)%nat ->
  (group_values keys k v <> [] <-> In k keys).
Proof.
  unfold group_values. revert v.
  induction keys as [|k' keys IH]; intros [|x v] Hl; simpl in *; try lia.
  - split; [congruence | tauto].
  - split; [congruence | tauto].
  - destruct (key_eqb k k') eqn:E.
    + apply key_eqb_eq in E. subst. split; [auto | discriminate].
    + rewrite IH by lia. split; [auto|]. intros [-> | H]; [|exact H].
      now rewrite (proj2 (key_eqb_eq k k) eq_refl) in E.
Qed.

(** X15.  The hourly table has one row for every (station, hour) bucket that
    holds a record, and no other row; the rows are ordered by station and
    then by hour. *)
Theorem hourly_rows_are_buckets (df out : DataFrame) :
  snd (create_hourly_aggregates df) = Returned out ->
  NoDup (row_keys out) /\
  StronglySorted key_lt (row_keys out) /\
  forall k, In k (row_keys out) <-> bucket_times df k <> [].
Proof.
  intros H. rewrite (hourly_returned_keys df out H).
  split; [apply sorted_NoDup, group_keys_sorted|].
  split; [apply group_keys_sorted|].
  intros k. rewrite group_keys_In. unfold bucket_times. cbv zeta.
  symmetry. apply group_values_nonempty.
  unfold hourly_keys. rewrite length_combine, length_map. lia.
Qed.

Lemma hourly_rows_are_buckets_witness :
  snd (create_hourly_aggregates half_hours)
  = Returned (mkDataFrame [36000%Z] ["A"] [("Temperature", Float64 [Some 11])]) /\
  NoDup [("A", 36000%Z)] /\
  (bucket_times half_hours ("A", 36000%Z) <> []).
Proof.
  pose proof hourly_half_hours as H.
  split; [exact H|].
  pose proof (hourly_rows_are_buckets half_hours _ H) as (H1 & _ & H3).
  split; [exact H1|].
  apply (proj1 (H3 ("A", 36000%Z))). now left.
Defined.

Lemma NoDup_map_injective {A B : Type} (f : A -> B) (l : list A) :
  (forall a b, f a = f b -> a = b) -> NoDup l -> NoDup (map f l).
Proof.
  intros Hinj. induction 1 as [|x l Hx _ IH]; simpl; constructor; [|exact IH].
  intros Hin. apply in_map_iff in Hin as (y & E & Hy).
  apply Hinj in E. subst y. contradiction.
Qed.

Lemma daily_returned_keys (df out : DataFrame) :
  snd (create_daily_aggregates df) = Returned out ->
  row_keys out
  = map (fun k => (fst k, (snd k * 86400)%Z)) (group_keys (station_days df)).
Proof.
  unfold create_daily_aggregates. cbv zeta. simpl snd.
  destruct (daily_agg_list _); [discriminate|].
  intros [= <-]. unfold row_keys. simpl.
  change (daily_keys (drop_flag_cols (daily_labelled df))) with (station_days df).
  generalize (group_keys (station_days df)) as g.
  induction g as [|[s d] g IH]; simpl; [reflexivity | now rewrite IH].
Qed.

(** X16.  The daily table has one row for every station and UTC day on which
    the station has a record, stamped with the midnight that starts the
    day, whatever the time of the records. *)
Theorem daily_rows_are_days (df out : DataFrame) :
  snd (create_daily_aggregates df) = Returned out ->
  NoDup (row_keys out) /\
  forall s d, In (s, (d * 86400)%Z) (row_keys out) <->
              exists t, In (s, t) (row_keys df) /\ d = (t / 86400)%Z.
Proof.
  intros H. rewrite (daily_returned_keys df out H).
  assert (Hinj : forall a b : string * Z,
            (fst a, (snd a * 86400)%Z) = (fst b, (snd b * 86400)%Z) -> a = b).
  { intros [s1 d1] [s2 d2]; simpl. intros [= -> E]. f_equal. lia. }
  split.
  - apply NoDup_map_injective; [exact Hinj|].
    apply sorted_NoDup, group_keys_sorted.
  - intros s d. rewrite in_map_iff. split.
    + intros ([s' d'] & [= -> E] & Hin). assert (d' = d) as -> by lia.
      apply (proj1 (group_keys_In _ _)) in Hin. unfold station_days in Hin.
      apply In_nth_error in Hin as (i & Hi).
      apply combine_nth_error in Hi as [Hs Hd].
      rewrite nth_error_map in Hd.
      destruct (nth_error (Datetime_UTC df) i) as [t|] eqn:Et; [|discriminate].
      injection Hd as <-. exists t. split; [|reflexivity].
      unfold row_keys. apply (nth_error_In _ i). apply combine_nth_error. auto.
    + intros (t & Hin & ->). exists (s, (t / 86400)%Z). split; [reflexivity|].
      apply (proj2 (group_keys_In _ _)). unfold station_days, row_keys in *.
      apply In_nth_error in Hin as (i & Hi).
      apply combine_nth_error in Hi as [Hs Ht].
      apply (nth_error_In _ i). apply combine_nth_error.
      split; [exact Hs|]. now rewrite nth_error_map, Ht.
Qed.

(** The three readings of [half_hours] fall on one day. *)
Example daily_half_hours :
  snd (create_daily_aggregates half_hours)
  = Returned (mkDataFrame [0%Z] ["A"]
                [("Temperature_min", Float64 [Some 10]);
                 ("Temperature_max", Float64 [Some 14]);
                 ("Temperature_mean", Float64 [Some 12])]).
Proof.
  unfold create_daily_aggregates. cbv zeta. simpl snd.
  change (daily_agg_list _)
    with [("Temperature_min", (AggMin, Float64 [Some 10; Some 12; Some 14]));
          ("Temperature_max", (AggMax, Float64 [Some 10; Some 12; Some 14]));
          ("Temperature_mean", (AggMean, Float64 [Some 10; Some 12; Some 14]))].
  cbv iota.
  change (daily_keys _) with [("A", 0%Z); ("A", 0%Z); ("A", 0%Z)].
  change (group_keys _) with [("A", 0%Z)].
  simpl map. unfold aggregate_col. simpl map.
  change (group_values _ _ _) with [Some 10; Some 12; Some 14].
  rewrite (Rmin_left 10 12), (Rmin_left 10 14) by lra.
  rewrite (Rmax_right 10 12), (Rmax_right 12 14) by lra.
  replace (10 * 100) with (IZR 1000) by lra.
  replace (14 * 100) with (IZR 1400) by lra.
  replace (Rmean [10; 12; 14] * 100) with (IZR 1200)
    by (unfold Rmean, Rsum; simpl; lra).
  rewrite !rint_IZR.
  replace (1000 / 100) with 10 by lra.
  replace (1400 / 100) with 14 by lra.
  replace (1200 / 100) with 12 by lra.
  reflexivity.
Qed.

Lemma daily_rows_are_days_witness :
  snd (create_daily_aggregates half_hours)
  = Returned (mkDataFrame [0%Z] ["A"]
                [("Temperature_min", Float64 [Some 10]);
                 ("Temperature_max", Float64 [Some 14]);
                 ("Temperature_mean", Float64 [Some 12])]) /\
  NoDup [("A", 0%Z)] /\
  exists t, In ("A", t) (row_keys half_hours) /\ 0%Z = (t / 86400)%Z.
Proof.
  pose proof daily_half_hours as H.
  split; [exact H|].
  pose proof (daily_rows_are_days half_hours _ H) as (H1 & H2).
  split; [exact H1|].
  apply (proj1 (H2 "A" 0%Z)). now left.
Defined.

(** ** The daily aggregator after the hourly one *)

Lemma set_col_In_same (cols : list (string * Column)) (name : string) (c : Column) :
  In (name, c) (set_col cols name c).
Proof.
  induction cols as [|[n c0] cols IH]; simpl; [now left|].
  destruct (String.eqb n name) eqn:E.
  - apply String.eqb_eq in E. subst. now left.
  - now right.
Qed.

Lemma daily_agg_list_In (dfa : DataFrame) (col name : string) (c : Column) (f : AggFn) :
  In (col, c) (columns dfa) ->
  str_in col ["station"; "date_label"; "Datetime_UTC"] = false ->
  is_numeric_dtype c = true ->
  In (name, f) (daily_aggs col) ->
  In (name, (f, c)) (daily_agg_list dfa).
Proof.
  intros Hin Hname Hnum Hagg. unfold daily_agg_list.
  apply in_flat_map. exists (col, c). split.
  - apply filter_In. split; [exact Hin|]. cbn [fst snd]. now rewrite Hname, Hnum.
  - apply in_map_iff. exists (name, f). auto.
Qed.

(** X18.  In the pipeline the daily aggregator is given the table the hourly
    aggregator has written its [minutes_from_hour] column into: it always
    returns a table, and that table always has the three columns
    [minutes_from_hour_min], [minutes_from_hour_max] and
    [minutes_from_hour_mean], daily statistics of a helper column. *)
Theorem daily_after_hourly_minutes (df : DataFrame) :
  exists out,
    snd (create_daily_aggregates (fst (create_hourly_aggregates df))) = Returned out /\
    In "minutes_from_hour_min" (map fst (columns out)) /\
    In "minutes_from_hour_max" (map fst (columns out)) /\
    In "minutes_from_hour_mean" (map fst (columns out)).
Proof.
  change (fst (create_hourly_aggregates df)) with (hourly_labelled df).
  set (hl := hourly_labelled df).
  set (c := Float64 (map (fun t => Some (minutes_from_hour t)) (Datetime_UTC df))).
  set (dfa := drop_flag_cols (daily_labelled hl)).
  assert (Hin : In ("minutes_from_hour", c) (columns dfa)).
  { unfold dfa, drop_flag_cols. simpl columns. apply filter_In.
    split; [|reflexivity].
    apply set_col_In_other; [discriminate|].
    apply In_coerced; [|reflexivity].
    unfold hl, hourly_labelled. simpl columns. apply set_col_In_same. }
  assert (Hagg : forall name f,
            In (name, f) (daily_aggs "minutes_from_hour") ->
            In (name, (f, c)) (daily_agg_list dfa)).
  { intros name f. now apply (daily_agg_list_In dfa "minutes_from_hour"). }
  assert (Hl : daily_aggs "minutes_from_hour"
               = [("minutes_from_hour_min", AggMin);
                  ("minutes_from_hour_max", AggMax);
                  ("minutes_from_hour_mean", AggMean)]) by reflexivity.
  rewrite Hl in Hagg.
  unfold create_daily_aggregates. cbv zeta. simpl snd. fold dfa.
  destruct (daily_agg_list dfa) as [|e l] eqn:El.
  { exfalso. apply (Hagg "minutes_from_hour_min" AggMin). now left. }
  eexists. split; [reflexivity|]. cbn [columns]. rewrite !map_map. cbn [fst].
  assert (Hn : forall name f,
            In (name, f) [("minutes_from_hour_min", AggMin);
                          ("minutes_from_hour_max", AggMax);
                          ("minutes_from_hour_mean", AggMean)] ->
            In name (map (fun e0 : string * (AggFn * Column) => fst e0) (e :: l))).
  { intros name f H. apply in_map_iff. exists (name, (f, c)).
    split; [reflexivity | now apply Hagg]. }
  split; [|split].
  - apply (Hn _ AggMin). now left.
  - apply (Hn _ AggMax). right. now left.
  - apply (Hn _ AggMean). right. right. now left.
Qed.

(** ** The columns of the hourly table *)

Lemma filter_set_col (P : string * Column -> bool) (cols : list (string * Column))
  (name : string) (c : Column) :
  (forall c', P (name, c') = false) ->
  filter P (set_col cols name c) = filter P cols.
Proof.
  intros HP. induction cols as [|[n c0] cols IH]; simpl.
  - now rewrite HP.
  - destruct (String.eqb n name) eqn:E.
    + apply String.eqb_eq in E. subst n. simpl. now rewrite !HP.
    + simpl. now rewrite IH.
Qed.

Lemma is_numeric_select_col (m : list bool) (c : Column) :
  is_numeric_dtype (select_col m c) = is_numeric_dtype c.
Proof. now destruct c. Qed.

Lemma hourly_agg_names (m : list bool) (cols : list (string * Column)) :
  map fst
    (filter (fun nc =>
               negb (str_in (fst nc)
                       ["station"; "hour_label"; "Datetime_UTC"; "minutes_from_hour"])
               && is_numeric_dtype (snd nc))
       (filter (fun nc => negb (endswith (fst nc) "_imputed"))
          (map (fun nc => (fst nc, select_col m (snd nc))) cols)))
  = map fst
      (filter (fun nc =>
                 is_numeric_dtype (snd nc)
                 && negb (endswith (fst nc) "_imputed")
                 && negb (str_in (fst nc)
                            ["station"; "hour_label"; "Datetime_UTC";
                             "minutes_from_hour"])) cols).
Proof.
  induction cols as [|[n c] cols IH]; [reflexivity|].
  cbn [map filter fst snd].
  destruct (endswith n "_imputed"); cbn [negb andb filter fst snd].
  - rewrite andb_false_r. exact IH.
  - rewrite is_numeric_select_col, andb_true_r.
    rewrite (andb_comm (negb _) (is_numeric_dtype c)).
    destruct (is_numeric_dtype c && negb _); cbn [map fst]; now rewrite IH.
Qed.

Lemma coerced_numeric (n : string) (c : Column) :
  str_in n ["station"; "hour_label"; "Datetime_UTC"; "minutes_from_hour"] = false ->
  is_numeric_dtype (coerce n c) = is_numeric_dtype c || is_object_dtype c.
Proof.
  intros H. destruct c as [v|v|v|v]; try reflexivity.
  unfold coerce.
  assert (E : str_in n ["station"; "Datetime_UTC"] = false).
  { apply str_in_cons_false in H as [N1 H].
    apply str_in_cons_false in H as [_ H].
    apply str_in_cons_false in H as [N3 _].
    unfold str_in. simpl. apply String.eqb_neq in N1, N3.
    rewrite String.eqb_sym in N1. rewrite String.eqb_sym in N3.
    rewrite String.eqb_sym, N1. rewrite String.eqb_sym, N3. reflexivity. }
  rewrite E. now destruct v.
Qed.

Lemma hourly_variables_coerced (cols : list (string * Column)) :
  map fst
    (filter (fun nc =>
               is_numeric_dtype (snd nc)
               && negb (endswith (fst nc) "_imputed")
               && negb (str_in (fst nc)
                          ["station"; "hour_label"; "Datetime_UTC";
                           "minutes_from_hour"]))
       (map (fun nc => (fst nc, coerce (fst nc) (snd nc))) cols))
  = map fst (filter hourly_variable cols).
Proof.
  induction cols as [|[n c] cols IH]; [reflexivity|].
  cbn [map filter fst snd]. unfold hourly_variable at 1. cbn [fst snd].
  destruct (str_in n ["station"; "hour_label"; "Datetime_UTC"; "minutes_from_hour"])
    eqn:E; cbn [negb].
  - rewrite !andb_false_r. exact IH.
  - rewrite (coerced_numeric n c E).
    destruct ((is_numeric_dtype c || is_object_dtype c)
              && negb (endswith n "_imputed") && true);
      cbn [map fst]; now rewrite IH.
Qed.

(** X19.  The hourly table has one column for every numeric column of the
    input and for every column of python objects, which is coerced to
    numbers before the aggregation, in the input's order: flag columns,
    label columns and datetime columns are left out. *)
Theorem hourly_output_columns (df out : DataFrame) :
  snd (create_hourly_aggregates df) = Returned out ->
  map fst (columns out) = map fst (filter hourly_variable (columns df)).
Proof.
  unfold create_hourly_aggregates. cbv zeta. simpl snd.
  destruct (hourly_agg_dict (hourly_data df)) as [|e l] eqn:E; [discriminate|].
  intros Hret.
  assert (Hc : columns out
               = map (fun e0 : string * (AggFn * Column) =>
                        (fst e0,
                         aggregate_col (hourly_keys (hourly_data df))
                           (group_keys (hourly_keys (hourly_data df)))
                           (fst (snd e0)) (snd (snd e0)))) (e :: l))
    by (injection Hret as <-; reflexivity).
  rewrite Hc, map_map. cbn [fst].
  rewrite <- E. unfold hourly_agg_dict. rewrite map_map. cbn [fst].
  change (map (fun x : string * Column => fst x)) with (@map (string * Column) _ fst).
  unfold hourly_data, drop_flag_cols, filter_rows. cbn [columns].
  rewrite hourly_agg_names.
  unfold hourly_labelled, with_col. cbn [columns].
  rewrite !filter_set_col;
    [|intros c'; cbn [fst snd]; apply andb_false_r
     |intros c'; cbn [fst snd]; apply andb_false_r].
  unfold coerce_objects. cbn [columns]. apply hourly_variables_coerced.
Qed.

Lemma hourly_output_columns_witness :
  snd (create_hourly_aggregates dated_half_hours)
  = Returned (mkDataFrame [36000%Z] ["A"]
                [("Temperature", Float64 [Some 11]); ("date_label", Float64 [None])]) /\
  ["Temperature"; "date_label"]
  = map fst (filter hourly_variable (columns dated_half_hours)).
Proof.
  pose proof hourly_dated_half_hours as H.
  split; [exact H|].
  exact (hourly_output_columns dated_half_hours _ H).
Defined.

(** ** The circular mean of equal directions *)

Lemma Rsum_constant (f : R -> R) (a : R) (l : list R) :
  (forall x, In x l -> x = a) ->
  Rsum (map f l) = INR (List.length l) * f a.
Proof.
  induction l as [|x l IH]; intros H.
  - unfold Rsum. simpl. lra.
  - change (Rsum (map f (x :: l))) with (f x + Rsum (map f l)).
    change (List.length (x :: l)) with (S (List.length l)). rewrite S_INR.
    rewrite IH by (intros y Hy; apply H; now right).
    rewrite (H x) by now left. lra.
Qed.

Lemma Rmean_constant (f : R -> R) (a : R) (l : list R) :
  l <> [] -> (forall x, In x l -> x = a) -> Rmean (map f l) = f a.
Proof.
  intros Hne H. unfold Rmean. rewrite length_map, (Rsum_constant f a l H).
  assert (Hn : 0 < INR (List.length l)).
  { destruct l; [congruence|]. apply lt_0_INR. simpl. lia. }
  field. lra.
Qed.

Lemma points_to_itself (alpha : R) : points_to alpha (cos alpha) (sin alpha).
Proof.
  unfold points_to. split; [ring|].
  pose proof (sin2_cos2_one alpha). nra.
Qed.

(** X20.  When all the valid directions of a series are the same angle [a] of
    [[0, 360)], their circular mean is [a]: a bucket with one wind
    direction reports that direction. *)
Theorem circular_mean_of_equal_angles (angles : list cell) (a : R) :
  0 <= a < 360 ->
  dropna angles <> [] ->
  (forall x, In x (dropna angles) -> x = a) ->
  circular_mean_degrees angles = Some a.
Proof.
  intros Ha Hne Hall.
  destruct (circular_mean_range angles Hne) as (m & Hm & Hr).
  rewrite Hm. f_equal.
  rewrite circular_mean_unfold in Hm by assumption. cbv zeta in Hm.
  assert (Hres : resultant angles = (cos (np_deg2rad a), sin (np_deg2rad a))).
  { unfold resultant. cbv zeta. rewrite !map_map.
    rewrite (Rmean_constant (fun x => cos (np_deg2rad x)) a) by assumption.
    now rewrite (Rmean_constant (fun x => sin (np_deg2rad x)) a) by assumption. }
  rewrite Hres in Hm. simpl fst in Hm. simpl snd in Hm.
  set (alpha := np_deg2rad a) in *.
  assert (Hnz : (cos alpha, sin alpha) <> (0, 0)).
  { intros [= Hc Hs]. pose proof (sin2_cos2_one alpha). nra. }
  pose proof (arctan2_points_to _ _ Hnz) as Hp.
  destruct (points_to_unique _ _ _ _ Hp (points_to_itself alpha)) as (n & Hn).
  destruct (normalised_degrees (np_rad2deg (np_arctan2 (sin alpha) (cos alpha))))
    as (e & He).
  rewrite He in Hm. injection Hm as Hm.
  pose proof PI_RGT_0 as Hpi.
  assert (Hdeg : np_rad2deg (np_arctan2 (sin alpha) (cos alpha))
                 = a + 360 * IZR n).
  { rewrite Hn. unfold np_rad2deg, alpha, np_deg2rad. field. lra. }
  rewrite Hdeg in Hm.
  assert (Hk : m - a = 360 * IZR (n + e)) by (rewrite plus_IZR; lra).
  assert (Hz : (n + e = 0)%Z).
  { assert (H1 : IZR (n + e) < IZR 1) by lra.
    assert (H2 : IZR (-1) < IZR (n + e)) by lra.
    apply lt_IZR in H1, H2. lia. }
  rewrite Hz in Hk. lra.
Qed.

Lemma circular_mean_of_equal_angles_witness :
  0 <= 90 < 360 /\
  dropna [Some 90; None; Some 90] <> [] /\
  circular_mean_degrees [Some 90; None; Some 90] = Some 90.
Proof.
  assert (H1 : 0 <= 90 < 360) by lra.
  assert (H2 : dropna [Some 90; None; Some 90] <> []) by discriminate.
  assert (H3 : forall x, In x (dropna [Some 90; None; Some 90]) -> x = 90).
  { intros x [E | [E | []]]; now symmetry. }
  split; [exact H1|]. split; [exact H2|].
  exact (circular_mean_of_equal_angles [Some 90; None; Some 90] 90 H1 H2 H3).
Defined.

(** ** The size and the counts of the quality report *)

Lemma insert_string_length (s : string) (l : list string) :
  List.length (insert_string s l) = S (List.length l).
Proof.
  induction l as [|x l IH]; simpl; [reflexivity|].
  destruct (String.compare s x); simpl; auto.
Qed.

Lemma sorted_length (l : list string) : List.length (sorted l) = List.length l.
Proof.
  induction l as [|x l IH]; simpl; [reflexivity|].
  unfold sorted in *. now rewrite insert_string_length, IH.
Qed.

Lemma flat_map_constant_length {A B : Type} (f : A -> list B) (n : nat) (l : list A) :
  (forall x, In x l -> List.length (f x) = n) ->
  List.length (flat_map f l) = (List.length l * n)%nat.
Proof.
  induction l as [|x l IH]; intros H; simpl; [reflexivity|].
  rewrite length_app, IH, H; auto. now left.
  intros y Hy. apply H. now right.
Qed.

Lemma filter_rows_names (df : DataFrame) (m : list bool) :
  map fst (columns (filter_rows df m)) = map fst (columns df).
Proof. unfold filter_rows. simpl. now rewrite map_map. Qed.

Lemma report_of_length (df : DataFrame) :
  List.length (report_of df)
  = ((List.length (unique (station df)) + 1) * List.length (data_columns df))%nat.
Proof.
  unfold report_of. rewrite length_app.
  rewrite (flat_map_constant_length _ (List.length (data_columns df))).
  - rewrite sorted_length, rows_of_length by apply data_columns_present.
    lia.
  - intros s _. apply rows_of_length. intros col Hcol.
    rewrite filter_rows_names. now apply data_columns_present.
Qed.

(** X21.  The quality report, when it is returned, has one row for every
    station and data column and one more row per data column for the
    whole table.  It is returned when every data column is numeric.  It is
    not returned when a data column holds timestamps or python dates (as
    [hour_label] and [date_label] do) and is not empty: the statistics of
    such a column raise TypeError. *)
Theorem quality_report_size (df : DataFrame) :
  (forall rows, create_data_quality_csv df = Returned rows ->
     List.length rows
     = ((List.length (unique (station df)) + 1)
        * List.length (data_columns df))%nat) /\
  ((forall col c, In col (data_columns df) -> get_col (columns df) col = Some c ->
                  is_numeric_dtype c = true) ->
   exists rows, create_data_quality_csv df = Returned rows) /\
  (forall col c, In col (data_columns df) -> get_col (columns df) col = Some c ->
     is_numeric_dtype c = false -> (0 < column_length c)%nat ->
     create_data_quality_csv df = Raised "TypeError").
Proof.
  split; [|split].
  - intros rows H. apply report_is in H. subst rows. apply report_of_length.
  - intros H. exists (report_of df). apply report_returned.
    intros col c Hcol E. left. eauto.
  - intros col c Hcol E Hn Hl.
    apply (report_raises df col c Hcol E). now apply statistics_of_dates.
Qed.

Lemma quality_report_size_witness :
  (forall col c, In col (data_columns two_sites) ->
     get_col (columns two_sites) col = Some c -> is_numeric_dtype c = true) /\
  (exists rows, create_data_quality_csv two_sites = Returned rows /\
                List.length rows = 3%nat) /\
  In "date_label" (data_columns dated_half_hours) /\
  get_col (columns dated_half_hours) "date_label" = Some (ObjectDate [0; 0; 0]%Z) /\
  is_numeric_dtype (ObjectDate [0; 0; 0]%Z) = false /\
  (0 < column_length (ObjectDate [0; 0; 0]%Z))%nat /\
  create_data_quality_csv dated_half_hours = Raised "TypeError".
Proof.
  assert (H1 : forall col c, In col (data_columns two_sites) ->
            get_col (columns two_sites) col = Some c -> is_numeric_dtype c = true).
  { intros col c [<- | []] E. injection E as <-. reflexivity. }
  assert (H2 : In "date_label" (data_columns dated_half_hours))
    by (right; left; reflexivity).
  assert (H3 : get_col (columns dated_half_hours) "date_label"
               = Some (ObjectDate [0; 0; 0]%Z)) by reflexivity.
  assert (H4 : is_numeric_dtype (ObjectDate [0; 0; 0]%Z) = false) by reflexivity.
  assert (H5 : (0 < column_length (ObjectDate [0; 0; 0]%Z))%nat) by (simpl; lia).
  split; [exact H1|]. split.
  - destruct (proj1 (proj2 (quality_report_size two_sites)) H1) as (rows & E).
    exists rows. split; [exact E|].
    exact (proj1 (quality_report_size two_sites) rows E).
  - split; [exact H2|]. split; [exact H3|]. split; [exact H4|]. split; [exact H5|].
    exact (proj2 (proj2 (quality_report_size dated_half_hours)) _ _ H2 H3 H4 H5).
Defined.

Lemma count_flags (fl : list Z) :
  Forall (fun z => (0 <= z <= 3)%Z) fl ->
  (count_true (map (Z.eqb 0) fl) + count_true (map (Z.eqb 1) fl)
   + count_true (map (Z.eqb 2) fl) + count_true (map (Z.eqb 3) fl))%nat
  = List.length fl.
Proof.
  induction 1 as [|z fl Hz _ IH]; [reflexivity|].
  assert (Hc : forall k, count_true (map (Z.eqb k) (z :: fl))
                         = ((if Z.eqb k z then 1 else 0)
                            + count_true (map (Z.eqb k) fl))%nat).
  { intros k. unfold count_true. simpl. now destruct (Z.eqb k z). }
  rewrite !Hc. simpl List.length.
  assert (z = 0 \/ z = 1 \/ z = 2 \/ z = 3)%Z as [-> | [-> | [-> | ->]]] by lia;
    simpl; lia.
Qed.

(** X22.  When the flag column of a variable holds the flags 0 to 3, one per
    row, the four provenance counts of a report row add up to the number
    of rows, whatever is still missing. *)
Theorem quality_counts_partition
  (label : string) (sub : DataFrame) (col : string) (c : Column) (fl : list Z) :
  get_col (columns sub) (flag_col col) = Some (Int64 fl) ->
  List.length fl = len sub ->
  Forall (fun z => (0 <= z <= 3)%Z) fl ->
  let row := quality_row label sub col c in
  (original_data_count row + interpolated_count row
   + forward_backward_filled_count row + calculated_count row)%Z = total_rows row /\
  total_imputed_count row
  = (interpolated_count row + forward_backward_filled_count row
     + calculated_count row)%Z.
Proof.
  intros Hf Hl Hr. cbv zeta. unfold quality_row. rewrite Hf. simpl.
  split; [|reflexivity].
  pose proof (count_flags fl Hr) as H. rewrite Hl in H. lia.
Qed.

Lemma quality_counts_partition_witness :
  get_col (columns flagged_station) (flag_col "Temperature")
  = Some (Int64 [0; 1; 2]%Z) /\
  List.length [0; 1; 2]%Z = len flagged_station /\
  Forall (fun z => (0 <= z <= 3)%Z) [0; 1; 2]%Z /\
  total_imputed_count
    (quality_row "A" flagged_station "Temperature" (Float64 flagged_readings))
  = (interpolated_count
       (quality_row "A" flagged_station "Temperature" (Float64 flagged_readings))
     + forward_backward_filled_count
         (quality_row "A" flagged_station "Temperature" (Float64 flagged_readings))
     + calculated_count
         (quality_row "A" flagged_station "Temperature" (Float64 flagged_readings)))%Z.
Proof.
  assert (H1 : get_col (columns flagged_station) (flag_col "Temperature")
               = Some (Int64 [0; 1; 2]%Z)) by reflexivity.
  assert (H2 : List.length [0; 1; 2]%Z = len flagged_station) by reflexivity.
  assert (H3 : Forall (fun z => (0 <= z <= 3)%Z) [0; 1; 2]%Z)
    by (repeat constructor; lia).
  split; [exact H1|]. split; [exact H2|]. split; [exact H3|].
  exact (proj2 (quality_counts_partition "A" flagged_station "Temperature"
                  (Float64 flagged_readings) [0; 1; 2]%Z H1 H2 H3)).
Defined.

(** *** The summary row and the station rows *)

Lemma insert_string_perm (s : string) (l : list string) :
  Permutation (insert_string s l) (s :: l).
Proof.
  induction l as [|x l IH]; simpl; [reflexivity|].
  destruct (String.compare s x); try reflexivity.
  rewrite IH. apply perm_swap.
Qed.

Lemma sorted_perm (l : list string) : Permutation (sorted l) l.
Proof.
  induction l as [|x l IH]; simpl; [reflexivity|].
  unfold sorted in *. rewrite insert_string_perm. now constructor.
Qed.

Lemma str_in_In (s : string) (l : list string) : str_in s l = true <-> In s l.
Proof.
  unfold str_in. rewrite existsb_exists. split.
  - intros (x & Hx & E). apply String.eqb_eq in E. now subst.
  - intros H. exists s. split; [exact H | apply String.eqb_refl].
Qed.

Lemma unique_aux_NoDup (l : list string) :
  forall seen, NoDup (unique_aux seen l).
Proof.
  induction l as [|x l IH]; intros seen; simpl; [constructor|].
  destruct (str_in x seen) eqn:E; [apply IH|].
  constructor; [|apply IH].
  intros H. apply unique_aux_In in H as [_ H]. apply H. now left.
Qed.

Lemma stations_NoDup (df : DataFrame) : NoDup (sorted (unique (station df))).
Proof.
  apply (Permutation_NoDup (Permutation_sym (sorted_perm _))).
  apply unique_aux_NoDup.
Qed.

Lemma count_true_cons (b : bool) (m : list bool) :
  count_true (b :: m) = ((if b then 1 else 0) + count_true m)%nat.
Proof. unfold count_true. simpl. now destruct b. Qed.

Lemma Zsum_cons (x : Z) (l : list Z) : Zsum (x :: l) = (x + Zsum l)%Z.
Proof. reflexivity. Qed.

Lemma Zsum_zero {A : Type} (l : list A) : Zsum (map (fun _ => 0%Z) l) = 0%Z.
Proof.
  induction l as [|x l IH]; [reflexivity|].
  cbn [map]. rewrite Zsum_cons, IH. reflexivity.
Qed.

Lemma Zsum_miss (f : string -> Z) (s0 : string) (U : list string) :
  ~ In s0 U ->
  Zsum (map (fun s => ((if String.eqb s s0 then 1 else 0) + f s)%Z) U)
  = Zsum (map f U).
Proof.
  induction U as [|u U IH]; intros Hn; [reflexivity|].
  cbn [map]. rewrite !Zsum_cons, IH by (intros H; apply Hn; now right).
  destruct (String.eqb u s0) eqn:E; [|lia].
  apply String.eqb_eq in E. subst. elim Hn. now left.
Qed.

Lemma Zsum_hit (f : string -> Z) (s0 : string) (U : list string) :
  NoDup U -> In s0 U ->
  Zsum (map (fun s => ((if String.eqb s s0 then 1 else 0) + f s)%Z) U)
  = (1 + Zsum (map f U))%Z.
Proof.
  induction 1 as [|s U Hs Hnd IH]; intros Hin; [destruct Hin|].
  cbn [map]. rewrite !Zsum_cons. destruct Hin as [-> | Hin].
  - rewrite String.eqb_refl, Zsum_miss by assumption. lia.
  - destruct (String.eqb s s0) eqn:E.
    + apply String.eqb_eq in E. subst. contradiction.
    + rewrite IH by assumption. lia.
Qed.

Lemma count_by_station (U : list string) (S : list string) :
  NoDup U ->
  forall m : list bool,
    List.length m = List.length S ->
    (forall s, In s S -> In s U) ->
    Zsum (map (fun s => Z.of_nat (count_true (select (map (String.eqb s) S) m))) U)
    = Z.of_nat (count_true m).
Proof.
  intros Hnd. induction S as [|s0 S IH]; intros [|b m] Hl HU; simpl in Hl;
    try discriminate.
  - apply (Zsum_zero U).
  - rewrite count_true_cons.
    specialize (IH m ltac:(lia) (fun s H => HU s (or_intror H))).
    destruct b.
    + rewrite (map_ext _ (fun s =>
                 ((if String.eqb s s0 then 1 else 0)
                  + Z.of_nat (count_true (select (map (String.eqb s) S) m)))%Z)).
      * rewrite (Zsum_hit _ s0 U Hnd (HU s0 (or_introl eq_refl))). lia.
      * intros s. cbn [map select]. destruct (String.eqb s s0); [|lia].
        rewrite count_true_cons. lia.
    + change (0 + count_true m)%nat with (count_true m).
      rewrite <- IH. f_equal. apply map_ext. intros s. cbn [map select].
      destruct (String.eqb s s0); [|reflexivity].
      now rewrite count_true_cons.
Qed.

Lemma count_true_all {A : Type} (l : list A) :
  count_true (map (fun _ => true) l) = List.length l.
Proof.
  induction l as [|x l IH]; [reflexivity|].
  simpl map. rewrite count_true_cons, IH. reflexivity.
Qed.

(** X23.  For every column the ALL_STATIONS row of the report counts what the
    station rows count together: its total and its missing count are the
    sums over the stations. *)
Theorem quality_summary_is_sum (df : DataFrame) (col : string) (c : Column) :
  column_length c = len df ->
  total_rows (quality_row "ALL_STATIONS" df col c)
  = Zsum (map total_rows (station_rows df col c)) /\
  missing_count (quality_row "ALL_STATIONS" df col c)
  = Zsum (map missing_count (station_rows df col c)).
Proof.
  intros Hl. unfold station_rows. rewrite !map_map.
  assert (Hlab : forall label sub c0,
            total_rows (quality_row label sub col c0) = Z.of_nat (len sub) /\
            missing_count (quality_row label sub col c0) = Z.of_nat (null_count c0)).
  { intros label sub c0. pose proof (quality_row_labels label sub col c0). tauto. }
  assert (HU : forall s, In s (station df) -> In s (sorted (unique (station df))))
    by (intros s Hs; now apply sorted_In, unique_In).
  split.
  - rewrite (proj1 (Hlab _ _ _)).
    rewrite (map_ext _ (fun s => Z.of_nat (count_true
               (select (map (String.eqb s) (station df))
                       (map (fun _ => true) (station df)))))).
    + rewrite (count_by_station _ (station df) (stations_NoDup df));
        [|now rewrite length_map | exact HU].
      now rewrite count_true_all.
    + intros s. rewrite (proj1 (Hlab _ _ _)). unfold len, filter_rows. simpl.
      now rewrite select_map, count_true_all.
  - rewrite (proj2 (Hlab _ _ _)).
    destruct c as [v | v | v | v]; simpl in Hl |- *.
    + rewrite (map_ext _ (fun s => Z.of_nat (count_true
                 (select (map (String.eqb s) (station df)) (map isnull v))))).
      * apply eq_sym, (count_by_station _ (station df) (stations_NoDup df));
          [now rewrite length_map | exact HU].
      * intros s. rewrite (proj2 (Hlab _ _ _)). simpl. unfold station_mask.
        now rewrite select_map.
    + rewrite (map_ext _ (fun _ => 0%Z)) by (intros s; now rewrite (proj2 (Hlab _ _ _))).
      now rewrite Zsum_zero.
    + rewrite (map_ext _ (fun _ => 0%Z)) by (intros s; now rewrite (proj2 (Hlab _ _ _))).
      now rewrite Zsum_zero.
    + rewrite (map_ext _ (fun _ => 0%Z)) by (intros s; now rewrite (proj2 (Hlab _ _ _))).
      now rewrite Zsum_zero.
Qed.

Lemma quality_summary_is_sum_witness :
  column_length (Float64 flagged_readings) = len flagged_station /\
  total_rows (quality_row "ALL_STATIONS" flagged_station "Temperature"
                (Float64 flagged_readings))
  = Zsum (map total_rows
            (station_rows flagged_station "Temperature" (Float64 flagged_readings))).
Proof.
  assert (H : column_length (Float64 flagged_readings) = len flagged_station)
    by reflexivity.
  split; [exact H|].
  exact (proj1 (quality_summary_is_sum flagged_station "Temperature"
                  (Float64 flagged_readings) H)).
Defined.

(** * Loading and cleaning *)

(** ** The station of a file *)

Lemma split_on_nonempty (sep : ascii) (s : string) : split_on sep s <> [].
Proof.
  destruct s as [|c s]; simpl; [discriminate|].
  destruct (Ascii.eqb c sep); [discriminate|].
  destruct (split_on sep s); discriminate.
Qed.

Lemma station_of_path_cons (c : ascii) (p : string) :
  station_of_path (String c p)
  = if is_separator c then EmptyString else String c (station_of_path p).
Proof.
  unfold station_of_path, is_separator. cbv zeta. simpl replace_char.
  destruct (Ascii.eqb c backslash) eqn:Eb.
  - rewrite orb_true_r. simpl. reflexivity.
  - rewrite orb_false_r. simpl.
    destruct (Ascii.eqb c slash); [reflexivity|].
    pose proof (split_on_nonempty slash (replace_char backslash slash p)) as Hne.
    destruct (split_on slash (replace_char backslash slash p)); [congruence|].
    reflexivity.
Qed.

(** X24.  The station of a file is the part of its relative path before the
    first slash or backslash, and the whole path when it has none: a file
    that lies directly in the data folder is its own station.  The station
    is always a prefix of the path, so the fallback name can only come out
    of a path that starts with it. *)
Theorem station_of_path_prefix (p : string) :
  exists rest,
    p = (station_of_path p ++ rest)%string /\
    (forall c, In c (chars (station_of_path p)) -> is_separator c = false) /\
    (rest = EmptyString \/
     exists c r, rest = String c r /\ is_separator c = true).
Proof.
  induction p as [|c p IH].
  - exists EmptyString. repeat split; [intros c [] | now left].
  - rewrite station_of_path_cons. destruct (is_separator c) eqn:E.
    + exists (String c p). repeat split; [intros c' [] | right; eauto].
    + destruct IH as (rest & Hp & Hno & Hrest).
      exists rest. split; [simpl; now rewrite <- Hp|].
      split; [|exact Hrest].
      intros c' [<- | Hc']; [exact E | now apply Hno].
Qed.

(** ** The months asked from ECCC *)

Lemma months_of_year_In (year last_month y m : nat) :
  In (y, m) (map (fun month => (year, month)) (seq 1 last_month)) <->
  y = year /\ (1 <= m <= last_month)%nat.
Proof.
  rewrite in_map_iff. split.
  - intros (x & [= <- <-] & Hx). apply in_seq in Hx. lia.
  - intros [-> Hm]. exists m. split; [reflexivity|]. apply in_seq. lia.
Qed.

Lemma flat_map_sorted {A B : Type} (RA : A -> A -> Prop) (RB : B -> B -> Prop)
  (f : A -> list B) (l : list A) :
  (forall x, In x l -> StronglySorted RB (f x)) ->
  (forall x y a b, RA x y -> In a (f x) -> In b (f y) -> RB a b) ->
  StronglySorted RA l ->
  StronglySorted RB (flat_map f l).
Proof.
  intros Hin Hcross Hs. induction Hs as [|x l Hs IH Hx]; simpl; [constructor|].
  assert (Hfx : StronglySorted RB (f x)) by (apply Hin; now left).
  assert (Hrest : StronglySorted RB (flat_map f l))
    by (apply IH; intros y Hy; apply Hin; now right).
  assert (Hc : forall a b, In a (f x) -> In b (flat_map f l) -> RB a b).
  { intros a b Ha Hb. apply in_flat_map in Hb as (y & Hy & Hb).
    rewrite Forall_forall in Hx. eapply Hcross; eauto. }
  clear Hin IH. induction Hfx as [|a fx Hfx IHf Ha]; simpl; [exact Hrest|].
  constructor.
  - apply IHf. intros a' b Ha' Hb. apply Hc; [now right | exact Hb].
  - apply Forall_app. split; [exact Ha|].
    rewrite Forall_forall. intros b Hb. apply Hc; [now left | exact Hb].
Qed.

Lemma seq_sorted (a n : nat) : StronglySorted lt (seq a n).
Proof.
  revert a; induction n as [|n IH]; intros a; simpl; constructor; [apply IH|].
  rewrite Forall_forall. intros x Hx. apply in_seq in Hx. lia.
Qed.

Lemma month_sorted_NoDup (l : list (nat * nat)) : StronglySorted month_lt l -> NoDup l.
Proof.
  induction 1 as [|a l Hs IH Ha]; constructor; [|exact IH].
  intros Hin. rewrite Forall_forall in Ha.
  destruct (Ha a Hin) as [H | [_ H]]; lia.
Qed.

(** X25.  The download asks for every month from January 2022 to the current
    month, once each and in chronological order; run before 2022 it asks
    for nothing. *)
Theorem eccc_months_schedule (current_year current_month : nat) :
  (forall y m,
     In (y, m) (eccc_months current_year current_month) <->
     (2022 <= y <= current_year)%nat /\
     (1 <= m <= if (y =? current_year)%nat then current_month else 12)%nat) /\
  StronglySorted month_lt (eccc_months current_year current_month) /\
  NoDup (eccc_months current_year current_month).
Proof.
  assert (Hs : StronglySorted month_lt (eccc_months current_year current_month)).
  { unfold eccc_months.
    apply (flat_map_sorted lt month_lt); [| |apply seq_sorted].
    - intros year _. cbv zeta.
      generalize (if (year =? current_year)%nat then current_month else 12%nat) as k.
      intros k. generalize 1%nat as a. induction k as [|k IHk]; intros a; simpl;
        constructor; [apply IHk|].
      rewrite Forall_forall. intros [y m] H. apply in_map_iff in H as (x & [= <- <-] & Hx).
      apply in_seq in Hx. right. simpl. lia.
    - intros x y [ya ma] [yb mb] Hxy Ha Hb. cbv zeta in Ha, Hb.
      apply months_of_year_In in Ha as [-> _]. apply months_of_year_In in Hb as [-> _].
      left. exact Hxy. }
  split; [|split; [exact Hs | now apply month_sorted_NoDup]].
  intros y m. unfold eccc_months. rewrite in_flat_map. split.
  - intros (year & Hy & Hm). cbv zeta in Hm. apply months_of_year_In in Hm as [-> Hm].
    apply in_seq in Hy. unfold ECCC_START_YEAR in Hy. split; [lia | exact Hm].
  - intros [Hy Hm]. exists y. split.
    + apply in_seq. unfold ECCC_START_YEAR. lia.
    + cbv zeta. apply months_of_year_In. auto.
Qed.

(** ** Column names *)

Ltac each_ascii c := destruct c as [[] [] [] [] [] [] [] []]; reflexivity.

Lemma lower_ascii_idempotent (c : ascii) : lower_ascii (lower_ascii c) = lower_ascii c.
Proof. each_ascii c. Qed.

Lemma lower_upper_ascii (c : ascii) : lower_ascii (upper_ascii c) = lower_ascii c.
Proof. each_ascii c. Qed.

Lemma cased_lower_ascii (c : ascii) :
  is_upper (lower_ascii c) || is_lower (lower_ascii c) = is_upper c || is_lower c.
Proof. each_ascii c. Qed.

Lemma cased_upper_ascii (c : ascii) :
  is_upper (upper_ascii c) || is_lower (upper_ascii c) = is_upper c || is_lower c.
Proof. each_ascii c. Qed.

Lemma upper_ascii_idempotent (c : ascii) : upper_ascii (upper_ascii c) = upper_ascii c.
Proof. each_ascii c. Qed.

Lemma lower_title_from (s : string) :
  forall b, lower (title_from b s) = lower s.
Proof.
  induction s as [|c s IH]; intros b; simpl; [reflexivity|].
  destruct (is_upper c || is_lower c); simpl; rewrite IH; [|reflexivity].
  destruct b; now rewrite ?lower_ascii_idempotent, ?lower_upper_ascii.
Qed.

Lemma title_from_idempotent (s : string) :
  forall b, title_from b (title_from b s) = title_from b s.
Proof.
  induction s as [|c s IH]; intros b; simpl; [reflexivity|].
  destruct (is_upper c || is_lower c) eqn:E; simpl.
  - destruct b.
    + rewrite cased_lower_ascii, E, lower_ascii_idempotent, IH. reflexivity.
    + rewrite cased_upper_ascii, E, upper_ascii_idempotent, IH. reflexivity.
  - rewrite E, IH. reflexivity.
Qed.

Lemma dict_get_spec (d : list (string * string)) (k : string) :
  (exists v, In v (map snd d) /\ forall default, dict_get d k default = v) \/
  (forall default, dict_get d k default = default).
Proof.
  induction d as [|[k' v] d IH]; simpl; [now right|].
  destruct (String.eqb k' k).
  - left. exists v. auto.
  - destruct IH as [(v' & Hin & H) | H]; [left; exists v'; auto | now right].
Qed.

Lemma is_junk_title (s : string) : is_junk (title s) = is_junk s.
Proof. unfold is_junk, title. now rewrite lower_title_from. Qed.

Lemma replacements_standard :
  Forall (fun v => is_junk v = false /\ standardize v = v) (map snd replacements).
Proof. repeat constructor. Qed.

Lemma standardize_cases (col : string) :
  standardize col = "Dew" \/
  In (standardize col) (map snd replacements) \/
  (standardize col = title col /\
   forall col', strip (lower col') = strip (lower col) -> standardize col' = title col').
Proof.
  unfold standardize. cbv zeta.
  destruct (contains "dew" (strip (lower col))) eqn:Ed; [now left|].
  right. destruct (dict_get_spec replacements (strip (lower col)))
    as [(v & Hin & H) | H].
  - left. now rewrite H.
  - right. split; [apply H|]. intros col' E. now rewrite E, Ed, H.
Qed.

(** X26.  Standardising a column name twice gives the same name as once. *)
Theorem standardize_idempotent (col : string) :
  standardize (standardize col) = standardize col.
Proof.
  pose proof replacements_standard as Hr. rewrite Forall_forall in Hr.
  destruct (standardize_cases col) as [-> | [Hin | [Ht Hmiss]]].
  - reflexivity.
  - now apply Hr.
  - rewrite Ht. rewrite Hmiss.
    + apply title_from_idempotent.
    + unfold title. now rewrite lower_title_from.
Qed.

Lemma standardize_not_junk (col : string) :
  is_junk col = false -> is_junk (standardize col) = false.
Proof.
  intros H. pose proof replacements_standard as Hr. rewrite Forall_forall in Hr.
  destruct (standardize_cases col) as [-> | [Hin | [-> _]]].
  - reflexivity.
  - now apply Hr.
  - now rewrite is_junk_title.
Qed.

Lemma first_labels_In {A : Type} (cols : list (string * A)) :
  forall seen nc, In nc (first_labels seen cols) -> In nc cols /\ ~ In (fst nc) seen.
Proof.
  induction cols as [|[n c] cols IH]; intros seen nc; simpl; [tauto|].
  destruct (str_in n seen) eqn:E.
  - intros H. apply IH in H as [H1 H2]. auto.
  - intros [<- | H].
    + split; [now left|]. simpl. intros Hin. apply str_in_In in Hin. congruence.
    + apply IH in H as [H1 H2]. split; [now right|].
      intros Hin. apply H2. now right.
Qed.

Lemma first_labels_NoDup {A : Type} (cols : list (string * A)) :
  forall seen, NoDup (map fst (first_labels seen cols)).
Proof.
  induction cols as [|[n c] cols IH]; intros seen; simpl; [constructor|].
  destruct (str_in n seen); [apply IH|].
  simpl. constructor; [|apply IH].
  intros Hin. apply in_map_iff in Hin as (nc & E & Hin).
  apply first_labels_In in Hin as [_ Hn]. apply Hn. rewrite E. now left.
Qed.

Lemma NoDup_map_filter {A B : Type} (f : A -> B) (P : A -> bool) (l : list A) :
  NoDup (map f l) -> NoDup (map f (filter P l)).
Proof.
  induction l as [|x l IH]; simpl; [auto|].
  intros H. inversion H as [|? ? Hx Hl]; subst.
  destruct (P x); simpl; [|auto].
  constructor; [|auto].
  intros Hin. apply Hx. apply in_map_iff in Hin as (y & E & Hy).
  apply filter_In in Hy as [Hy _]. apply in_map_iff. eauto.
Qed.

(** X27.  The frame [clean_columns] returns has no two columns of the same
    name and no column whose name holds a junk pattern; every column but
    the station has at least two distinct values; every column holds the
    values of a column of the input, under the standardised name of the
    text before its first parenthesis or underscore. *)
Theorem clean_columns_output (df : RawFrame) :
  NoDup (map fst (rcolumns (clean_columns df))) /\
  nrows (clean_columns df) = nrows df /\
  forall n v, In (n, v) (rcolumns (clean_columns df)) ->
    is_junk n = false /\
    (n <> "station" -> (2 <= nunique v)%nat) /\
    exists n0, In (n0, v) (rcolumns df) /\
               n = if String.eqb (split_name n0) "station" then "station"
                   else standardize (split_name n0).
Proof.
  unfold clean_columns. cbv zeta. simpl. split; [|split; [reflexivity|]].
  - apply NoDup_map_filter, first_labels_NoDup.
  - intros n v H. apply filter_In in H as [H Hc]. simpl in Hc.
    apply first_labels_In in H as [H _].
    apply in_map_iff in H as ([n1 v1] & [= <- <-] & H). simpl fst in *.
    apply filter_In in H as [H Hj]. simpl in Hj. apply negb_true_iff in Hj.
    apply in_map_iff in H as ([n0 v0] & [= <- <-] & H). simpl in *.
    split; [|split].
    + destruct (String.eqb (split_name n0) "station"); [reflexivity|].
      now apply standardize_not_junk.
    + intros Hne. apply negb_true_iff, andb_false_iff in Hc as [Hc | Hc].
      * apply Nat.leb_gt in Hc. lia.
      * apply negb_false_iff, String.eqb_eq in Hc. contradiction.
    + exists n0. auto.
Qed.

(** X28.  A column that the files call accumulated rain, or precipitation
    amount, is renamed to [Percipitation]; under that name the aggregators
    do not recognise a rain column: they average it by the hour and report
    its daily minimum, maximum and mean, where a column named Rain or
    Precipitation is summed. *)
Theorem accumulated_rain_is_averaged (col : string) :
  strip (lower col) = "accumulated rain" \/ strip (lower col) = "precip. amount" ->
  standardize col = "Percipitation" /\
  hourly_rule (standardize col) = AggMean /\
  map snd (daily_aggs (standardize col)) = [AggMin; AggMax; AggMean] /\
  hourly_rule "Precipitation" = AggSum.
Proof.
  intros H.
  assert (E : standardize col = "Percipitation").
  { unfold standardize. cbv zeta. destruct H as [-> | ->]; reflexivity. }
  rewrite E. repeat split.
Qed.

Lemma accumulated_rain_is_averaged_witness :
  (strip (lower "Accumulated Rain") = "accumulated rain" \/
   strip (lower "Accumulated Rain") = "precip. amount") /\
  standardize "Accumulated Rain" = "Percipitation" /\
  hourly_rule (standardize "Accumulated Rain") = AggMean.
Proof.
  assert (H : strip (lower "Accumulated Rain") = "accumulated rain" \/
              strip (lower "Accumulated Rain") = "precip. amount")
    by (left; reflexivity).
  split; [exact H|].
  pose proof (accumulated_rain_is_averaged "Accumulated Rain" H) as (H1 & H2 & _).
  split; [exact H1 | exact H2].
Defined.

(** ** One file *)

Lemma set_rcol_names (cols : list (string * list rcell)) (name : string)
  (c : list rcell) (n : string) :
  In n (map fst (set_rcol cols name c)) <-> n = name \/ In n (map fst cols).
Proof.
  induction cols as [|[n0 c0] cols IH]; simpl.
  - intuition.
  - destruct (String.eqb n0 name) eqn:E; simpl.
    + apply String.eqb_eq in E. subst n0. intuition.
    + rewrite IH. intuition.
Qed.

Lemma set_rcol_NoDup (cols : list (string * list rcell)) (name : string) (c : list rcell) :
  NoDup (map fst cols) -> NoDup (map fst (set_rcol cols name c)).
Proof.
  induction cols as [|[n0 c0] cols IH]; simpl; intros H.
  - constructor; [tauto | constructor].
  - inversion H as [|? ? Hn Hnd]; subst.
    destruct (String.eqb n0 name) eqn:E; simpl; [exact H|].
    constructor; [|auto].
    intros Hin. apply set_rcol_names in Hin as [-> | Hin]; [|contradiction].
    now rewrite String.eqb_refl in E.
Qed.

Lemma set_rcol_value (cols : list (string * list rcell)) (name : string)
  (c v : list rcell) :
  NoDup (map fst cols) -> In (name, v) (set_rcol cols name c) -> v = c.
Proof.
  induction cols as [|[n0 c0] cols IH]; simpl; intros Hnd.
  - intros [[= <-] | []]. reflexivity.
  - inversion Hnd as [|? ? Hn Hnd']; subst.
    destruct (String.eqb n0 name) eqn:E.
    + apply String.eqb_eq in E. subst n0.
      intros [[= <-] | H]; [reflexivity|].
      elim Hn. apply in_map_iff. exists (name, v). auto.
    + intros [[= -> _] | H]; [now rewrite String.eqb_refl in E | auto].
Qed.

(** X29.  Every row of a file gets the station of the file's path, whatever a
    station column of the file said; the frame still has no two columns
    of the same name. *)
Theorem process_single_file_station (relative_path : string) (df : RawFrame) :
  NoDup (map fst (rcolumns (process_single_file relative_path df))) /\
  In "station" (map fst (rcolumns (process_single_file relative_path df))) /\
  forall v, In ("station", v) (rcolumns (process_single_file relative_path df)) ->
            v = repeat (Some (Str (station_of_path relative_path))) (nrows df).
Proof.
  unfold process_single_file. cbv zeta. cbn [rcolumns].
  assert (Hnd : NoDup (map fst (rcolumns (clean_columns df))))
    by (unfold clean_columns; cbv zeta; cbn [rcolumns];
        apply NoDup_map_filter, first_labels_NoDup).
  split; [now apply set_rcol_NoDup|].
  split; [apply set_rcol_names; now left|].
  intros v H. now apply set_rcol_value in H.
Qed.

(** ** Rows and columns of the combined table *)

Lemma distinct_In (v : list rcell) :
  forall seen x, In x (distinct seen v) ->
    In (Some x) v /\ existsb (value_eqb x) seen = false.
Proof.
  induction v as [|[y|] v IH]; intros seen x; simpl; [tauto| |].
  - destruct (existsb (value_eqb y) seen) eqn:E.
    + intros H. apply IH in H as [H1 H2]. auto.
    + intros [<- | H]; [auto|].
      apply IH in H as [H1 H2]. split; [auto|].
      simpl in H2. now apply orb_false_iff in H2.
  - intros H. apply IH in H as [H1 H2]. auto.
Qed.

Lemma distinct_tail (v : list rcell) :
  forall seen x l, distinct seen v = x :: l ->
    forall y, In y l -> In (Some y) v /\ value_eqb y x = false.
Proof.
  induction v as [|[z|] v IH]; intros seen x l; simpl; [discriminate| |].
  - destruct (existsb (value_eqb z) seen).
    + intros H y Hy. destruct (IH _ _ _ H y Hy). auto.
    + intros [= -> <-] y Hy. apply distinct_In in Hy as [H1 H2].
      split; [auto|]. simpl in H2. now apply orb_false_iff in H2.
  - intros H y Hy. destruct (IH _ _ _ H y Hy). auto.
Qed.

Lemma distinct_nonempty (v : list rcell) :
  forallb rnull v = false -> distinct [] v <> [].
Proof.
  induction v as [|[x|] v IH]; simpl; [discriminate| discriminate |auto].
Qed.

Lemma two_values (v : list rcell) :
  zero_variance v = false ->
  exists a b, In (Some a) v /\ In (Some b) v /\ value_eqb a b = false.
Proof.
  unfold zero_variance, nunique. intros H.
  apply orb_false_iff in H as [Hn Hnull]. apply Nat.eqb_neq in Hn.
  pose proof (distinct_nonempty v Hnull) as Hne.
  destruct (distinct [] v) as [|x [|y l]] eqn:E; [congruence | simpl in Hn; lia|].
  assert (Hx : In x (distinct [] v)) by (rewrite E; now left).
  apply distinct_In in Hx as [Hx _].
  destruct (distinct_tail v [] x (y :: l) E y (or_introl eq_refl)) as [Hy Hxy].
  exists y, x. auto.
Qed.

Lemma get_rcol_In (cols : list (string * list rcell)) (name : string) (c : list rcell) :
  get_rcol cols name = Some c -> In (name, c) cols.
Proof.
  induction cols as [|[n c0] cols IH]; simpl; [discriminate|].
  destruct (String.eqb n name) eqn:E.
  - apply String.eqb_eq in E. intros [= ->]. subst. now left.
  - intros H. right. auto.
Qed.

Lemma reorder_In (cols out : list (string * list rcell)) (v : list rcell) :
  reorder cols = Returned out -> In ("station", v) out -> In ("station", v) cols.
Proof.
  unfold reorder.
  destruct (get_rcol cols "Datetime_UTC") as [d|]; [|now intros [= ->]].
  destruct (get_rcol cols "station") as [s|] eqn:Es; [|discriminate].
  intros [= <-] [[= ?] | [[= <-] | H]].
  - now apply get_rcol_In.
  - apply filter_In in H. tauto.
Qed.

Lemma select_rows_In (m : list bool) (df : RawFrame) (n : string) (v : list rcell) :
  In (n, v) (rcolumns (select_rows m df)) ->
  exists v0, In (n, v0) (rcolumns df) /\ forall x, In x v -> In x v0.
Proof.
  unfold select_rows. simpl. intros H.
  apply in_map_iff in H as ([n0 v0] & [= <- <-] & H).
  exists v0. split; [exact H|]. intros x. apply select_sub.
Qed.

(** X30.  [clean_weather_data] returns a table only when the station column
    holds at least two different stations: with the records of a single
    station the column has one distinct value, is dropped with the
    zero-variance columns, and the last block fails on it. *)
Theorem clean_weather_data_needs_two_stations (df out : RawFrame) :
  clean_weather_data df = Returned out ->
  exists v a b,
    In ("station", v) (rcolumns df) /\
    In (Some a) v /\ In (Some b) v /\ value_eqb a b = false.
Proof.
  unfold clean_weather_data. cbv zeta.
  set (df1 := mkRawFrame (nrows df) _).
  set (mask_keep := map _ (seq 0 (nrows df1))).
  set (df2 := select_rows mask_keep df1).
  set (df3 := select_rows (first_occurrences [] (rows df2)) df2).
  destruct (reorder (rcolumns df3)) as [cols|e] eqn:Er; [|discriminate].
  destruct (str_in "station" _) eqn:Es; [|discriminate].
  intros _. apply str_in_In in Es. rewrite map_map in Es. simpl in Es.
  apply in_map_iff in Es as ([n v3] & En & Hin). simpl in En. subst n.
  apply filter_In in Hin as [Hin Hz]. simpl in Hz. apply negb_true_iff in Hz.
  destruct (two_values v3 Hz) as (a & b & Ha & Hb & Hab).
  apply (reorder_In _ _ _ Er) in Hin.
  apply select_rows_In in Hin as (v2 & Hin & H32).
  apply select_rows_In in Hin as (v1 & Hin & H21).
  unfold df1 in Hin. simpl in Hin. apply filter_In in Hin as [Hin _].
  exists v1, a, b. split; [exact Hin|].
  split; [apply H21, H32, Ha|]. split; [apply H21, H32, Hb | exact Hab].
Qed.

Lemma clean_weather_data_needs_two_stations_witness :
  clean_weather_data two_stations = Returned two_stations /\
  exists v a b,
    In ("station", v) (rcolumns two_stations) /\
    In (Some a) v /\ In (Some b) v /\ value_eqb a b = false.
Proof.
  assert (H : clean_weather_data two_stations = Returned two_stations)
    by (vm_compute; reflexivity).
  split; [exact H|].
  exact (clean_weather_data_needs_two_stations two_stations two_stations H).
Defined.
